(** * Retail-Analytics-Pro: the dashboard script [static/script.js]

    A shallow embedding of the client-side logic of the dashboard: the
    query-string builder and the filter reader, the client-side
    aggregations (day of week, category, cohort, association pairs,
    forecast), the paginated transactions table, the transaction form and
    the product table with its search and sort; then the customer
    segments and their charts, the top-products chart, the filter
    controls and the CSV export.

    Conventions of the embedding.
    - A JavaScript string is a [string] of bytes (its UTF-8 encoding);
      the default order of [Array.prototype.sort] on strings is
      [String.leb].
    - A JavaScript number that carries money or a quantity is an exact
      rational [Q]; the rounding of IEEE doubles is not modelled.
    - A field of a record received from the backend is an [option]:
      [None] stands for an absent (undefined) field.
    - A plain object used as a dictionary is a list of properties in
      insertion order; enumeration follows the order of own property
      keys: array indices ascending, then the other keys as inserted.
      The category buckets also model the members that a plain object
      inherits from [Object.prototype]; in the other dictionaries
      (invoice numbers, year-months, pair keys, cluster numbers) a key
      that names such a member is outside the model.
    - The browser supplies date parsing, number formatting and locale
      comparison; each is a parameter of the function that calls it.
    - A JavaScript array that is mutated in place lives in a store of
      arrays and is named by a reference. *)

From Stdlib Require Import ZArith QArith Qround Ascii String List Bool Lia.
From Stdlib Require Import DecimalString DecimalPos DecimalN Sorted Permutation Lqa.
From stdpp Require Import base option list gmap strings.

Local Open Scope string_scope.
Local Open Scope list_scope.

(** ** Strings *)

Module JsString.

Definition charCode (c : ascii) : nat := nat_of_ascii c.

Definition inRange (lo hi : nat) (c : ascii) : bool :=
  (lo <=? charCode c)%nat && (charCode c <=? hi)%nat.

(** [Array.prototype.join] on an array of strings. *)
Fixpoint join (sep : string) (l : list string) : string :=
  match l with
  | [] => ""
  | [x] => x
  | x :: r => String.append x (String.append sep (join sep r))
  end.

(** [String.prototype.split] with a separator of one character: the
    result always has at least one piece. *)
Fixpoint split (sep : ascii) (s : string) : list string :=
  match s with
  | EmptyString => [ "" ]
  | String c r =>
      if Ascii.eqb c sep then "" :: split sep r
      else match split sep r with
           | p :: ps => String c p :: ps
           | [] => [ String c "" ]
           end
  end.

Fixpoint contains (c : ascii) (s : string) : bool :=
  match s with
  | EmptyString => false
  | String a r => Ascii.eqb a c || contains c r
  end.

(** [s.substring(0, n)] *)
Fixpoint take (n : nat) (s : string) : string :=
  match n, s with
  | S k, String c r => String c (take k r)
  | _, _ => ""
  end.

(** [s.includes(q)] *)
Fixpoint includes (s q : string) : bool :=
  String.prefix q s ||
  match s with
  | EmptyString => false
  | String _ r => includes r q
  end.

(** [toLowerCase] on the ASCII letters; other bytes are kept. *)
Definition lowerChar (c : ascii) : ascii :=
  if inRange 65 90 c then ascii_of_nat (charCode c + 32) else c.

Fixpoint toLowerCase (s : string) : string :=
  match s with
  | EmptyString => ""
  | String c r => String (lowerChar c) (toLowerCase r)
  end.

(** White space of one byte: TAB, LF, VT, FF, CR and the space. *)
Definition isSpace (c : ascii) : bool :=
  inRange 9 13 c || (charCode c =? 32)%nat.

Fixpoint trimStart (s : string) : string :=
  match s with
  | EmptyString => ""
  | String c r => if isSpace c then trimStart r else s
  end.

Fixpoint trimEnd (s : string) : string :=
  match s with
  | EmptyString => ""
  | String c r =>
      match trimEnd r with
      | EmptyString => if isSpace c then "" else String c ""
      | r' => String c r'
      end
  end.

Definition trim (s : string) : string := trimEnd (trimStart s).

(** Characters that [encodeURIComponent] leaves alone. *)
Definition isUnreserved (c : ascii) : bool :=
  inRange 65 90 c || inRange 97 122 c || inRange 48 57 c
  || contains c "-_.!~*'()".

Definition hexDigit (n : nat) : ascii :=
  nth n (list_ascii_of_string "0123456789ABCDEF") "0"%char.

(** [encodeURIComponent]: every byte of the UTF-8 encoding that is not
    unreserved becomes [%XX]. *)
Fixpoint encodeURIComponent (s : string) : string :=
  match s with
  | EmptyString => ""
  | String c r =>
      if isUnreserved c then String c (encodeURIComponent r)
      else String "%" (String (hexDigit (charCode c / 16))
                         (String (hexDigit (charCode c mod 16))
                            (encodeURIComponent r)))
  end.

End JsString.

(** ** Arrays: stable sort and slices *)

Module JsArray.

Section Sort.
Context {A : Type}.
(** [le a b] is "the comparator does not put [b] before [a]", that
    is [cmp(a, b) <= 0]. *)
Variable le : A -> A -> bool.

Fixpoint insert (x : A) (l : list A) : list A :=
  match l with
  | [] => [x]
  | y :: r => if le x y then x :: l else y :: insert x r
  end.

(** [Array.prototype.sort] is stable: equal elements keep their
    order. *)
Definition sort (l : list A) : list A := foldr insert [] l.
End Sort.

(** The relative index of [slice]: a negative index counts from the
    end, and every index is clamped to the array. *)
Definition relIndex (len i : Z) : Z :=
  if (i <? 0)%Z then Z.max (len + i) 0 else Z.min i len.

(** [a.slice(start, end)] *)
Definition slice {A} (start end_ : Z) (l : list A) : list A :=
  let len := Z.of_nat (length l) in
  let k := relIndex len start in
  let final := relIndex len end_ in
  firstn (Z.to_nat (Z.max (final - k) 0)) (skipn (Z.to_nat k) l).

(** [a.slice(start)] *)
Definition sliceFrom {A} (start : Z) (l : list A) : list A :=
  slice start (Z.of_nat (length l)) l.

End JsArray.

(** ** Plain objects used as dictionaries *)

Module JsObject.

(** Properties in insertion order; keys are unique. *)
Definition object (V : Type) := list (string * V).

Definition empty {V} : object V := [].

Fixpoint get {V} (o : object V) (k : string) : option V :=
  match o with
  | [] => None
  | (k', v) :: r => if String.eqb k' k then Some v else get r k
  end.

(** [o[k] = v]: an existing property keeps its place. *)
Fixpoint set {V} (o : object V) (k : string) (v : V) : object V :=
  match o with
  | [] => [(k, v)]
  | (k', v') :: r =>
      if String.eqb k' k then (k', v) :: r else (k', v') :: set r k v
  end.

Definition isDigit (c : ascii) : bool := JsString.inRange 48 57 c.

Fixpoint digitsValue (acc : N) (s : string) : option N :=
  match s with
  | EmptyString => Some acc
  | String c r =>
      if isDigit c
      then digitsValue (acc * 10 + N.of_nat (JsString.charCode c - 48)) r
      else None
  end.

(** An array index is a canonical numeric string below [2^32 - 1]. *)
Definition arrayIndex (k : string) : option N :=
  match k with
  | EmptyString => None
  | String c r =>
      if Ascii.eqb c "0" && negb (String.eqb r "") then None
      else match digitsValue 0 k with
           | Some n => if (n <? 4294967295)%N then Some n else None
           | None => None
           end
  end.

Definition isArrayIndex (k : string) : bool :=
  match arrayIndex k with Some _ => true | None => false end.

Definition indexLe {V} (p q : string * V) : bool :=
  match arrayIndex p.1, arrayIndex q.1 with
  | Some a, Some b => (a <=? b)%N
  | _, _ => true
  end.

(** [Object.entries]: array indices ascending, then the rest as
    inserted. *)
Definition entries {V} (o : object V) : list (string * V) :=
  JsArray.sort indexLe (List.filter (fun p => isArrayIndex p.1) o)
  ++ List.filter (fun p => negb (isArrayIndex p.1)) o.

Definition keys {V} (o : object V) : list string := map fst (entries o).
Definition values {V} (o : object V) : list V := map snd (entries o).

(** The members that an object literal inherits from
    [Object.prototype]. *)
Definition prototypeMembers : list string :=
  [ "constructor"; "__defineGetter__"; "__defineSetter__";
    "hasOwnProperty"; "__lookupGetter__"; "__lookupSetter__";
    "isPrototypeOf"; "propertyIsEnumerable"; "toString"; "valueOf";
    "__proto__"; "toLocaleString" ].

Definition inherited (k : string) : bool :=
  existsb (String.eqb k) prototypeMembers.

End JsObject.

(** ** Filter state and query strings *)

Module FilterState.
Import JsString JsObject.

(** The values a query parameter takes in this script. *)
Inductive value :=
| VUndefined
| VNull
| VStr (s : string)
| VInt (n : Z).

(** [String(v)] *)
Definition toString (v : value) : string :=
  match v with
  | VUndefined => "undefined"
  | VNull => "null"
  | VStr s => s
  | VInt n => NilZero.string_of_int (Z.to_int n)
  end.

(** [v !== undefined && v !== null && v !== ""] *)
Definition present (v : value) : bool :=
  match v with
  | VUndefined | VNull => false
  | VStr s => negb (String.eqb s "")
  | VInt _ => true
  end.

(** [params[k]] *)
Definition valueOf (params : object value) (k : string) : value :=
  default VUndefined (get params k).

Definition pair (params : object value) (k : string) : string :=
  String.append (encodeURIComponent k)
    (String "=" (encodeURIComponent (toString (valueOf params k)))).

Definition kept (params : object value) : list string :=
  List.filter (fun k => present (valueOf params k)) (keys params).

Definition buildQuery (params : object value) : string :=
  let query := join "&" (map (pair params) (kept params)) in
  if String.eqb query "" then "" else String "?" query.

(** The filter panel. *)
Record selectOption := { optValue : string; optSelected : bool }.

Record filterPanel := {
  startDate : string;
  endDate : string;
  countrySelect : list selectOption;
  segmentFilter : string
}.

(** [s || null] *)
Definition orNull (s : string) : value :=
  if String.eqb s "" then VNull else VStr s.

Definition selectedCountries (d : filterPanel) : list string :=
  List.filter (fun v => negb (String.eqb v ""))
    (map optValue (List.filter optSelected (countrySelect d))).

Definition getFilters (d : filterPanel) : object value :=
  [ ("start_date", orNull (startDate d));
    ("end_date", orNull (endDate d));
    ("countries",
      match selectedCountries d with
      | [] => VNull
      | l => VStr (join "," l)
      end) ].

(** Reading a query string back: the names before each [=]. *)
Definition name (piece : string) : string :=
  match split "=" piece with
  | n :: _ => n
  | [] => ""
  end.

Definition queryNames (q : string) : list string :=
  match q with
  | String "?" r => map name (split "&" r)
  | _ => []
  end.

End FilterState.

(** ** Records received from the backend *)

Module Backend.

Record transaction := {
  _id : option string;
  Invoice : option string;
  InvoiceDate : option string;
  StockCode : option string;
  Description : option string;
  Quantity : option Q;
  Price : option Q;
  CustomerID : option string;
  Country : option string
}.

(** Truthiness of a string field: present and not empty. *)
Definition truthy (o : option string) : bool :=
  match o with
  | Some s => negb (String.eqb s "")
  | None => false
  end.

(** [s || d] *)
Definition strOr (o : option string) (d : string) : string :=
  match o with
  | Some s => if String.eqb s "" then d else s
  | None => d
  end.

(** [n || d] *)
Definition numOr (o : option Q) (d : Q) : Q :=
  match o with
  | Some q => if Qeq_bool q 0%Q then d else q
  | None => d
  end.

(** [(t.Quantity || 0) * (t.Price || 0)] *)
Definition revenue (t : transaction) : Q :=
  (numOr (Quantity t) 0 * numOr (Price t) 0)%Q.

(** The string held by a field that was tested to be truthy. *)
Definition text (o : option string) : string := default "" o.

(** A value used as a property key: [undefined] reads "undefined". *)
Definition propertyKey (o : option string) : string :=
  match o with
  | Some s => s
  | None => "undefined"
  end.

Definition sumQ (l : list Q) : Q := foldr Qplus 0%Q l.

End Backend.

(** ** Client-side aggregations *)

Module Aggregator.
Import JsString JsArray JsObject Backend.

(** *** Day-of-week revenue *)

Inductive weekday :=
| Sunday | Monday | Tuesday | Wednesday | Thursday | Friday | Saturday.

Definition dayNames : list weekday :=
  [Sunday; Monday; Tuesday; Wednesday; Thursday; Friday; Saturday].

Definition dayIndex (d : weekday) : nat :=
  match d with
  | Sunday => 0 | Monday => 1 | Tuesday => 2 | Wednesday => 3
  | Thursday => 4 | Friday => 5 | Saturday => 6
  end.

Section DailyPattern.
(** [new Date(s).getDay()]: the day of the week, or [None] when the
    string is not a date (the result is then NaN). *)
Variable getDay : string -> option weekday.

Definition dailyStep (dayRevenue : list Q) (t : transaction) : list Q :=
  if truthy (InvoiceDate t) then
    match getDay (text (InvoiceDate t)) with
    | Some day =>
        alter (fun r => (r + revenue t)%Q) (dayIndex day) dayRevenue
    | None => dayRevenue
    end
  else dayRevenue.

(** The [y] series of the chart drawn by [fetchDailyPattern]. *)
Definition fetchDailyPattern (transactions : list transaction) : list Q :=
  fold_left dailyStep transactions (repeat 0%Q 7).

(** The transactions that reach a bucket. *)
Definition dated (t : transaction) : bool :=
  truthy (InvoiceDate t)
  && match getDay (text (InvoiceDate t)) with
     | Some _ => true
     | None => false
     end.
End DailyPattern.

(** *** Category distribution *)

(** [t.Description.split(' ')[0] || 'Other'] *)
Definition category (description : string) : string :=
  match split " " description with
  | first :: _ => if String.eqb first "" then "Other" else first
  | [] => "Other"
  end.

(** What a bucket of [categories] holds: a number, or the string that
    [+] builds as soon as one operand is not a number. *)
Inductive bucket :=
| Amount (q : Q)
| Text (s : string).

Section Categories.
(** The string that [+] makes of an inherited member of
    [Object.prototype] (the source text of a built-in function,
    "[object Object]" for [__proto__]) and of a number. *)
Variable memberText : string -> string.
Variable numberText : Q -> string.

(** [(categories[c] || 0) + r]: the read finds an own property, else
    an inherited member, else [undefined]; a string or an inherited
    member on the left makes [+] a concatenation. *)
Definition addTo (categories : object bucket) (c : string) (r : Q)
  : bucket :=
  match get categories c with
  | Some (Amount q) => Amount (numOr (Some q) 0 + r)%Q
  | Some (Text s) =>
      if String.eqb s "" then Amount (0 + r)%Q
      else Text (String.append s (numberText r))
  | None =>
      if inherited c
      then Text (String.append (memberText c) (numberText r))
      else Amount (0 + r)%Q
  end.

(** [categories[c] = v]: the setter of [__proto__] ignores a value
    that is not an object, every other key becomes an own property. *)
Definition store (categories : object bucket) (c : string) (v : bucket)
  : object bucket :=
  if String.eqb c "__proto__" then categories else set categories c v.

Definition categoryStep (categories : object bucket) (t : transaction)
  : object bucket :=
  if truthy (Description t) then
    let c := category (text (Description t)) in
    store categories c (addTo categories c (revenue t))
  else categories.

Definition categoryTotals (transactions : list transaction)
  : object bucket :=
  fold_left categoryStep transactions empty.

(** The transactions that fall in the bucket [c]. *)
Definition inCategory (c : string) (t : transaction) : bool :=
  truthy (Description t)
  && String.eqb (category (text (Description t))) c.

(** The comparator [(a, b) => b[1] - a[1]] is not positive. *)
Definition byValueDesc (a b : string * Q) : bool := Qle_bool b.2 a.2.

(** An entry whose value is a number. *)
Definition amountOf (e : string * bucket) : option (string * Q) :=
  match e.2 with
  | Amount q => Some (e.1, q)
  | Text _ => None
  end.

(** The [sorted] array of [fetchCategoryDistribution]. With a string
    among the values [b[1] - a[1]] is NaN: the comparator is not
    consistent, the order that [sort] leaves is implementation-defined,
    and the model gives no array ([None]). *)
Definition fetchCategoryDistribution (transactions : list transaction)
  : option (list (string * Q)) :=
  match mapM amountOf (entries (categoryTotals transactions)) with
  | Some numeric => Some (slice 0 10 (sort byValueDesc numeric))
  | None => None
  end.
End Categories.

(** *** Cohort sizes *)

Definition cohortSet (cohorts : object (gset string)) (m : string)
  : gset string :=
  default ∅ (get cohorts m).

Definition cohortStep (cohorts : object (gset string)) (t : transaction)
  : object (gset string) :=
  if truthy (InvoiceDate t) && truthy (CustomerID t) then
    let month := take 7 (text (InvoiceDate t)) in
    set cohorts month (cohortSet cohorts month ∪ {[ text (CustomerID t) ]})
  else cohorts.

Definition cohortsOf (transactions : list transaction)
  : object (gset string) :=
  fold_left cohortStep transactions empty.

(** The transactions that count for the month [m], and the customers
    they name. *)
Definition inMonth (m : string) (t : transaction) : bool :=
  truthy (InvoiceDate t) && truthy (CustomerID t)
  && String.eqb (take 7 (text (InvoiceDate t))) m.

Definition customersIn (m : string) (transactions : list transaction)
  : gset string :=
  list_to_set (map (fun t => text (CustomerID t))
                 (List.filter (inMonth m) transactions)).

Definition cohortMonths (transactions : list transaction) : list string :=
  slice 0 12 (sort String.leb (keys (cohortsOf transactions))).

(** The [x] and [y] series of the chart drawn by [renderCohortChart]. *)
Definition renderCohortChart (transactions : list transaction)
  : list string * list nat :=
  let cohorts := cohortsOf transactions in
  let months := cohortMonths transactions in
  (months, map (fun m => size (cohortSet cohorts m)) months).

(** *** Association pairs *)

Definition invoiceStep (invoices : object (list (option string)))
    (t : transaction) : object (list (option string)) :=
  let k := propertyKey (Invoice t) in
  set invoices k (default [] (get invoices k) ++ [StockCode t]).

Definition invoicesOf (transactions : list transaction)
  : object (list (option string)) :=
  fold_left invoiceStep transactions empty.

(** [item1 !== item2] *)
Definition differ (a b : option string) : bool :=
  match a, b with
  | Some x, Some y => negb (String.eqb x y)
  | None, None => false
  | _, _ => true
  end.

(** [[item1, item2].sort().join('|')]: [undefined] sorts last and is
    joined as the empty string. *)
Definition pairKey (a b : option string) : string :=
  match a, b with
  | Some x, Some y =>
      if String.ltb y x then join "|" [y; x] else join "|" [x; y]
  | Some x, None | None, Some x => join "|" [x; ""]
  | None, None => join "|" [""; ""]
  end.

(** [associations[key] || 0] *)
Definition countOf (associations : object nat) (key : string) : nat :=
  default 0 (get associations key).

Definition bump (associations : object nat) (key : string) : object nat :=
  set associations key (countOf associations key + 1).

Definition pairStep (item1 : option string) (associations : object nat)
    (item2 : option string) : object nat :=
  if differ item1 item2 then bump associations (pairKey item1 item2)
  else associations.

Definition itemsStep (associations : object nat)
    (items : list (option string)) : object nat :=
  if (1 <? length items)%nat then
    fold_left (fun acc item1 => fold_left (pairStep item1) items acc)
      items associations
  else associations.

Definition associationsOf (transactions : list transaction) : object nat :=
  fold_left itemsStep (values (invoicesOf transactions)) empty.

Definition byCountDesc (a b : string * nat) : bool := (b.2 <=? a.2)%nat.

(** The number of ordered pairs [(item1, item2)], with [item1] from
    [items1] and [item2] from [items2], that increment the key [k]. *)
Definition pairHit (k : string) (item1 item2 : option string) : nat :=
  if differ item1 item2 && String.eqb (pairKey item1 item2) k then 1 else 0.

Definition orderedPairs (k : string) (items1 items2 : list (option string))
  : nat :=
  list_sum (map (fun item1 => list_sum (map (pairHit k item1) items2)) items1).

(** The [topPairs] array of [renderAssociationChart]. *)
Definition renderAssociationChart (transactions : list transaction)
  : list (string * nat) :=
  slice 0 10 (sort byCountDesc (entries (associationsOf transactions))).

(** *** Linear forecast *)

Record monthPoint := { year_month : string; Revenue : Q }.

Inductive forecastOutcome :=
| NotEnoughData
| Forecast (points : list monthPoint)
| Thrown.

(** [Math.max(a, b)] *)
Definition mathMax (a b : Q) : Q := if Qle_bool a b then b else a.

Definition avgGrowth (lastThree : list monthPoint) : option Q :=
  if (2 <=? length lastThree)%nat then
    match lastThree !! (length lastThree - 1)%nat, lastThree !! 0%nat with
    | Some l, Some f =>
        Some ((Revenue l - Revenue f)
              / inject_Z (Z.of_nat (length lastThree)))%Q
    | _, _ => None
    end
  else Some 0%Q.

(** [Math.max(0, lastMonth.Revenue + (avgGrowth * i))] *)
Definition projected (lastMonth : monthPoint) (growth : Q) (i : nat) : Q :=
  mathMax 0 (Revenue lastMonth + growth * inject_Z (Z.of_nat i))%Q.

Section Forecast.
(** The year-month [i] months after a given one, as
    [new Date(ym + '-01')], [setMonth] and
    [toISOString().substring(0, 7)] compute it; [None] when the date
    is invalid, where [toISOString] throws a RangeError. *)
Variable addMonths : string -> nat -> option string.

(** One turn of the loop: the label is computed first, and a throw
    there leaves the turn without a point. *)
Definition forecastPoint (lastMonth : monthPoint) (growth : Q) (i : nat)
  : option monthPoint :=
  match addMonths (year_month lastMonth) i with
  | Some yearMonth =>
      Some {| year_month := yearMonth;
              Revenue := projected lastMonth growth i |}
  | None => None
  end.

(** The [forecast] array of [renderForecastChart]; the first turn that
    throws ends the function in its [catch], with nothing plotted. *)
Definition renderForecastChart (data : list monthPoint) : forecastOutcome :=
  if (length data <? 3)%nat then NotEnoughData
  else
    match avgGrowth (sliceFrom (-3) data), data !! (length data - 1)%nat with
    | Some growth, Some lastMonth =>
        match mapM (forecastPoint lastMonth growth) [1; 2; 3]%nat with
        | Some forecast => Forecast forecast
        | None => Thrown
        end
    | _, _ => Thrown
    end.
End Forecast.

(** The [y] series of the forecast trace. *)
Definition forecastSeries (outcome : forecastOutcome) : list Q :=
  match outcome with
  | Forecast points => map Revenue points
  | NotEnoughData | Thrown => []
  end.

End Aggregator.

(** ** The transactions table *)

Module TransactionsTable.
Import JsArray Backend.

Definition pageSize : Z := 50.

Inductive row :=
| NoTransactionsRow
| TransactionRow (t : transaction).

(** The pagination bar: the targets of the two buttons, whether each is
    disabled, and the text "Page p of n". *)
Record pager := {
  prevTarget : Z;
  prevDisabled : bool;
  shownPage : Z;
  shownTotal : Z;
  nextTarget : Z;
  nextDisabled : bool
}.

Record state := {
  currentTransactions : list transaction;
  currentPage : Z;
  tbody : list row;
  pagination : option pager
}.

Definition initial : state :=
  {| currentTransactions := []; currentPage := 1; tbody := [];
     pagination := None |}.

(** [Math.ceil(total / pageSize)] *)
Definition totalPagesOf (total : nat) : Z :=
  Qceiling (inject_Z (Z.of_nat total) / inject_Z pageSize).

Definition renderPagination (total : nat) (st : state) : state :=
  let totalPages := totalPagesOf total in
  {| currentTransactions := currentTransactions st;
     currentPage := currentPage st;
     tbody := tbody st;
     pagination :=
       Some {| prevTarget := currentPage st - 1;
               prevDisabled := (currentPage st =? 1)%Z;
               shownPage := currentPage st;
               shownTotal := totalPages;
               nextTarget := currentPage st + 1;
               nextDisabled := (currentPage st =? totalPages)%Z |} |}.

Definition setBody (rows : list row) (st : state) : state :=
  {| currentTransactions := currentTransactions st;
     currentPage := currentPage st;
     tbody := rows;
     pagination := pagination st |}.

Definition renderTransactionsTable (transactions : list transaction)
    (st : state) : state :=
  if (length transactions =? 0)%nat then setBody [NoTransactionsRow] st
  else
    let start := ((currentPage st - 1) * pageSize)%Z in
    let end_ := (start + pageSize)%Z in
    let pageData := slice start end_ transactions in
    renderPagination (length transactions)
      (setBody (map TransactionRow pageData) st).

Definition setPage (page : Z) (st : state) : state :=
  {| currentTransactions := currentTransactions st;
     currentPage := page;
     tbody := tbody st;
     pagination := pagination st |}.

Definition changePage (page : Z) (st : state) : state :=
  let totalPages := totalPagesOf (length (currentTransactions st)) in
  if (page <? 1)%Z || (totalPages <? page)%Z then st
  else
    let st' := setPage page st in
    renderTransactionsTable (currentTransactions st') st'.

(** [fetchTransactionsList] once the response has arrived. *)
Definition fetchTransactionsList (response : list transaction)
    (st : state) : state :=
  renderTransactionsTable response
    {| currentTransactions := response;
       currentPage := currentPage st;
       tbody := tbody st;
       pagination := pagination st |}.

(** A run of [changePage] calls, first call first. *)
Definition changePages (pages : list Z) (st : state) : state :=
  fold_left (fun s p => changePage p s) pages st.

End TransactionsTable.

(** ** The transaction form *)

Module TransactionForm.
Import Backend.

Record fields := {
  formInvoice : string;
  formStockCode : string;
  formDescription : string;
  formQuantity : string;
  formPrice : string;
  formCustomerID : string;
  formCountry : string;
  formInvoiceDate : string
}.

(** What [openTransactionModal] receives: nothing (the default
    [null]), an id, or the click event when it runs as the listener
    of the "add" button. *)
Inductive editingId :=
| NoId
| Id (s : string)
| ClickEvent.

Definition truthyId (i : editingId) : bool :=
  match i with
  | NoId => false
  | Id s => negb (String.eqb s "")
  | ClickEvent => true
  end.

(** [t._id === id] *)
Definition hasId (i : editingId) (t : transaction) : bool :=
  match i, _id t with
  | Id s, Some s' => String.eqb s' s
  | _, _ => false
  end.

Record state := {
  editingTransactionId : editingId;
  currentTransactions : list transaction;
  modalTitle : string;
  form : fields;
  modalActive : bool
}.

Record payload := {
  pInvoice : string;
  pStockCode : string;
  pDescription : string;
  pQuantity : option Q;
  pPrice : option Q;
  pCustomerID : string;
  pCountry : string;
  pInvoiceDate : string
}.

Record request := {
  url : string;
  method : string;
  contentType : string;
  body : payload
}.

Section Form.
(** The environment of the form: the API root, the text of a number
    and of the click event, the conversion
    [new Date(s).toISOString().slice(0, 16)] ([None] when
    [toISOString] throws on an invalid date), the two parsers ([None]
    is NaN), the current time and the values [form.reset()]
    restores. *)
Variable API_BASE : string.
Variable numberText : Q -> string.
Variable eventText : string.
Variable isoMinutes : string -> option string.
Variable parseInt parseFloat : string -> option Q.
Variable nowIso : string.
Variable formDefaults : fields.

Definition idText (i : editingId) : string :=
  match i with
  | NoId => "null"
  | Id s => s
  | ClickEvent => eventText
  end.

(** The seven assignments that do not depend on the date. *)
Definition fillFrom (t : transaction) (f : fields) : fields :=
  {| formInvoice := strOr (Invoice t) "";
     formStockCode := strOr (StockCode t) "";
     formDescription := strOr (Description t) "";
     formQuantity := numberText (numOr (Quantity t) 1);
     formPrice := numberText (numOr (Price t) 0);
     formCustomerID := strOr (CustomerID t) "";
     formCountry := strOr (Country t) "";
     formInvoiceDate := formInvoiceDate f |}.

Definition setDate (d : string) (f : fields) : fields :=
  {| formInvoice := formInvoice f;
     formStockCode := formStockCode f;
     formDescription := formDescription f;
     formQuantity := formQuantity f;
     formPrice := formPrice f;
     formCustomerID := formCustomerID f;
     formCountry := formCountry f;
     formInvoiceDate := d |}.

(** The state after [openTransactionModal(id)]; when [toISOString]
    throws, the function stops before the modal is shown. *)
Definition openTransactionModal (id : editingId) (st : state) : state :=
  if truthyId id then
    match List.find (hasId id) (currentTransactions st) with
    | Some t =>
        if truthy (InvoiceDate t) then
          match isoMinutes (text (InvoiceDate t)) with
          | Some d =>
              {| editingTransactionId := id;
                 currentTransactions := currentTransactions st;
                 modalTitle := "Edit Transaction";
                 form := setDate d (fillFrom t (form st));
                 modalActive := true |}
          | None =>
              {| editingTransactionId := id;
                 currentTransactions := currentTransactions st;
                 modalTitle := "Edit Transaction";
                 form := fillFrom t (form st);
                 modalActive := modalActive st |}
          end
        else
          {| editingTransactionId := id;
             currentTransactions := currentTransactions st;
             modalTitle := "Edit Transaction";
             form := fillFrom t (form st);
             modalActive := true |}
    | None =>
        {| editingTransactionId := id;
           currentTransactions := currentTransactions st;
           modalTitle := "Edit Transaction";
           form := form st;
           modalActive := true |}
    end
  else
    {| editingTransactionId := id;
       currentTransactions := currentTransactions st;
       modalTitle := "Add New Transaction";
       form := formDefaults;
       modalActive := true |}.

Definition payloadOf (f : fields) : payload :=
  {| pInvoice := formInvoice f;
     pStockCode := formStockCode f;
     pDescription := formDescription f;
     pQuantity := parseInt (formQuantity f);
     pPrice := parseFloat (formPrice f);
     pCustomerID := formCustomerID f;
     pCountry := formCountry f;
     pInvoiceDate :=
       if String.eqb (formInvoiceDate f) "" then nowIso
       else formInvoiceDate f |}.

(** The request that [handleTransactionSubmit] sends. *)
Definition handleTransactionSubmit (st : state) : request :=
  let payload := payloadOf (form st) in
  if truthyId (editingTransactionId st) then
    {| url := String.append API_BASE
                (String.append "/transactions/"
                   (idText (editingTransactionId st)));
       method := "PUT";
       contentType := "application/json";
       body := payload |}
  else
    {| url := String.append API_BASE "/transactions";
       method := "POST";
       contentType := "application/json";
       body := payload |}.
End Form.

End TransactionForm.

(** ** The product table *)

Module ProductTable.
Import JsString JsArray Backend.

Record product := {
  StockCode : option string;
  Description : option string;
  Quantity : option Q;
  Revenue : option Q
}.

Inductive performance := Fire | Star | Tick.

Inductive row :=
| NoProductsRow
| ProductRow (rank : nat) (code description : string)
    (quantity revenue avgPrice : Q) (mark : performance).

(** [p.Revenue > bound] *)
Definition above (bound : Q) (o : option Q) : bool :=
  match o with
  | Some r => negb (Qle_bool r bound)
  | None => false
  end.

(** [p.Quantity ? (p.Revenue / p.Quantity) : 0], as [formatCurrency]
    shows it (NaN is shown as 0). *)
Definition avgPriceOf (p : product) : Q :=
  match Quantity p, Revenue p with
  | Some q, Some r => if Qeq_bool q 0 then 0%Q else (r / q)%Q
  | _, _ => 0%Q
  end.

Definition productRow (index : nat) (p : product) : row :=
  ProductRow (index + 1)
    (strOr (StockCode p) "N/A")
    (take 50 (strOr (Description p) "N/A"))
    (numOr (Quantity p) 0)
    (numOr (Revenue p) 0)
    (avgPriceOf p)
    (if above 1000 (Revenue p) then Fire
     else if above 500 (Revenue p) then Star else Tick).

Definition rowsOf (products : list product) : list row :=
  if (length products =? 0)%nat then [NoProductsRow]
  else imap productRow products.

(** Arrays live in a store and are passed by reference. *)
Definition ref := positive.

Record state := {
  arrays : gmap ref (list product);
  currentProducts : ref;
  tbody : list row
}.

Definition read (st : state) (r : ref) : list product :=
  default [] (arrays st !! r).

(** The cached array holds [l]. *)
Definition caches (l : list product) (st : state) : Prop :=
  arrays st !! currentProducts st = Some l.

Definition alloc (l : list product) (st : state) : ref * state :=
  let r := fresh (dom (arrays st)) in
  (r, {| arrays := <[r := l]> (arrays st);
         currentProducts := currentProducts st;
         tbody := tbody st |}).

Definition renderProductsTable (products : ref) (st : state) : state :=
  {| arrays := arrays st;
     currentProducts := currentProducts st;
     tbody := rowsOf (read st products) |}.

(** [fetchProductsTable] once the response has arrived. *)
Definition fetchProductsTable (response : list product) (st : state)
  : state :=
  let (r, st') := alloc response st in
  renderProductsTable r
    {| arrays := arrays st'; currentProducts := r; tbody := tbody st' |}.

Definition matches (q : string) (p : product) : bool :=
  let desc := toLowerCase (strOr (Description p) "") in
  let code := toLowerCase (strOr (StockCode p) "") in
  includes desc q || includes code q.

Definition filterProducts (query : string) (st : state) : state :=
  let q := trim (toLowerCase query) in
  if String.eqb q "" then renderProductsTable (currentProducts st) st
  else
    let (filtered, st') :=
      alloc (List.filter (matches q) (read st (currentProducts st))) st in
    renderProductsTable filtered st'.

Section Sorting.
(** [a.localeCompare(b)] *)
Variable localeCompare : string -> string -> comparison.

Definition byRevenue (a b : product) : bool :=
  Qle_bool (numOr (Revenue b) 0) (numOr (Revenue a) 0).

Definition byQuantity (a b : product) : bool :=
  Qle_bool (numOr (Quantity b) 0) (numOr (Quantity a) 0).

Definition byCode (a b : product) : bool :=
  match localeCompare (strOr (StockCode a) "") (strOr (StockCode b) "") with
  | Gt => false
  | _ => true
  end.

(** [array.sort(cmp)] sorts the array in place. *)
Definition sortInPlace (le : product -> product -> bool) (r : ref)
    (st : state) : state :=
  {| arrays := <[r := sort le (read st r)]> (arrays st);
     currentProducts := currentProducts st;
     tbody := tbody st |}.

Definition sortProducts (sortBy : string) (st : state) : state :=
  let (sorted, st1) := alloc (read st (currentProducts st)) st in
  let st2 :=
    if String.eqb sortBy "revenue" then sortInPlace byRevenue sorted st1
    else if String.eqb sortBy "quantity" then sortInPlace byQuantity sorted st1
    else if String.eqb sortBy "code" then sortInPlace byCode sorted st1
    else st1 in
  renderProductsTable sorted st2.

(** What the user does in the product panel. *)
Inductive action :=
| Search (query : string)
| SortBy (key : string).

Definition perform (st : state) (a : action) : state :=
  match a with
  | Search q => filterProducts q st
  | SortBy k => sortProducts k st
  end.

Definition performAll (actions : list action) (st : state) : state :=
  fold_left perform actions st.
End Sorting.

End ProductTable.

(** ** Sample data *)

Module Examples.
Import Backend.

Definition sale (invoice date code customer : option string)
    (quantity price : Q) : transaction :=
  {| _id := None; Invoice := invoice; InvoiceDate := date;
     StockCode := code; Description := None;
     Quantity := Some quantity; Price := Some price;
     CustomerID := customer; Country := None |}.

(** One invoice with the three items A, B and C. *)
Definition basket : list transaction :=
  [ sale (Some "536365") (Some "2010-12-01T08:26:00") (Some "A") (Some "17850") 1%Q 1%Q;
    sale (Some "536365") (Some "2010-12-01T08:26:00") (Some "B") (Some "17850") 1%Q 1%Q;
    sale (Some "536365") (Some "2010-12-01T08:26:00") (Some "C") (Some "17850") 1%Q 1%Q ].

(** The monthly series 100, 150, 200. *)
Definition series : list Aggregator.monthPoint :=
  [ {| Aggregator.year_month := "2011-10"; Aggregator.Revenue := 100%Q |};
    {| Aggregator.year_month := "2011-11"; Aggregator.Revenue := 150%Q |};
    {| Aggregator.year_month := "2011-12"; Aggregator.Revenue := 200%Q |} ].

(** A panel where only a segment is chosen. *)
Definition segmentOnly : FilterState.filterPanel :=
  {| FilterState.startDate := "";
     FilterState.endDate := "";
     FilterState.countrySelect := [];
     FilterState.segmentFilter := "VIP" |}.

(** A sale of 2 at 3 that carries no invoice date. *)
Definition undatedSale : transaction :=
  sale (Some "536366") None (Some "A") (Some "17850") 2%Q 3%Q.

Definition alwaysMonday (date : string) : option Aggregator.weekday :=
  Some Aggregator.Monday.

(** Two customers in January, one in February. *)
Definition cohortSample : list transaction :=
  [ sale (Some "1") (Some "2020-01-03T10:00:00") (Some "A") (Some "a") 1%Q 1%Q;
    sale (Some "2") (Some "2020-01-05T10:00:00") (Some "A") (Some "b") 1%Q 1%Q;
    sale (Some "3") (Some "2020-02-07T10:00:00") (Some "A") (Some "c") 1%Q 1%Q ].

(** Fifty-one records: two pages. *)
Definition ledger : list transaction :=
  repeat undatedSale 51.

(** A record without a date, and the form as a previous edit left it. *)
Definition undatedRecord : transaction :=
  {| _id := Some "t1"; Invoice := Some "536367"; InvoiceDate := None;
     StockCode := Some "84879"; Description := Some "ASSORTED COLOUR BIRD ORNAMENT";
     Quantity := Some 32%Q; Price := Some 2%Q; CustomerID := Some "13047";
     Country := Some "United Kingdom" |}.

Definition datedRecord : transaction :=
  {| _id := Some "t2"; Invoice := Some "536368";
     InvoiceDate := Some "2010-12-01T08:34:00.000Z";
     StockCode := Some "22960"; Description := Some "JAM MAKING SET WITH JARS";
     Quantity := Some 6%Q; Price := Some 4%Q; CustomerID := Some "13047";
     Country := Some "United Kingdom" |}.

Definition blankForm : TransactionForm.fields :=
  {| TransactionForm.formInvoice := "";
     TransactionForm.formStockCode := "";
     TransactionForm.formDescription := "";
     TransactionForm.formQuantity := "1";
     TransactionForm.formPrice := "";
     TransactionForm.formCustomerID := "";
     TransactionForm.formCountry := "";
     TransactionForm.formInvoiceDate := "" |}.

Definition staleForm : TransactionForm.fields :=
  {| TransactionForm.formInvoice := "536368";
     TransactionForm.formStockCode := "22960";
     TransactionForm.formDescription := "JAM MAKING SET WITH JARS";
     TransactionForm.formQuantity := "6";
     TransactionForm.formPrice := "4";
     TransactionForm.formCustomerID := "13047";
     TransactionForm.formCountry := "United Kingdom";
     TransactionForm.formInvoiceDate := "2010-12-01T08:34" |}.

Definition desk (f : TransactionForm.fields) : TransactionForm.state :=
  {| TransactionForm.editingTransactionId := TransactionForm.NoId;
     TransactionForm.currentTransactions := [undatedRecord; datedRecord];
     TransactionForm.modalTitle := "";
     TransactionForm.form := f;
     TransactionForm.modalActive := false |}.

(** A small environment for the form: whole numbers, dates that are
    already in UTC. *)
Definition numberText (q : Q) : string :=
  NilZero.string_of_int (Z.to_int (Qnum q / Z.pos (Qden q))).

Definition isoMinutes (date : string) : option string :=
  Some (JsString.take 16 date).

Definition parseNumber (text : string) : option Q :=
  match NilZero.int_of_string text with
  | Some i => Some (inject_Z (Z.of_int i))
  | None => None
  end.

(** Editing the undated record over a form left as [f]. *)
Definition reopened (f : TransactionForm.fields) : TransactionForm.state :=
  TransactionForm.openTransactionModal numberText isoMinutes blankForm
    (TransactionForm.Id "t1") (desk f).

(** The request sent when that edit is saved as it stands. *)
Definition saved (f : TransactionForm.fields) : TransactionForm.request :=
  TransactionForm.handleTransactionSubmit "/api" "[object PointerEvent]"
    parseNumber parseNumber "2011-12-09T12:50:00.000Z" (reopened f).

(** A sale with a description. *)
Definition labelled (description : string) (quantity price : Q)
  : transaction :=
  {| _id := None; Invoice := Some "536370";
     InvoiceDate := Some "2010-12-01T08:45:00";
     StockCode := Some "22728"; Description := Some description;
     Quantity := Some quantity; Price := Some price;
     CustomerID := Some "12583"; Country := Some "France" |}.

(** A description that starts with a space. *)
Definition leadingSpace : transaction := labelled " LUNCH BAG" 2%Q 3%Q.

(** A description whose first word names a member of
    [Object.prototype]. *)
Definition constructorSet : transaction := labelled "constructor set" 2%Q 3%Q.

Definition shelf : list transaction :=
  [ labelled "LUNCH BAG RED RETROSPOT" 2%Q 3%Q;
    labelled "JAM MAKING SET WITH JARS" 1%Q 4%Q;
    labelled "LUNCH BOX I LOVE LONDON" 1%Q 1%Q ].

(** The text of a built-in member, as V8 prints it. *)
Definition memberText (k : string) : string :=
  if String.eqb k "__proto__" then "[object Object]"
  else String.append "function "
         (String.append (if String.eqb k "constructor" then "Object" else k)
            "() { [native code] }").

(** A calendar in UTC for the labels of the forecast: the year-month
    [i] months after "YYYY-MM"; a text of another shape is no date. *)
Definition yearMonthOf (ym : string) : option (nat * nat) :=
  match JsString.split "-" ym with
  | [y; m] =>
      if (String.length y =? 4)%nat && (String.length m =? 2)%nat then
        match JsObject.digitsValue 0 y, JsObject.digitsValue 0 m with
        | Some year, Some month =>
            if (1 <=? month)%N && (month <=? 12)%N
            then Some (N.to_nat year, N.to_nat month)
            else None
        | _, _ => None
        end
      else None
  | _ => None
  end.

Definition padded (width n : nat) : string :=
  let digits := NilZero.string_of_uint (Nat.to_uint n) in
  String.append
    (JsString.join "" (repeat "0" (width - String.length digits)))
    digits.

Definition utcMonths (ym : string) (i : nat) : option string :=
  match yearMonthOf ym with
  | Some (year, month) =>
      let months := (year * 12 + (month - 1) + i)%nat in
      Some (String.append (padded 4 (months / 12))
              (String.append "-" (padded 2 (months mod 12 + 1))))
  | None => None
  end.

End Examples.


(** ** Customer segments (RFM) *)

Module Rfm.
Import JsString JsArray JsObject Backend.

Record customer := {
  CustomerID : option string;
  Recency : option Q;
  Frequency : option Q;
  Monetary : option Q;
  cluster : N
}.

(** Comparisons of a field with a number. An absent field is
    [undefined], which compares as NaN: every comparison is false. *)
Definition atLeast (o : option Q) (bound : Q) : bool :=
  match o with Some q => Qle_bool bound q | None => false end.

Definition atMost (o : option Q) (bound : Q) : bool :=
  match o with Some q => Qle_bool q bound | None => false end.

Definition above (o : option Q) (bound : Q) : bool :=
  match o with Some q => negb (Qle_bool q bound) | None => false end.

Definition below (o : option Q) (bound : Q) : bool :=
  match o with Some q => negb (Qle_bool bound q) | None => false end.

(** [o === v] *)
Definition equals (o : option Q) (v : Q) : bool :=
  match o with Some q => Qeq_bool q v | None => false end.

Inductive segment := VIP | Loyal | Active | Regular | AtRisk | Standard.

Definition segmentLabel (s : segment) : string :=
  match s with
  | VIP => "💎 VIP"
  | Loyal => "⭐ Loyal"
  | Active => "🔥 Active"
  | Regular => "✓ Regular"
  | AtRisk => "💤 At Risk"
  | Standard => "👤 Standard"
  end.

(** The chain of tests of [getSegmentName]. *)
Definition segmentOf (c : customer) : segment :=
  if atLeast (Frequency c) 10 && atLeast (Monetary c) 1000 then VIP
  else if atMost (Recency c) 30 && atLeast (Frequency c) 5 then Loyal
  else if atMost (Recency c) 60 && atLeast (Monetary c) 500 then Active
  else if atMost (Recency c) 90 then Regular
  else if above (Recency c) 180 then AtRisk
  else Standard.

Definition getSegmentName (c : customer) : string :=
  segmentLabel (segmentOf c).

(** [buckets[k]++]; the keys used are those of the object literal. *)
Definition increment (buckets : object nat) (k : string) : object nat :=
  match get buckets k with
  | Some n => set buckets k (n + 1)%nat
  | None => buckets
  end.

(** *** Lifetime value histogram *)

Definition clvBuckets : object nat :=
  [ ("0-100", 0); ("100-500", 0); ("500-1000", 0); ("1000-5000", 0);
    ("5000+", 0) ]%nat.

Definition clvKey (d : customer) : string :=
  if below (Monetary d) 100 then "0-100"
  else if below (Monetary d) 500 then "100-500"
  else if below (Monetary d) 1000 then "500-1000"
  else if below (Monetary d) 5000 then "1000-5000"
  else "5000+".

(** The [x] and [y] series of the chart drawn by [renderCLVChart]. *)
Definition renderCLVChart (data : list customer) : list string * list nat :=
  let buckets :=
    fold_left (fun b d => increment b (clvKey d)) data clvBuckets in
  (keys buckets, values buckets).

(** *** Order frequency histogram *)

Definition freqBuckets : object nat :=
  [ ("1", 0); ("2-3", 0); ("4-5", 0); ("6-10", 0); ("10+", 0) ]%nat.

Definition freqKey (d : customer) : string :=
  if equals (Frequency d) 1 then "1"
  else if atMost (Frequency d) 3 then "2-3"
  else if atMost (Frequency d) 5 then "4-5"
  else if atMost (Frequency d) 10 then "6-10"
  else "10+".

(** The [labels] and [values] of the chart drawn by
    [renderFrequencyChart]. *)
Definition renderFrequencyChart (data : list customer)
  : list string * list nat :=
  let buckets :=
    fold_left (fun b d => increment b (freqKey d)) data freqBuckets in
  (keys buckets, values buckets).

(** *** Scatter plot by cluster *)

(** [String(n)] for a cluster number. *)
Definition clusterKey (n : N) : string :=
  NilZero.string_of_uint (N.to_uint n).

Definition groupStep (clusters : object (list customer)) (d : customer)
  : object (list customer) :=
  let k := clusterKey (cluster d) in
  set clusters k (default [] (get clusters k) ++ [d]).

Definition clustersOf (data : list customer) : object (list customer) :=
  fold_left groupStep data empty.

(** The customers of the cluster [n], in the order received. *)
Definition membersOf (n : N) (data : list customer) : list customer :=
  List.filter (fun d => N.eqb (cluster d) n) data.

Record trace := {
  name : string;
  x : list (option Q);
  y : list (option Q);
  markerSize : list (option Q);
  hue : N;
  text : list string
}.

(** [Math.max(5, 30 - c.Recency / 10)]; NaN when the recency is
    absent. *)
Definition sizeOf (c : customer) : option Q :=
  match Recency c with
  | Some r => Some (Aggregator.mathMax 5 (30 - r / 10))%Q
  | None => None
  end.

Section Scatter.
(** The text of a number, and [m.toFixed(2)]. *)
Variable numberText : Q -> string.
Variable toFixed2 : Q -> string.

Definition showNumber (o : option Q) : string :=
  match o with
  | Some q => numberText q
  | None => "undefined"
  end.

(** The hover text of a customer; [c.Monetary.toFixed] throws when the
    monetary value is absent. *)
Definition hoverText (c : customer) : option string :=
  match Monetary c with
  | Some m =>
      Some (String.append "Customer: "
             (String.append (propertyKey (CustomerID c))
               (String.append "<br>Recency: "
                 (String.append (showNumber (Recency c))
                   (String.append " days<br>Frequency: "
                     (String.append (showNumber (Frequency c))
                       (String.append "<br>Monetary: $" (toFixed2 m))))))))
  | None => None
  end.

Definition traceOf (entry : string * list customer) : option trace :=
  match mapM hoverText entry.2 with
  | Some texts =>
      Some {| name := String.append "Cluster " entry.1;
              x := map Frequency entry.2;
              y := map Monetary entry.2;
              markerSize := map sizeOf entry.2;
              hue := (default 0 (digitsValue 0 entry.1) * 80)%N;
              text := texts |}
  | None => None
  end.

(** The traces handed to the plotting library by [renderRFMCharts];
    [None] when building them throws. *)
Definition renderRFMCharts (data : list customer) : option (list trace) :=
  mapM traceOf (entries (clustersOf data)).
End Scatter.

End Rfm.

(** ** The top-products chart and the requests with a limit *)

Module TopProducts.
Import JsString JsObject FilterState Backend.

(** [{...filters, limit: n}]: the own properties are copied in
    enumeration order, then [limit] is set. *)
Definition withLimit (filters : object value) (n : Z) : object value :=
  set (fold_left (fun o kv => set o kv.1 kv.2) (entries filters) empty)
    "limit" (VInt n).

(** The query strings of [fetchTopProducts] and [fetchProductsTable]. *)
Definition topProductsQuery (filters : object value) : string :=
  buildQuery (withLimit filters 10).

Definition productsTableQuery (filters : object value) : string :=
  buildQuery (withLimit filters 200).

(** [(d.Description || d.StockCode).substring(0, 30)]; [substring]
    throws when both are absent. *)
Definition label (p : ProductTable.product) : option string :=
  if truthy (ProductTable.Description p)
  then Some (take 30 (text (ProductTable.Description p)))
  else match ProductTable.StockCode p with
       | Some s => Some (take 30 s)
       | None => None
       end.

(** The [y] and [x] series of the chart drawn by [fetchTopProducts];
    [None] when building them throws. *)
Definition fetchTopProducts (data : list ProductTable.product)
  : option (list string * list (option Q)) :=
  match mapM label data with
  | Some labels => Some (labels, map ProductTable.Revenue data)
  | None => None
  end.

End TopProducts.

(** ** The filter controls *)

Module FilterControls.
Import JsObject FilterState.

Record state := {
  panel : filterPanel;
  currentFilters : object value
}.

Definition applyFilters (st : state) : state :=
  {| panel := panel st; currentFilters := getFilters (panel st) |}.

Definition deselect (o : selectOption) : selectOption :=
  {| optValue := optValue o; optSelected := false |}.

(** [selectedIndex = -1] deselects every option. *)
Definition clearFilters (st : state) : state :=
  {| panel :=
       {| startDate := "";
          endDate := "";
          countrySelect := map deselect (countrySelect (panel st));
          segmentFilter := "" |};
     currentFilters := empty |}.

Section Countries.
(** Whether the country list is a multiple select: a single select
    shows its first option as selected. *)
Variable multiple : bool.

Definition countryOption (c : string) : selectOption :=
  {| optValue := c; optSelected := false |}.

(** [populateCountries] once the response has arrived: the options are
    rebuilt from scratch. *)
Definition populateCountries (countries : list string) (st : state) : state :=
  {| panel :=
       {| startDate := startDate (panel st);
          endDate := endDate (panel st);
          countrySelect :=
            {| optValue := ""; optSelected := negb multiple |}
            :: map countryOption countries;
          segmentFilter := segmentFilter (panel st) |};
     currentFilters := currentFilters st |}.
End Countries.

End FilterControls.

(** ** The CSV export *)

Module CsvExport.
Import JsString Backend.

Definition headers : list string :=
  [ "Invoice"; "Date"; "StockCode"; "Description"; "Quantity"; "Price";
    "CustomerID"; "Country"; "Revenue" ].

Definition newline : string := String (ascii_of_nat 10) "".

Definition doubleQuote : string := String (ascii_of_nat 34) "".

(** The template that wraps a cell in double quotes. *)
Definition quoted (cell : string) : string :=
  String.append doubleQuote (String.append cell doubleQuote).

Record download := { filename : string; content : string }.

Section Exporting.
(** The text of a number and the current time as an ISO string. *)
Variable numberText : Q -> string.
Variable nowIso : string.

Definition cells (t : transaction) : list string :=
  [ strOr (Invoice t) "";
    strOr (InvoiceDate t) "";
    strOr (StockCode t) "";
    strOr (Description t) "";
    numberText (numOr (Quantity t) 0);
    numberText (numOr (Price t) 0);
    strOr (CustomerID t) "";
    strOr (Country t) "";
    numberText (revenue t) ].

Definition line (row : list string) : string :=
  String.append (join "," (map quoted row)) newline.

Definition csvOf (data : list transaction) : string :=
  fold_left (fun csv row => String.append csv (line row)) (map cells data)
    (String.append (join "," headers) newline).

(** The file offered by [exportToCSV]; [None] when there is nothing to
    export and only the alert is shown. *)
Definition exportToCSV (data : list transaction) : option download :=
  if (length data =? 0)%nat then None
  else
    Some {| filename :=
              String.append "retail_data_"
                (String.append (hd "" (split "T" nowIso)) ".csv");
            content := csvOf data |}.
End Exporting.

(** Reading a file back: the lines after the header, each cut at the
    commas, each cell without its two quotes. *)
Fixpoint dropLast (s : string) : string :=
  match s with
  | EmptyString => ""
  | String c EmptyString => ""
  | String c r => String c (dropLast r)
  end.

Definition unquoted (cell : string) : string :=
  match cell with
  | EmptyString => ""
  | String _ r => dropLast r
  end.

(** A cell that holds neither a comma nor a line feed. *)
Definition plain (cell : string) : Prop :=
  contains "," cell = false /\ contains "010" cell = false.

Definition readCsv (file : string) : list (list string) :=
  map (fun l => map unquoted (split "," l))
    (removelast (tl (split (ascii_of_nat 10) file))).

End CsvExport.

(** ** More sample data *)

Module Samples.
Import Backend.

(** The page that holds nothing after the list shrank. *)
Definition shrunk : TransactionsTable.state :=
  {| TransactionsTable.currentTransactions := [];
     TransactionsTable.currentPage := 3;
     TransactionsTable.tbody := [];
     TransactionsTable.pagination := None |}.

Definition plainNumber (q : Q) : string :=
  NilZero.string_of_int (Z.to_int (Qnum q / Z.pos (Qden q))).

End Samples.

(** ** Reading the charts *)

Module ChartReading.
Import Backend Aggregator.

Section Days.
Variable getDay : string -> option weekday.

(** The transactions whose date falls on the day [d]. *)
Definition onDay (d : weekday) (t : transaction) : bool :=
  truthy (InvoiceDate t)
  && match getDay (text (InvoiceDate t)) with
     | Some d' => (dayIndex d' =? dayIndex d)%nat
     | None => false
     end.
End Days.

(** A character that may stand in a query string as it is: unreserved,
    or one of the marks [?], [&], [=] and [%]. *)
Definition urlSafe (c : ascii) : bool :=
  JsString.isUnreserved c || JsString.contains c "?&=%".

Fixpoint allChars (p : ascii -> bool) (s : string) : bool :=
  match s with
  | EmptyString => true
  | String c r => p c && allChars p r
  end.

(** The transactions that have a description. *)
Definition described (t : transaction) : bool := truthy (Description t).

(** The first word of the description, if there is one, names no
    member of [Object.prototype]. *)
Definition ownWord (t : transaction) : bool :=
  negb (truthy (Description t)
        && JsObject.inherited (category (text (Description t)))).

Definition ownWords (transactions : list transaction) : bool :=
  forallb ownWord transactions.

(** The number that a bucket holds. *)
Definition isAmount (b : bucket) : bool :=
  match b with
  | Amount _ => true
  | Text _ => false
  end.

Definition amount (b : bucket) : Q :=
  match b with
  | Amount q => q
  | Text _ => 0%Q
  end.

(** The first whitespace-delimited token of a text, as the
    specification words the name of a bucket: white space in front is
    skipped and the token ends before the next white space. *)
Fixpoint tokenEnd (s : string) : string :=
  match s with
  | EmptyString => ""
  | String c r => if JsString.isSpace c then "" else String c (tokenEnd r)
  end.

Definition firstToken (s : string) : string :=
  tokenEnd (JsString.trimStart s).

(** The number of elements that pass a test. *)
Definition countIf {A} (p : A -> bool) (l : list A) : nat :=
  length (List.filter p l).

(** The field is absent. *)
Definition absent (o : option Q) : bool :=
  match o with
  | None => true
  | Some _ => false
  end.

(** The labels of the two histograms, as the object literals list
    them. *)
Definition clvLabels : list string :=
  ["0-100"; "100-500"; "500-1000"; "1000-5000"; "5000+"].

Definition freqLabels : list string :=
  ["1"; "2-3"; "4-5"; "6-10"; "10+"].

(** What the grouping by cluster keeps true while it runs over the
    customers [seen] so far. *)
Definition grouped (o : JsObject.object (list Rfm.customer))
    (seen : list Rfm.customer) : Prop :=
  NoDup (map fst o)
  /\ (forall n,
        default [] (JsObject.get o (Rfm.clusterKey n)) = Rfm.membersOf n seen)
  /\ Forall (fun g => (exists n, g.1 = Rfm.clusterKey n) /\ g.2 <> []) o
  /\ Permutation (flat_map snd o) seen.

End ChartReading.
(** * Properties *)

(** ** Sorting and enumeration *)

Section SortFacts.
Context {A : Type} (le : A -> A -> bool).
Import JsArray.

Lemma insert_perm (x : A) (l : list A) :
  Permutation (insert le x l) (x :: l).
Proof.
  induction l as [|y r IH]; simpl; [reflexivity|].
  destruct (le x y); [reflexivity|].
  rewrite IH. apply perm_swap.
Qed.

Lemma sort_perm (l : list A) : Permutation (sort le l) l.
Proof.
  induction l as [|x r IH]; simpl; [reflexivity|].
  rewrite insert_perm. now constructor.
Qed.

Hypothesis le_total : forall x y, le x y = false -> le y x = true.

Lemma insert_sorted (x : A) (l : list A) :
  Sorted (fun a b => le a b = true) l ->
  Sorted (fun a b => le a b = true) (insert le x l).
Proof.
  induction 1 as [|y r Hs IH Hhd]; simpl.
  - repeat constructor.
  - destruct (le x y) eqn:E.
    + constructor; [now constructor|now constructor].
    + constructor; [exact IH|].
      destruct Hhd as [|z r' Hz]; simpl.
      * constructor. now apply le_total.
      * destruct (le x z); constructor; auto.
Qed.

Lemma sort_sorted (l : list A) :
  Sorted (fun a b => le a b = true) (sort le l).
Proof.
  induction l as [|x r IH]; simpl; [constructor|].
  now apply insert_sorted.
Qed.

Hypothesis le_trans : forall x y z, le x y = true -> le y z = true -> le x z = true.

Lemma sort_strongly_sorted (l : list A) :
  StronglySorted (fun a b => le a b = true) (sort le l).
Proof.
  apply Sorted_StronglySorted; [|apply sort_sorted].
  intros x y z. apply le_trans.
Qed.
End SortFacts.

Section SliceFacts.
Context {A : Type}.
Import JsArray.

Lemma slice_prefix (n : nat) (l : list A) :
  slice 0 (Z.of_nat n) l = firstn n l.
Proof.
  unfold slice, relIndex.
  change (0 <? 0)%Z with false. cbv iota.
  destruct (Z.ltb_spec (Z.of_nat n) 0); [lia|].
  rewrite (Z.min_l 0) by lia. change (Z.to_nat 0) with 0%nat.
  rewrite skipn_O, Z.sub_0_r.
  destruct (Nat.le_gt_cases n (length l)).
  - rewrite Z.min_l by lia. rewrite Z.max_l by lia.
    now rewrite Nat2Z.id.
  - rewrite Z.min_r by lia. rewrite Z.max_l by lia.
    rewrite Nat2Z.id.
    rewrite !firstn_all2; auto; lia.
Qed.

Lemma slice_prefix_length (n : nat) (l : list A) :
  (length (slice 0 (Z.of_nat n) l) <= n)%nat.
Proof. rewrite slice_prefix. apply firstn_le_length. Qed.
End SliceFacts.

Section ObjectFacts.
Context {V : Type}.
Import JsObject.

Lemma filter_split (f : string * V -> bool) (l : list (string * V)) :
  Permutation (List.filter f l ++ List.filter (fun p => negb (f p)) l) l.
Proof.
  induction l as [|x r IH]; simpl; [reflexivity|].
  destruct (f x); simpl.
  - now constructor.
  - rewrite <- Permutation_middle. now constructor.
Qed.

Lemma entries_perm (o : object V) : Permutation (entries o) o.
Proof.
  unfold entries. rewrite sort_perm. apply filter_split.
Qed.

Lemma keys_perm (o : object V) : Permutation (keys o) (map fst o).
Proof. unfold keys. apply Permutation_map, entries_perm. Qed.

Lemma get_set_same (o : object V) k v : get (set o k v) k = Some v.
Proof.
  induction o as [|[k' v'] r IH]; simpl.
  - now rewrite String.eqb_refl.
  - destruct (String.eqb k' k) eqn:E; simpl; rewrite E; auto.
Qed.

Lemma get_set_other (o : object V) k k' v :
  k <> k' -> get (set o k v) k' = get o k'.
Proof.
  intros Hne. induction o as [|[k0 v0] r IH]; simpl.
  - destruct (String.eqb_spec k k'); congruence.
  - destruct (String.eqb_spec k0 k) as [->|]; simpl.
    + destruct (String.eqb_spec k k'); congruence.
    + destruct (String.eqb_spec k0 k'); auto.
Qed.

Lemma get_None (o : object V) k :
  get o k = None <-> ~ In k (map fst o).
Proof.
  induction o as [|[k0 v0] r IH]; simpl; [tauto|].
  destruct (String.eqb_spec k0 k) as [->|]; split; intros H.
  - discriminate.
  - exfalso. apply H. now left.
  - intros [?|?]; [congruence|]. now apply IH.
  - apply IH. intros ?. apply H. now right.
Qed.

Lemma keys_set (o : object V) k v :
  map fst (set o k v) =
  match get o k with
  | Some _ => map fst o
  | None => map fst o ++ [k]
  end.
Proof.
  induction o as [|[k0 v0] r IH]; simpl; [reflexivity|].
  destruct (String.eqb_spec k0 k) as [->|]; simpl; [reflexivity|].
  rewrite IH. now destruct (get r k).
Qed.

Lemma set_NoDup (o : object V) k v :
  NoDup (map fst o) -> NoDup (map fst (set o k v)).
Proof.
  intros Hnd. rewrite keys_set.
  destruct (get o k) eqn:E; [assumption|].
  apply get_None in E.
  apply NoDup_app; repeat split; auto.
  - intros x Hx Hk. apply list_elem_of_In in Hk. simpl in Hk.
    apply list_elem_of_In in Hx.
    destruct Hk as [<-|[]]. contradiction.
  - apply NoDup_singleton.
Qed.

Lemma get_In (o : object V) k v :
  NoDup (map fst o) -> In (k, v) o -> get o k = Some v.
Proof.
  induction o as [|[k0 v0] r IH]; simpl; [tauto|].
  intros Hnd [Heq|Hin].
  - injection Heq as -> ->. now rewrite String.eqb_refl.
  - apply NoDup_cons in Hnd as [Hk Hr].
    destruct (String.eqb_spec k0 k) as [->|]; auto.
    exfalso. apply Hk. apply list_elem_of_In.
    change k with (fst (k, v)). now apply in_map.
Qed.

Lemma In_get (o : object V) k v : get o k = Some v -> In (k, v) o.
Proof.
  induction o as [|[k0 v0] r IH]; simpl; [discriminate|].
  destruct (String.eqb_spec k0 k) as [->|]; intros H.
  - injection H as ->. now left.
  - right. auto.
Qed.
Lemma set_Forall (P : string * V -> Prop) (o : object V) k v :
  P (k, v) -> Forall P o -> Forall P (set o k v).
Proof.
  intros Hk. induction 1 as [|[k0 v0] r H0 Hr IH]; simpl.
  - repeat constructor. exact Hk.
  - destruct (String.eqb_spec k0 k) as [->|]; constructor; auto.
Qed.
End ObjectFacts.

(** ** Query strings *)

Section QueryFacts.
Import JsString JsObject FilterState.

Lemma append_cons c a b :
  String.append (String c a) b = String c (String.append a b).
Proof. reflexivity. Qed.

Lemma append_nil b : String.append "" b = b.
Proof. reflexivity. Qed.

Lemma contains_append c a b :
  contains c (String.append a b) = contains c a || contains c b.
Proof.
  induction a as [|x a IH]; [reflexivity|].
  rewrite append_cons. simpl. rewrite IH. apply orb_assoc.
Qed.

Lemma encode_cons c r :
  encodeURIComponent (String c r) =
  String.append (encodeURIComponent (String c "")) (encodeURIComponent r).
Proof. simpl. now destruct (isUnreserved c). Qed.

Lemma encode_char_clean c :
  contains "&" (encodeURIComponent (String c "")) = false
  /\ contains "=" (encodeURIComponent (String c "")) = false.
Proof.
  destruct c as [[] [] [] [] [] [] [] []]; split; vm_compute; reflexivity.
Qed.

Lemma encode_clean s :
  contains "&" (encodeURIComponent s) = false
  /\ contains "=" (encodeURIComponent s) = false.
Proof.
  induction s as [|c r [IH1 IH2]]; [split; reflexivity|].
  rewrite encode_cons, !contains_append, IH1, IH2.
  destruct (encode_char_clean c) as [-> ->]. split; reflexivity.
Qed.

Lemma split_clean c s : contains c s = false -> split c s = [s].
Proof.
  induction s as [|a r IH]; simpl; [reflexivity|].
  destruct (Ascii.eqb a c); simpl; [discriminate|].
  intros H. now rewrite IH.
Qed.

Lemma split_append c a b :
  contains c a = false ->
  split c (String.append a (String c b)) = a :: split c b.
Proof.
  induction a as [|x a IH].
  - intros _. change (split c (String c b) = "" :: split c b).
    simpl. now rewrite Ascii.eqb_refl.
  - rewrite append_cons. simpl.
    destruct (Ascii.eqb x c); simpl; [discriminate|].
    intros H. now rewrite IH.
Qed.

Lemma split_join c l :
  l <> [] -> Forall (fun a => contains c a = false) l ->
  split c (join (String c "") l) = l.
Proof.
  induction l as [|a r IH]; [congruence|].
  intros _ Hall. apply Forall_cons in Hall as [Ha Hr].
  destruct r as [|b r].
  - simpl. now apply split_clean.
  - change (join (String c "") (a :: b :: r))
      with (String.append a (String c (join (String c "") (b :: r)))).
    rewrite split_append by assumption.
    f_equal. now apply IH.
Qed.

Lemma name_pair params k : name (pair params k) = encodeURIComponent k.
Proof.
  unfold name, pair.
  rewrite split_append by apply encode_clean. reflexivity.
Qed.

Lemma pair_clean params k : contains "&" (pair params k) = false.
Proof.
  unfold pair. rewrite contains_append. simpl.
  destruct (encode_clean k) as [-> _].
  now destruct (encode_clean (toString (valueOf params k))) as [-> _].
Qed.

Lemma pair_not_empty params k : pair params k <> "".
Proof.
  unfold pair. destruct (encodeURIComponent k); discriminate.
Qed.

Lemma join_not_empty sep x r : x <> "" -> join sep (x :: r) <> "".
Proof.
  intros Hx. destruct r; simpl; [assumption|].
  destruct x; [congruence|discriminate].
Qed.

Lemma buildQuery_cases params :
  (kept params = [] /\ buildQuery params = "")
  \/ (kept params <> []
      /\ buildQuery params =
         String "?" (join "&" (map (pair params) (kept params)))).
Proof.
  unfold buildQuery.
  destruct (kept params) as [|k r] eqn:E; [left; split; reflexivity|].
  right. split; [discriminate|].
  destruct (String.eqb_spec (join "&" (map (pair params) (k :: r))) "")
    as [Hq|Hq]; [|reflexivity].
  exfalso. revert Hq. apply join_not_empty, pair_not_empty.
Qed.

Lemma queryNames_buildQuery params :
  queryNames (buildQuery params) = map encodeURIComponent (kept params).
Proof.
  destruct (buildQuery_cases params) as [[Hk ->]|[Hk ->]].
  - now rewrite Hk.
  - unfold queryNames.
    rewrite split_join.
    + rewrite map_map. apply map_ext. intros k. apply name_pair.
    + destruct (kept params); [congruence|discriminate].
    + apply Forall_forall. intros x Hx. apply list_elem_of_In in Hx.
      apply in_map_iff in Hx as (k & <- & _).
      apply pair_clean.
Qed.

Lemma kept_spec params k :
  In k (kept params) <->
  In k (map fst params) /\ present (valueOf params k) = true.
Proof.
  unfold kept. rewrite filter_In.
  split; intros [Hin Hp]; split; auto.
  - eapply Permutation_in; [apply keys_perm|exact Hin].
  - eapply Permutation_in; [symmetry; apply keys_perm|exact Hin].
Qed.
End QueryFacts.

(** C6. The query string built by [buildQuery] names exactly the keys of
    the parameter object whose value is neither undefined, nor null, nor
    the empty string, in enumeration order; the string is empty, without
    a question mark, exactly when no key is kept, and starts with a
    question mark otherwise. *)
Theorem buildQuery_keeps_present_keys (params : JsObject.object FilterState.value) :
  FilterState.queryNames (FilterState.buildQuery params)
  = map JsString.encodeURIComponent (FilterState.kept params)
  /\ (forall k, In k (FilterState.kept params) <->
        In k (map fst params)
        /\ FilterState.present (FilterState.valueOf params k) = true)
  /\ (FilterState.buildQuery params = "" <-> FilterState.kept params = [])
  /\ (FilterState.buildQuery params = ""
      \/ exists q, FilterState.buildQuery params = String "?" q).
Proof.
  split; [apply queryNames_buildQuery|].
  split; [apply kept_spec|].
  destruct (buildQuery_cases params) as [[Hk Hq]|[Hk Hq]]; rewrite Hq.
  - split; [tauto|]. now left.
  - split; [split; [discriminate|congruence]|]. right. eauto.
Qed.

(** C3. The filter object read from the panel has the three keys
    [start_date], [end_date] and [countries] and no other: whatever the
    segment input holds, no [segment] parameter reaches the query string;
    with only a segment selected the query string is empty. *)
Theorem getFilters_ignores_segment (d : FilterState.filterPanel) :
  existsb (String.eqb "segment")
    (FilterState.queryNames (FilterState.buildQuery (FilterState.getFilters d)))
  = false
  /\ FilterState.buildQuery (FilterState.getFilters Examples.segmentOnly) = "".
Proof.
  split; [|reflexivity].
  rewrite queryNames_buildQuery.
  unfold FilterState.kept.
  change (JsObject.keys (FilterState.getFilters d))
    with ["start_date"; "end_date"; "countries"].
  simpl.
  repeat match goal with
         | |- context [if ?b then _ else _] => destruct b
         end; reflexivity.
Qed.

(** ** Revenue sums *)

Section RevenueFacts.
Import JsArray JsObject Backend Aggregator.

Lemma sumQ_cons (a : Q) (l : list Q) : sumQ (a :: l) = (a + sumQ l)%Q.
Proof. reflexivity. Qed.

Lemma sumQ_alter_add (l : list Q) (i : nat) (r : Q) :
  (i < length l)%nat ->
  (sumQ (alter (fun x => x + r) i l) == sumQ l + r)%Q.
Proof.
  revert i. induction l as [|a l IH]; intros i Hi; [simpl in Hi; lia|].
  destruct i as [|i].
  - change (alter (fun x => (x + r)%Q) 0%nat (a :: l)) with ((a + r)%Q :: l).
    rewrite !sumQ_cons. ring.
  - change (alter (fun x => (x + r)%Q) (S i) (a :: l))
      with (a :: alter (fun x => (x + r)%Q) i l).
    rewrite !sumQ_cons, IH by (simpl in Hi; lia). ring.
Qed.

Variable getDay : string -> option weekday.

Lemma dayIndex_bound (d : weekday) : (dayIndex d < 7)%nat.
Proof. destruct d; simpl; lia. Qed.

Lemma dailyStep_length acc t :
  length (dailyStep getDay acc t) = length acc.
Proof.
  unfold dailyStep.
  destruct (truthy (InvoiceDate t)); [|reflexivity].
  destruct (getDay _); [|reflexivity].
  apply length_alter.
Qed.

Lemma dailyStep_sum acc t :
  length acc = 7%nat ->
  (sumQ (dailyStep getDay acc t)
   == sumQ acc + (if dated getDay t then revenue t else 0))%Q.
Proof.
  intros Hlen. unfold dailyStep, dated.
  destruct (truthy (InvoiceDate t)); cbv beta iota; [|simpl; ring].
  destruct (getDay _) as [d|]; [|simpl; ring].
  rewrite sumQ_alter_add; [reflexivity|].
  rewrite Hlen. apply dayIndex_bound.
Qed.

Lemma daily_fold ts acc :
  length acc = 7%nat ->
  length (fold_left (dailyStep getDay) ts acc) = 7%nat
  /\ (sumQ (fold_left (dailyStep getDay) ts acc)
      == sumQ acc + sumQ (map revenue (List.filter (dated getDay) ts)))%Q.
Proof.
  revert acc. induction ts as [|t ts IH]; intros acc Hlen.
  - split; [assumption|]. simpl. ring.
  - destruct (IH (dailyStep getDay acc t)) as [Hl Hs].
    { now rewrite dailyStep_length. }
    split; [assumption|].
    change (fold_left (dailyStep getDay) (t :: ts) acc)
      with (fold_left (dailyStep getDay) ts (dailyStep getDay acc t)).
    rewrite Hs, dailyStep_sum by assumption.
    change (List.filter (dated getDay) (t :: ts))
      with (if dated getDay t then t :: List.filter (dated getDay) ts
            else List.filter (dated getDay) ts).
    destruct (dated getDay t).
    + change (map revenue (t :: List.filter (dated getDay) ts))
        with (revenue t :: map revenue (List.filter (dated getDay) ts)).
      rewrite sumQ_cons. ring.
    + ring.
Qed.
End RevenueFacts.

Section CategoryFacts.
Import JsArray JsObject Backend Aggregator ChartReading.
Variable memberText : string -> string.
Variable numberText : Q -> string.

Local Abbreviation step := (categoryStep memberText numberText).
Local Abbreviation totalAt o c := (amount (default (Amount 0%Q) (get o c))).
Local Abbreviation plain := (Forall (fun e : string * bucket => isAmount e.2 = true)).
Local Abbreviation numbered :=
  (map (fun e : string * bucket => (e.1, amount e.2))).

Lemma numOr_zero (o : option Q) : (numOr o 0 == default 0 o)%Q.
Proof.
  destruct o as [q|]; simpl; [|reflexivity].
  destruct (Qeq_bool q 0) eqn:E; [|reflexivity].
  apply Qeq_bool_iff in E. now rewrite E.
Qed.

Lemma inherited_proto c :
  inherited c = false -> String.eqb c "__proto__" = false.
Proof.
  intros H. destruct (String.eqb_spec c "__proto__") as [->|]; [|reflexivity].
  discriminate H.
Qed.

Lemma addTo_plain cats c r :
  inherited c = false -> plain cats ->
  exists v, addTo memberText numberText cats c r = Amount v
            /\ (v == totalAt cats c + r)%Q.
Proof.
  intros Hc Hp. unfold addTo.
  destruct (get cats c) as [[q|s]|] eqn:G.
  - exists (numOr (Some q) 0 + r)%Q. split; [reflexivity|].
    rewrite numOr_zero. reflexivity.
  - apply In_get in G. rewrite Forall_forall in Hp.
    apply list_elem_of_In in G. apply Hp in G. discriminate G.
  - rewrite Hc. exists (0 + r)%Q. split; reflexivity.
Qed.

Lemma ownWord_category t :
  ownWord t = true -> truthy (Description t) = true ->
  inherited (category (text (Description t))) = false.
Proof.
  unfold ownWord. intros H Hd. rewrite Hd in H.
  now destruct (inherited _).
Qed.

Lemma categoryStep_plain cats t :
  ownWord t = true -> plain cats ->
  plain (step cats t)
  /\ (NoDup (map fst cats) -> NoDup (map fst (step cats t)))
  /\ (forall c,
        (totalAt (step cats t) c
         == totalAt cats c + (if inCategory c t then revenue t else 0))%Q)
  /\ (forall c,
        In c (map fst (step cats t))
        <-> In c (map fst cats) \/ inCategory c t = true).
Proof.
  intros Hown Hp. unfold categoryStep, inCategory.
  destruct (truthy (Description t)) eqn:Hd; cbv beta iota zeta.
  - pose proof (ownWord_category t Hown Hd) as Hc.
    set (c0 := category (text (Description t))) in *.
    destruct (addTo_plain cats c0 (revenue t) Hc Hp) as (v & -> & Hv).
    unfold store. rewrite (inherited_proto c0 Hc).
    split; [now apply set_Forall|].
    split; [apply set_NoDup|].
    split.
    + intros c. destruct (String.eqb_spec c0 c) as [<-|Hne]; simpl andb; cbv iota.
      * rewrite get_set_same. exact Hv.
      * rewrite get_set_other by assumption. ring.
    + intros c. rewrite keys_set. simpl andb. rewrite String.eqb_eq.
      destruct (get cats c0) as [b|] eqn:G.
      * split; [tauto|]. intros [H|<-]; [exact H|].
        apply In_get in G. change c0 with (fst (c0, b)). now apply in_map.
      * rewrite in_app_iff. simpl. tauto.
  - split; [exact Hp|]. split; [auto|]. split.
    + intros c. simpl. ring.
    + intros c. simpl. split; [tauto|]. intros [H|H]; [exact H|discriminate].
Qed.

Lemma category_fold ts cats :
  ownWords ts = true -> plain cats -> NoDup (map fst cats) ->
  plain (fold_left step ts cats)
  /\ NoDup (map fst (fold_left step ts cats))
  /\ (forall c,
        (totalAt (fold_left step ts cats) c
         == totalAt cats c
            + sumQ (map revenue (List.filter (inCategory c) ts)))%Q)
  /\ (forall c,
        In c (map fst (fold_left step ts cats))
        <-> In c (map fst cats)
            \/ exists t, In t ts /\ inCategory c t = true).
Proof.
  revert cats. induction ts as [|t ts IH]; intros cats Hown Hp Hnd.
  - split; [assumption|]. split; [assumption|]. split.
    + intros c. simpl. ring.
    + intros c. simpl. split; [tauto|]. intros [H|(t & [] & _)]. exact H.
  - unfold ownWords in Hown. simpl in Hown.
    apply andb_prop in Hown as [Ht Hts].
    destruct (categoryStep_plain cats t Ht Hp) as (Hp' & Hnd' & Hs' & Hk').
    destruct (IH (step cats t) Hts Hp' (Hnd' Hnd)) as (Hp2 & Hnd2 & Hs2 & Hk2).
    change (fold_left step (t :: ts) cats)
      with (fold_left step ts (step cats t)).
    split; [assumption|]. split; [assumption|]. split.
    + intros c. rewrite Hs2, Hs'.
      change (List.filter (inCategory c) (t :: ts))
        with (if inCategory c t then t :: List.filter (inCategory c) ts
              else List.filter (inCategory c) ts).
      destruct (inCategory c t).
      * change (map revenue (t :: List.filter (inCategory c) ts))
          with (revenue t :: map revenue (List.filter (inCategory c) ts)).
        rewrite sumQ_cons. ring.
      * ring.
    + intros c. rewrite Hk2, Hk'. split.
      * intros [[H|H]|(t' & Hin & H)]; [now left| |].
        -- right. exists t. split; [now left|exact H].
        -- right. exists t'. split; [now right|exact H].
      * intros [H|(t' & [<-|Hin] & H)]; [now left; left| |].
        -- left. now right.
        -- right. now exists t'.
Qed.

Lemma mapM_amountOf (l : list (string * bucket)) :
  plain l -> mapM amountOf l = Some (numbered l).
Proof.
  intros Hp. apply mapM_Some.
  induction Hp as [|[k [q|s]] l Hx Hl IH]; simpl; constructor;
    try discriminate; auto.
Qed.

Lemma amountOf_keys (l : list (string * bucket)) (numeric : list (string * Q)) :
  mapM amountOf l = Some numeric -> map fst numeric = map fst l.
Proof.
  intros H. apply mapM_Some in H.
  induction H as [|[k b] y l l' Hxy Hl IH]; [reflexivity|].
  simpl. f_equal; [|exact IH].
  unfold amountOf in Hxy. simpl in Hxy.
  destruct b; [|discriminate]. now injection Hxy as <-.
Qed.

Lemma plain_totals ts :
  ownWords ts = true ->
  plain (categoryTotals memberText numberText ts)
  /\ NoDup (map fst (categoryTotals memberText numberText ts))
  /\ (forall c v,
        In (c, v) (numbered (categoryTotals memberText numberText ts)) ->
        (v == sumQ (map revenue (List.filter (inCategory c) ts)))%Q)
  /\ (forall c,
        In c (map fst (categoryTotals memberText numberText ts))
        <-> exists t, In t ts /\ inCategory c t = true).
Proof.
  intros Hown.
  destruct (category_fold ts empty Hown) as (Hp & Hnd & Hs & Hk);
    [constructor|constructor|].
  fold (categoryTotals memberText numberText ts) in Hp, Hnd, Hs, Hk.
  split; [exact Hp|]. split; [exact Hnd|]. split.
  - intros c v Hin. apply in_map_iff in Hin as ([k b] & Heq & Hin).
    simpl in Heq. injection Heq as -> <-.
    specialize (Hs c). rewrite (get_In _ _ _ Hnd Hin) in Hs.
    simpl in Hs. rewrite Hs. ring.
  - intros c. rewrite Hk. simpl. split; [intros [[]|H]; exact H|auto].
Qed.

Lemma chart_of_plain ts :
  ownWords ts = true ->
  fetchCategoryDistribution memberText numberText ts
  = Some (firstn 10
            (sort byValueDesc
               (numbered (entries (categoryTotals memberText numberText ts))))).
Proof.
  intros Hown. unfold fetchCategoryDistribution.
  destruct (plain_totals ts Hown) as (Hp & _).
  rewrite mapM_amountOf.
  - now rewrite (slice_prefix 10).
  - apply Forall_forall. intros e He. rewrite Forall_forall in Hp.
    apply Hp. apply list_elem_of_In. apply list_elem_of_In in He.
    eapply Permutation_in; [apply entries_perm|exact He].
Qed.

Lemma byValueDesc_total a b :
  byValueDesc a b = false -> byValueDesc b a = true.
Proof.
  unfold byValueDesc. intros H. apply Qle_bool_iff.
  destruct (Qlt_le_dec a.2 b.2) as [Hlt|Hle].
  - now apply Qlt_le_weak.
  - apply Qle_bool_iff in Hle. congruence.
Qed.

Lemma byValueDesc_trans a b c :
  byValueDesc a b = true -> byValueDesc b c = true ->
  byValueDesc a c = true.
Proof.
  unfold byValueDesc. rewrite !Qle_bool_iff. intros H1 H2.
  now apply Qle_trans with b.2.
Qed.
End CategoryFacts.

Section PrefixFacts.
Context {A : Type} (R : A -> A -> Prop).

Lemma StronglySorted_prefix (l1 l2 : list A) :
  StronglySorted R (l1 ++ l2) -> StronglySorted R l1.
Proof.
  induction l1 as [|x l1 IH]; intros H; [constructor|].
  apply StronglySorted_inv in H as [Hs Hall].
  constructor; [auto|].
  apply Forall_app in Hall. tauto.
Qed.

Lemma StronglySorted_weaken (R' : A -> A -> Prop) (l : list A) :
  (forall a b, R a b -> R' a b) ->
  StronglySorted R l -> StronglySorted R' l.
Proof.
  intros HR. induction 1 as [|x l Hs IH Hall]; constructor; auto.
  eapply Forall_impl; [exact Hall|]. auto.
Qed.
End PrefixFacts.


(** C8. Among the transactions that have a description, the category
    chart buckets the revenue by [Description.split(' ')[0] || 'Other']:
    the text before the first space, "Other" when the description
    starts with a space. When no such first word names a member of
    [Object.prototype], the buckets, from the largest to the smallest,
    are the chart's slices followed by the buckets left out: the chart
    has at most ten slices, and leaves a bucket out only when it has
    ten; the names are distinct and are exactly the first words that
    occur; each bucket holds the summed revenue of its transactions. *)
Theorem category_distribution_top_ten
    (memberText : string -> string) (numberText : Q -> string)
    (transactions : list Backend.transaction)
    (Hwords : ChartReading.ownWords transactions = true) :
  exists out rest,
    Aggregator.fetchCategoryDistribution memberText numberText transactions
    = Some out
    /\ (length out <= 10)%nat
    /\ (rest = [] \/ length out = 10%nat)
    /\ StronglySorted (fun a b => (b.2 <= a.2)%Q) (out ++ rest)
    /\ NoDup (map fst (out ++ rest))
    /\ (forall c,
          In c (map fst (out ++ rest))
          <-> exists t, In t transactions
                        /\ Aggregator.inCategory c t = true)
    /\ Forall (fun cv =>
          (cv.2 == Backend.sumQ
                     (map Backend.revenue
                        (List.filter (Aggregator.inCategory cv.1)
                           transactions)))%Q)
          (out ++ rest).
Proof.
  set (cats := Aggregator.categoryTotals memberText numberText transactions).
  set (numbers := map (fun e : string * Aggregator.bucket =>
                         (e.1, ChartReading.amount e.2))
                    (JsObject.entries cats)).
  set (sorted := JsArray.sort Aggregator.byValueDesc numbers).
  exists (firstn 10 sorted), (skipn 10 sorted).
  rewrite firstn_skipn.
  destruct (plain_totals memberText numberText transactions Hwords)
    as (Hp & Hnd & Hv & Hk).
  fold cats in Hp, Hnd, Hv, Hk.
  assert (Hperm : Permutation sorted
                    (map (fun e : string * Aggregator.bucket =>
                            (e.1, ChartReading.amount e.2)) cats)).
  { unfold sorted, numbers. rewrite sort_perm.
    apply Permutation_map, entries_perm. }
  assert (Hkeys : Permutation (map fst sorted) (map fst cats)).
  { rewrite (Permutation_map fst Hperm), List.map_map. reflexivity. }
  split; [apply chart_of_plain; exact Hwords|].
  split; [apply firstn_le_length|].
  split.
  { destruct (Nat.le_gt_cases (length sorted) 10) as [Hle|Hgt].
    - left. now apply skipn_all2.
    - right. rewrite length_firstn. lia. }
  split.
  { eapply StronglySorted_weaken;
      [|apply (sort_strongly_sorted Aggregator.byValueDesc)].
    - intros a b H. now apply Qle_bool_iff.
    - apply byValueDesc_total.
    - apply byValueDesc_trans. }
  split; [rewrite Hkeys; exact Hnd|].
  split.
  { intros c. rewrite <- Hk. split; intros H.
    - eapply Permutation_in; [exact Hkeys|exact H].
    - eapply Permutation_in; [symmetry; exact Hkeys|exact H]. }
  apply Forall_forall. intros [c v] Hin. apply list_elem_of_In in Hin.
  apply Hv. eapply Permutation_in; [exact Hperm|exact Hin].
Qed.

(** ** Cohorts *)

Section CohortFacts.
Import JsString JsArray JsObject Backend Aggregator.

Lemma leb_total_bool a b : String.leb a b = false -> String.leb b a = true.
Proof.
  intros H. destruct (String.leb_total a b) as [H'|H']; congruence.
Qed.

Lemma leb_trans_bool a b c :
  String.leb a b = true -> String.leb b c = true -> String.leb a c = true.
Proof.
  intros H1 H2. apply Is_true_true.
  apply (@transitivity _ String.le _ a b c); now apply Is_true_true.
Qed.

Lemma leb_ne_ltb a b :
  String.leb a b = true -> a <> b -> String.ltb a b = true.
Proof.
  unfold String.leb, String.ltb. intros Hle Hne.
  destruct (String.compare a b) eqn:E; try reflexivity; try discriminate.
  apply String.compare_eq_iff in E. contradiction.
Qed.

Lemma StronglySorted_strict (l : list string) :
  StronglySorted (fun a b => String.leb a b = true) l -> NoDup l ->
  StronglySorted (fun a b => String.ltb a b = true) l.
Proof.
  induction 1 as [|x l Hs IH Hall]; intros Hnd; [constructor|].
  apply NoDup_cons in Hnd as [Hx Hl].
  constructor; [auto|].
  apply Forall_forall. intros y Hy.
  apply leb_ne_ltb.
  - rewrite Forall_forall in Hall. auto.
  - intros ->. contradiction.
Qed.

Lemma cohortSet_set cohorts k s m :
  cohortSet (set cohorts k s) m
  = if String.eqb k m then s else cohortSet cohorts m.
Proof.
  unfold cohortSet.
  destruct (String.eqb_spec k m) as [->|Hne].
  - now rewrite get_set_same.
  - now rewrite get_set_other.
Qed.

Lemma customersIn_one m t :
  customersIn m [t]
  = if inMonth m t then {[ text (CustomerID t) ]} else ∅.
Proof.
  unfold customersIn.
  change (List.filter (inMonth m) [t])
    with (if inMonth m t then [t] else []).
  destruct (inMonth m t); simpl; [|reflexivity].
  apply (right_id_L ∅ (∪)).
Qed.

Lemma cohortStep_set cohorts t m :
  cohortSet (cohortStep cohorts t) m
  = cohortSet cohorts m ∪ customersIn m [t].
Proof.
  rewrite customersIn_one. unfold cohortStep, inMonth.
  destruct (truthy (InvoiceDate t) && truthy (CustomerID t));
    cbv beta iota zeta.
  - rewrite cohortSet_set.
    destruct (String.eqb_spec (take 7 (text (InvoiceDate t))) m)
      as [->|Hne]; simpl; [reflexivity|].
    symmetry. apply (right_id_L ∅ (∪)).
  - simpl. symmetry. apply (right_id_L ∅ (∪)).
Qed.

Lemma cohortStep_keys cohorts t m :
  In m (map fst (cohortStep cohorts t))
  <-> In m (map fst cohorts) \/ inMonth m t = true.
Proof.
  unfold cohortStep, inMonth.
  generalize (take 7 (text (InvoiceDate t))). intros k.
  destruct (truthy (InvoiceDate t) && truthy (CustomerID t));
    cbv beta iota zeta.
  - rewrite keys_set. simpl andb. rewrite String.eqb_eq.
    destruct (get cohorts k) as [g|] eqn:E.
    + split; [now left|]. intros [H|<-]; [assumption|].
      apply In_get in E. change k with (fst (k, g)). now apply in_map.
    + rewrite in_app_iff. simpl. intuition.
  - simpl andb. intuition discriminate.
Qed.

Lemma cohortStep_NoDup cohorts t :
  NoDup (map fst cohorts) -> NoDup (map fst (cohortStep cohorts t)).
Proof.
  unfold cohortStep.
  destruct (truthy (InvoiceDate t) && truthy (CustomerID t)); [|auto].
  apply set_NoDup.
Qed.

Lemma customersIn_cons m t ts :
  customersIn m (t :: ts) = customersIn m [t] ∪ customersIn m ts.
Proof.
  rewrite customersIn_one. unfold customersIn.
  change (List.filter (inMonth m) (t :: ts))
    with (if inMonth m t then t :: List.filter (inMonth m) ts
          else List.filter (inMonth m) ts).
  destruct (inMonth m t); simpl; [reflexivity|].
  symmetry. apply (left_id_L ∅ (∪)).
Qed.

Lemma cohort_fold ts cohorts :
  NoDup (map fst cohorts) ->
  NoDup (map fst (fold_left cohortStep ts cohorts))
  /\ (forall m,
        cohortSet (fold_left cohortStep ts cohorts) m
        = cohortSet cohorts m ∪ customersIn m ts)
  /\ (forall m,
        In m (map fst (fold_left cohortStep ts cohorts))
        <-> In m (map fst cohorts)
            \/ exists t, In t ts /\ inMonth m t = true).
Proof.
  revert cohorts. induction ts as [|t ts IH]; intros cohorts Hnd.
  - split; [assumption|]. split; intros m; simpl.
    + unfold customersIn. simpl. symmetry. apply (right_id_L ∅ (∪)).
    + split; [tauto|]. intros [H|(t & [] & _)]. assumption.
  - destruct (IH (cohortStep cohorts t)) as (Hn & Hs & Hk).
    { now apply cohortStep_NoDup. }
    split; [assumption|]. split; intros m.
    + change (fold_left cohortStep (t :: ts) cohorts)
        with (fold_left cohortStep ts (cohortStep cohorts t)).
      rewrite Hs, cohortStep_set, (customersIn_cons m t ts).
      symmetry. apply (assoc_L (∪)).
    + change (fold_left cohortStep (t :: ts) cohorts)
        with (fold_left cohortStep ts (cohortStep cohorts t)).
      rewrite Hk, cohortStep_keys. simpl. split.
      * intros [[H|H]|(t' & Hin & H)]; eauto 6.
      * intros [H|(t' & [<-|Hin] & H)]; eauto 6.
Qed.
End CohortFacts.

(** C4. The cohort chart lists the year-months of the transactions that
    carry both a date and a customer, in ascending order of the
    year-month and cut after the first twelve, and gives for each the
    number of distinct customers of that month. *)
Theorem cohort_chart_by_month (transactions : list Backend.transaction) :
  let months := (Aggregator.renderCohortChart transactions).1 in
  let sizes := (Aggregator.renderCohortChart transactions).2 in
  sizes = map (fun m => size (Aggregator.customersIn m transactions)) months
  /\ (length months <= 12)%nat
  /\ exists later,
       StronglySorted (fun a b => String.ltb a b = true) (months ++ later)
       /\ (forall m, In m (months ++ later) <->
             exists t, In t transactions /\ Aggregator.inMonth m t = true)
       /\ (later = [] \/ length months = 12%nat).
Proof.
  intros months sizes.
  unfold Aggregator.renderCohortChart in months, sizes. simpl in months, sizes.
  destruct (cohort_fold transactions JsObject.empty) as (Hnd & Hset & Hkeys);
    [constructor|].
  fold (Aggregator.cohortsOf transactions) in Hnd, Hset, Hkeys.
  set (sorted := JsArray.sort String.leb
                   (JsObject.keys (Aggregator.cohortsOf transactions))).
  assert (Hm : months = firstn 12 sorted) by apply (slice_prefix 12).
  assert (Hperm : Permutation sorted
                    (map fst (Aggregator.cohortsOf transactions))).
  { unfold sorted. rewrite sort_perm. apply keys_perm. }
  split.
  { unfold sizes. apply map_ext. intros m. rewrite Hset.
    unfold Aggregator.cohortSet. simpl. f_equal. apply (left_id_L ∅ (∪)). }
  split; [rewrite Hm; apply firstn_le_length|].
  exists (skipn 12 sorted). rewrite Hm, firstn_skipn.
  split; [|split].
  - apply StronglySorted_strict.
    + apply sort_strongly_sorted; [apply leb_total_bool|apply leb_trans_bool].
    + rewrite Hperm. exact Hnd.
  - intros m. split; intros H.
    + apply (Permutation_in _ Hperm), Hkeys in H as [[]|H]. exact H.
    + apply (Permutation_in m (Permutation_sym Hperm)), Hkeys. now right.
  - destruct (Nat.le_gt_cases (length sorted) 12).
    + left. now apply skipn_all2.
    + right. rewrite length_firstn. lia.
Qed.

(** ** Pagination *)

Section PaginationFacts.
Import JsArray Backend TransactionsTable.

Lemma totalPagesOf_div (n : nat) :
  totalPagesOf n = ((Z.of_nat n + 49) / 50)%Z.
Proof.
  unfold totalPagesOf, pageSize, Qceiling, Qfloor, Qdiv, Qinv, Qmult, Qopp,
    inject_Z.
  cbn [Qnum Qden]. 
  change (Z.pos (1 * 50)) with 50%Z.
  Z.to_euclidean_division_equations. lia.
Qed.

Lemma totalPagesOf_bounds (n : nat) :
  (50 * (totalPagesOf n - 1) < Z.of_nat n <= 50 * totalPagesOf n)%Z.
Proof.
  rewrite totalPagesOf_div.
  Z.to_euclidean_division_equations. lia.
Qed.

Lemma render_keeps transactions st :
  currentPage (renderTransactionsTable transactions st) = currentPage st
  /\ currentTransactions (renderTransactionsTable transactions st)
     = currentTransactions st.
Proof.
  unfold renderTransactionsTable.
  destruct (length transactions =? 0)%nat; split; reflexivity.
Qed.

Lemma changePage_keeps page st :
  currentTransactions (changePage page st) = currentTransactions st.
Proof.
  unfold changePage.
  destruct (_ || _); [reflexivity|].
  now rewrite (proj2 (render_keeps _ _)).
Qed.

Lemma changePage_range page st :
  let total := totalPagesOf (length (currentTransactions st)) in
  (1 <= currentPage st <= total)%Z ->
  (1 <= currentPage (changePage page st) <= total)%Z.
Proof.
  intros total Hin. unfold changePage. fold total.
  destruct (Z.ltb_spec page 1); simpl; [assumption|].
  destruct (Z.ltb_spec total page); simpl; [assumption|].
  rewrite (proj1 (render_keeps _ _)). simpl. lia.
Qed.

Lemma changePages_range pages st :
  let total := totalPagesOf (length (currentTransactions st)) in
  (1 <= currentPage st <= total)%Z ->
  currentTransactions (changePages pages st) = currentTransactions st
  /\ (1 <= currentPage (changePages pages st) <= total)%Z.
Proof.
  revert st. induction pages as [|p pages IH]; intros st total Hin.
  - split; [reflexivity|assumption].
  - change (changePages (p :: pages) st)
      with (changePages pages (changePage p st)).
    destruct (IH (changePage p st)) as [Hts Hr].
    { rewrite changePage_keeps. now apply changePage_range. }
    rewrite changePage_keeps in Hts, Hr. split; assumption.
Qed.
End PaginationFacts.

(** C7. An empty list renders as the single "no transactions" row. A list
    of [N > 0] records reports [ceil(N/50)] pages; on page 1 it shows
    the records of indices 0 to 49; and when the current page lies
    between 1 and [ceil(N/50)], as it does after the list is first
    shown, it still does after any run of [changePage] calls. *)
Theorem pagination_pages (transactions : list Backend.transaction)
    (st : TransactionsTable.state) (Hne : transactions <> []) :
  let pages := Qceiling (inject_Z (Z.of_nat (length transactions)) / 50) in
  TransactionsTable.tbody (TransactionsTable.renderTransactionsTable [] st)
  = [TransactionsTable.NoTransactionsRow]
  /\ (50 * (pages - 1) < Z.of_nat (length transactions) <= 50 * pages)%Z
  /\ option_map TransactionsTable.shownTotal
       (TransactionsTable.pagination
          (TransactionsTable.renderTransactionsTable transactions st))
     = Some pages
  /\ (TransactionsTable.currentPage st = 1%Z ->
      TransactionsTable.tbody
        (TransactionsTable.renderTransactionsTable transactions st)
      = map TransactionsTable.TransactionRow (firstn 50 transactions))
  /\ (forall calls,
        TransactionsTable.currentTransactions st = transactions ->
        (1 <= TransactionsTable.currentPage st <= pages)%Z ->
        (1 <= TransactionsTable.currentPage
                (TransactionsTable.changePages calls st) <= pages)%Z)
  /\ (forall calls,
        (1 <= TransactionsTable.currentPage
                (TransactionsTable.changePages calls
                   (TransactionsTable.fetchTransactionsList transactions
                      TransactionsTable.initial)) <= pages)%Z).
Proof.
  intros pages.
  change pages with (TransactionsTable.totalPagesOf (length transactions)).
  assert (Hlen : (length transactions =? 0)%nat = false).
  { destruct transactions; [congruence|reflexivity]. }
  split; [reflexivity|].
  split; [apply totalPagesOf_bounds|].
  split.
  { unfold TransactionsTable.renderTransactionsTable. now rewrite Hlen. }
  split.
  { intros Hp. unfold TransactionsTable.renderTransactionsTable.
    rewrite Hlen, Hp. simpl. f_equal. apply (slice_prefix 50). }
  split.
  { intros calls Hts Hr. rewrite <- Hts in *.
    now apply changePages_range. }
  intros calls.
  set (st1 := TransactionsTable.fetchTransactionsList transactions
                TransactionsTable.initial).
  assert (H1 : TransactionsTable.currentTransactions st1 = transactions).
  { unfold st1, TransactionsTable.fetchTransactionsList.
    now rewrite (proj2 (render_keeps _ _)). }
  assert (H2 : TransactionsTable.currentPage st1 = 1%Z).
  { unfold st1, TransactionsTable.fetchTransactionsList.
    now rewrite (proj1 (render_keeps _ _)). }
  destruct (changePages_range calls st1) as [_ Hr].
  - rewrite H1, H2.
    pose proof (totalPagesOf_bounds (length transactions)).
    destruct transactions; [congruence|]. simpl length in *. lia.
  - now rewrite H1 in Hr.
Qed.

(** ** The transaction form *)

(** C9. Editing a record that has no invoice date does not fill the
    date field from the record: over the form that the edit of another
    record left behind, opening "t1" shows that other record's date
    next to the seven fields of "t1", and saving sends it in a PUT to
    [/transactions/t1]. In general a record found under a non-empty id
    gives its seven fields (absent values give the defaults) and, when
    it has no date, leaves the date field as it was; every submit sends
    the payload built from the form, as a PUT to [/transactions/<id>]
    when the editing id is truthy and as a POST to [/transactions]
    otherwise. *)
Theorem edit_keeps_stale_invoice_date :
  (List.find (TransactionForm.hasId (TransactionForm.Id "t1"))
     (TransactionForm.currentTransactions (Examples.desk Examples.staleForm))
   = Some Examples.undatedRecord
   /\ Backend.InvoiceDate Examples.undatedRecord = None
   /\ TransactionForm.formInvoice
        (TransactionForm.form (Examples.reopened Examples.staleForm))
      = "536367"
   /\ TransactionForm.formInvoiceDate
        (TransactionForm.form (Examples.reopened Examples.staleForm))
      = "2010-12-01T08:34"
   /\ TransactionForm.formInvoiceDate
        (TransactionForm.form (Examples.reopened Examples.blankForm))
      = ""
   /\ TransactionForm.url (Examples.saved Examples.staleForm)
      = "/api/transactions/t1"
   /\ TransactionForm.method (Examples.saved Examples.staleForm) = "PUT"
   /\ TransactionForm.pInvoice
        (TransactionForm.body (Examples.saved Examples.staleForm))
      = "536367"
   /\ TransactionForm.pInvoiceDate
        (TransactionForm.body (Examples.saved Examples.staleForm))
      = "2010-12-01T08:34")
  /\ (forall (numberText : Q -> string)
             (isoMinutes : string -> option string)
             (formDefaults : TransactionForm.fields)
             (st : TransactionForm.state) (id : string),
        let opened :=
          TransactionForm.openTransactionModal numberText isoMinutes
            formDefaults (TransactionForm.Id id) st in
        match List.find (TransactionForm.hasId (TransactionForm.Id id))
                (TransactionForm.currentTransactions st) with
        | Some t =>
            if String.eqb id "" then True
            else
              TransactionForm.editingTransactionId opened
              = TransactionForm.Id id
              /\ TransactionForm.setDate
                   (TransactionForm.formInvoiceDate (TransactionForm.form st))
                   (TransactionForm.form opened)
                 = TransactionForm.fillFrom numberText t (TransactionForm.form st)
              /\ if Backend.truthy (Backend.InvoiceDate t) then
                   match isoMinutes (Backend.text (Backend.InvoiceDate t)) with
                   | Some d =>
                       TransactionForm.formInvoiceDate
                         (TransactionForm.form opened) = d
                       /\ TransactionForm.modalActive opened = true
                   | None =>
                       TransactionForm.modalActive opened
                       = TransactionForm.modalActive st
                   end
                 else
                   TransactionForm.formInvoiceDate (TransactionForm.form opened)
                   = TransactionForm.formInvoiceDate (TransactionForm.form st)
                   /\ TransactionForm.modalActive opened = true
        | None => True
        end)
  /\ (forall (API_BASE eventText : string)
             (parseInt parseFloat : string -> option Q) (nowIso : string)
             (s : TransactionForm.state),
        TransactionForm.handleTransactionSubmit API_BASE eventText
          parseInt parseFloat nowIso s
        = if TransactionForm.truthyId (TransactionForm.editingTransactionId s)
          then
            {| TransactionForm.url :=
                 String.append API_BASE
                   (String.append "/transactions/"
                      (TransactionForm.idText eventText
                         (TransactionForm.editingTransactionId s)));
               TransactionForm.method := "PUT";
               TransactionForm.contentType := "application/json";
               TransactionForm.body :=
                 TransactionForm.payloadOf parseInt parseFloat nowIso
                   (TransactionForm.form s) |}
          else
            {| TransactionForm.url := String.append API_BASE "/transactions";
               TransactionForm.method := "POST";
               TransactionForm.contentType := "application/json";
               TransactionForm.body :=
                 TransactionForm.payloadOf parseInt parseFloat nowIso
                   (TransactionForm.form s) |}).
Proof.
  split; [repeat split; reflexivity|]. split.
  - intros numberText isoMinutes formDefaults st id opened.
    destruct (List.find _ _) as [t|] eqn:Hfind; [|exact I].
    destruct (String.eqb_spec id "") as [|Hid]; [exact I|].
    assert (Htruthy : TransactionForm.truthyId (TransactionForm.Id id) = true).
    { simpl. now destruct (String.eqb_spec id ""). }
    unfold opened, TransactionForm.openTransactionModal.
    rewrite Htruthy, Hfind.
    destruct (Backend.truthy (Backend.InvoiceDate t));
      [destruct (isoMinutes _)|]; repeat split; reflexivity.
  - intros API_BASE eventText parseInt parseFloat nowIso s.
    unfold TransactionForm.handleTransactionSubmit.
    now destruct (TransactionForm.truthyId _).
Qed.

(** ** The product table *)

Section ProductFacts.
Import ProductTable.
Variable localeCompare : string -> string -> comparison.

Lemma alloc_caches l fresh_array st :
  caches l st ->
  caches l (alloc fresh_array st).2
  /\ (alloc fresh_array st).1 <> currentProducts st
  /\ currentProducts (alloc fresh_array st).2 = currentProducts st.
Proof.
  unfold caches, alloc. simpl. intros Hc.
  assert (Hne : fresh (dom (arrays st)) <> currentProducts st).
  { intros Heq.
    apply (is_fresh (dom (arrays st))). rewrite Heq.
    apply elem_of_dom. eauto. }
  split; [|split; [exact Hne|reflexivity]].
  now rewrite lookup_insert_ne.
Qed.

Lemma render_caches l r st :
  caches l st -> caches l (renderProductsTable r st).
Proof. auto. Qed.

Lemma sortInPlace_caches l le r st :
  r <> currentProducts st -> caches l st -> caches l (sortInPlace le r st).
Proof.
  unfold caches, sortInPlace. simpl. intros Hne Hc.
  now rewrite lookup_insert_ne.
Qed.

Lemma filterProducts_caches l q st :
  caches l st ->
  caches l (filterProducts q st)
  /\ currentProducts (filterProducts q st) = currentProducts st.
Proof.
  intros Hc. unfold filterProducts.
  destruct (String.eqb _ ""); [split; [assumption|reflexivity]|].
  match goal with
  | |- context [alloc ?a st] =>
      destruct (alloc_caches l a st Hc) as (H1 & _ & H3);
      destruct (alloc a st) as [r st'] eqn:E
  end.
  simpl in *. split; assumption.
Qed.

Lemma sortProducts_caches l k st :
  caches l st ->
  caches l (sortProducts localeCompare k st)
  /\ currentProducts (sortProducts localeCompare k st) = currentProducts st.
Proof.
  intros Hc. unfold sortProducts.
  match goal with
  | |- context [alloc ?a st] =>
      destruct (alloc_caches l a st Hc) as (H1 & H2 & H3);
      destruct (alloc a st) as [r st'] eqn:E
  end.
  simpl in *. rewrite <- H3 in H2.
  repeat match goal with
         | |- context [if ?b then _ else _] => destruct b
         end;
    (split; [apply render_caches; try apply sortInPlace_caches; assumption
            |simpl; assumption]).
Qed.

Lemma performAll_caches l actions st :
  caches l st ->
  caches l (performAll localeCompare actions st)
  /\ currentProducts (performAll localeCompare actions st)
     = currentProducts st.
Proof.
  revert st. induction actions as [|a actions IH]; intros st Hc.
  - split; [assumption|reflexivity].
  - change (performAll localeCompare (a :: actions) st)
      with (performAll localeCompare actions (perform localeCompare st a)).
    assert (Hstep : caches l (perform localeCompare st a)
                    /\ currentProducts (perform localeCompare st a)
                       = currentProducts st).
    { destruct a; simpl;
        [now apply filterProducts_caches|now apply sortProducts_caches]. }
    destruct Hstep as [Hc' Hp'].
    destruct (IH _ Hc') as [Hc'' Hp'']. split; congruence.
Qed.

Lemma fetch_caches response st : caches response (fetchProductsTable response st).
Proof.
  unfold caches, fetchProductsTable, alloc. simpl.
  apply lookup_insert_eq.
Qed.
End ProductFacts.

(** C10. Searching and sorting leave the cached product array alone:
    after any run of searches and sorts that follows a fetch, the
    variable [currentProducts] still names the same array, the array
    still holds the fetched products in their order, and an empty search
    shows exactly the fetched list. *)
Theorem product_cache_untouched
    (localeCompare : string -> string -> comparison)
    (response : list ProductTable.product) (st0 : ProductTable.state)
    (actions : list ProductTable.action) :
  let fetched := ProductTable.fetchProductsTable response st0 in
  let after := ProductTable.performAll localeCompare actions fetched in
  ProductTable.currentProducts after = ProductTable.currentProducts fetched
  /\ ProductTable.arrays after !! ProductTable.currentProducts after
     = Some response
  /\ ProductTable.tbody (ProductTable.filterProducts "" after)
     = ProductTable.rowsOf response
  /\ ProductTable.tbody fetched = ProductTable.rowsOf response.
Proof.
  intros fetched after.
  destruct (performAll_caches localeCompare response actions fetched)
    as [Hc Hp]; [apply fetch_caches|].
  fold after in Hc, Hp.
  split; [exact Hp|]. split; [exact Hc|]. split.
  - unfold ProductTable.filterProducts. simpl.
    unfold ProductTable.read. now rewrite Hc.
  - unfold fetched, ProductTable.fetchProductsTable, ProductTable.alloc. simpl.
    unfold ProductTable.read. simpl. now rewrite lookup_insert_eq.
Qed.

(** ** Association pairs *)

Section AssociationFacts.
Import JsObject Backend Aggregator.

Lemma countOf_bump o key k :
  countOf (bump o key) k
  = (countOf o k + if String.eqb key k then 1 else 0)%nat.
Proof.
  unfold bump, countOf at 1.
  destruct (String.eqb_spec key k) as [->|Hne].
  - now rewrite get_set_same.
  - rewrite get_set_other by assumption. fold (countOf o k). lia.
Qed.

Lemma pairStep_count a o b k :
  countOf (pairStep a o b) k = (countOf o k + pairHit k a b)%nat.
Proof.
  unfold pairStep, pairHit.
  destruct (differ a b); simpl; [|lia].
  apply countOf_bump.
Qed.

Lemma inner_loop_count a items o k :
  countOf (fold_left (pairStep a) items o) k
  = (countOf o k + list_sum (map (pairHit k a) items))%nat.
Proof.
  revert o. induction items as [|b items IH]; intros o; simpl; [lia|].
  rewrite IH, pairStep_count. lia.
Qed.

Lemma outer_loop_count l items o k :
  countOf
    (fold_left (fun acc a => fold_left (pairStep a) items acc) l o) k
  = (countOf o k + orderedPairs k l items)%nat.
Proof.
  unfold orderedPairs.
  revert o. induction l as [|a l IH]; intros o; simpl; [lia|].
  rewrite IH, inner_loop_count. lia.
Qed.

Lemma differ_sym a b : differ a b = differ b a.
Proof.
  destruct a, b; simpl; try reflexivity.
  now rewrite String.eqb_sym.
Qed.

Lemma differ_refl a : differ a a = false.
Proof. destruct a; simpl; [|reflexivity]. now rewrite String.eqb_refl. Qed.

Lemma pairKey_sym a b : differ a b = true -> pairKey a b = pairKey b a.
Proof.
  destruct a as [x|], b as [y|]; simpl; try reflexivity.
  intros Hne. unfold String.ltb.
  rewrite (String.compare_antisym x y).
  destruct (String.compare y x) eqn:E; simpl; try reflexivity.
  apply String.compare_eq_iff in E. subst y.
  now rewrite String.eqb_refl in Hne.
Qed.

Lemma pairHit_sym k a b : pairHit k a b = pairHit k b a.
Proof.
  unfold pairHit. rewrite (differ_sym b a).
  destruct (differ a b) eqn:E; [|reflexivity].
  now rewrite (pairKey_sym a b E).
Qed.

Lemma pairHit_refl k a : pairHit k a a = 0%nat.
Proof. unfold pairHit. now rewrite differ_refl. Qed.

Lemma orderedPairs_cons_r k l b items :
  orderedPairs k l (b :: items)
  = (list_sum (map (pairHit k b) l) + orderedPairs k l items)%nat.
Proof.
  unfold orderedPairs.
  induction l as [|a l IH]; simpl in *; [reflexivity|].
  rewrite IH, (pairHit_sym k a b). lia.
Qed.

Lemma orderedPairs_even k l : Nat.even (orderedPairs k l l) = true.
Proof.
  induction l as [|a l IH]; [reflexivity|].
  change (orderedPairs k (a :: l) (a :: l))
    with (list_sum (map (pairHit k a) (a :: l))
          + orderedPairs k l (a :: l))%nat.
  rewrite orderedPairs_cons_r. simpl. rewrite pairHit_refl. simpl.
  replace (list_sum (map (pairHit k a) l)
           + (list_sum (map (pairHit k a) l) + orderedPairs k l l))%nat
    with (orderedPairs k l l + 2 * list_sum (map (pairHit k a) l))%nat
    by lia.
  rewrite Nat.even_add_mul_2. exact IH.
Qed.

Lemma itemsStep_even o items k :
  Nat.even (countOf o k) = true ->
  Nat.even (countOf (itemsStep o items) k) = true.
Proof.
  intros He. unfold itemsStep.
  destruct (1 <? length items)%nat; [|assumption].
  rewrite outer_loop_count, Nat.even_add, He, orderedPairs_even.
  reflexivity.
Qed.

Lemma associations_even invoices o k :
  Nat.even (countOf o k) = true ->
  Nat.even (countOf (fold_left itemsStep invoices o) k) = true.
Proof.
  revert o. induction invoices as [|items invoices IH]; intros o He;
    simpl; [assumption|].
  apply IH. now apply itemsStep_even.
Qed.
End AssociationFacts.

Section ForecastFacts.
Import JsArray Aggregator.

Lemma sliceFrom_last_three {A} (prefix : list A) (a b c : A) :
  sliceFrom (-3) (prefix ++ [a; b; c]) = [a; b; c].
Proof.
  unfold sliceFrom, slice, relIndex.
  rewrite length_app. simpl length.
  change (-3 <? 0)%Z with true. cbv iota.
  destruct (Z.ltb_spec (Z.of_nat (length prefix + 3)) 0); [lia|].
  rewrite Z.min_id.
  rewrite (Z.max_l (Z.of_nat (length prefix + 3) + -3) 0) by lia.
  replace (Z.to_nat (Z.of_nat (length prefix + 3) + -3))
    with (length prefix) by lia.
  replace (Z.to_nat
             (Z.max (Z.of_nat (length prefix + 3)
                     - (Z.of_nat (length prefix + 3) + -3)) 0))
    with 3%nat by lia.
  rewrite skipn_app, skipn_all, Nat.sub_diag. reflexivity.
Qed.

Lemma forecast_of_last_three addMonths prefix a b c :
  renderForecastChart addMonths (prefix ++ [a; b; c])
  = match mapM (forecastPoint addMonths c ((Revenue c - Revenue a) / 3)%Q)
            [1; 2; 3]%nat with
    | Some forecast => Forecast forecast
    | None => Thrown
    end.
Proof.
  unfold renderForecastChart. rewrite sliceFrom_last_three.
  assert (Hlen : (length (prefix ++ [a; b; c]) <? 3)%nat = false).
  { apply Nat.ltb_ge. rewrite length_app. simpl. lia. }
  rewrite Hlen.
  assert (Hlast : (prefix ++ [a; b; c]) !! (length (prefix ++ [a; b; c]) - 1)%nat
                  = Some c).
  { rewrite length_app. simpl length.
    replace (length prefix + 3 - 1)%nat with (length prefix + 2)%nat by lia.
    now rewrite lookup_app_r, Nat.add_comm, Nat.add_sub by lia. }
  rewrite Hlast. reflexivity.
Qed.
End ForecastFacts.

(** ** Behaviour on the sample data *)

(** C1. One invoice with the items A, B and C stores 2, not 1, under
    each of A|B, A|C and B|C, and the ranking shows these counts: both
    ordered pairs of a pair of items increment the same sorted key. For
    any transaction list every stored count is even. *)
Theorem association_pairs_counted_twice :
  Aggregator.associationsOf Examples.basket
  = [("A|B", 2%nat); ("A|C", 2%nat); ("B|C", 2%nat)]
  /\ Aggregator.renderAssociationChart Examples.basket
     = [("A|B", 2%nat); ("A|C", 2%nat); ("B|C", 2%nat)]
  /\ forall transactions key,
       Nat.even
         (Aggregator.countOf (Aggregator.associationsOf transactions) key)
       = true.
Proof.
  split; [vm_compute; reflexivity|].
  split; [vm_compute; reflexivity|].
  intros transactions key. unfold Aggregator.associationsOf.
  now apply associations_even.
Qed.

(** C2. The growth used by the forecast is the difference between the
    last and the third-last revenue divided by 3, the number of points,
    not by 2, the number of periods: for the series 100, 150, 200 it is
    100/3 and the projected revenues are 700/3, 800/3 and 300, where
    the average period-over-period delta 50 would give 250 first. The
    three points are there whenever the three month labels can be
    computed; otherwise the function throws and plots nothing. *)
Theorem forecast_divides_by_point_count
    (addMonths : string -> nat -> option string) :
  (forall prefix a b c,
     Aggregator.renderForecastChart addMonths (prefix ++ [a; b; c])
     = match mapM (Aggregator.forecastPoint addMonths c
                     ((Aggregator.Revenue c - Aggregator.Revenue a) / 3)%Q)
               [1; 2; 3]%nat with
       | Some forecast => Aggregator.Forecast forecast
       | None => Aggregator.Thrown
       end)
  /\ (forall c growth i,
        option_map Aggregator.Revenue
          (Aggregator.forecastPoint addMonths c growth i)
        = option_map
            (fun _ =>
               Aggregator.mathMax 0
                 (Aggregator.Revenue c + growth * inject_Z (Z.of_nat i))%Q)
            (addMonths (Aggregator.year_month c) i))
  /\ option_map Qred
       (Aggregator.avgGrowth (JsArray.sliceFrom (-3) Examples.series))
     = Some (100 # 3)
  /\ map Qred
       (Aggregator.forecastSeries
          (Aggregator.renderForecastChart addMonths Examples.series))
     = match mapM (addMonths "2011-12") [1; 2; 3]%nat with
       | Some _ => [700 # 3; 800 # 3; 300 # 1]
       | None => []
       end
  /\ match Aggregator.renderForecastChart Examples.utcMonths
            Examples.series with
     | Aggregator.Forecast forecast =>
         map (fun p => (Aggregator.year_month p, Qred (Aggregator.Revenue p)))
           forecast
         = [("2012-01", 700 # 3); ("2012-02", 800 # 3); ("2012-03", 300 # 1)]
     | _ => False
     end.
Proof.
  split; [intros prefix a b c; apply forecast_of_last_three|].
  split.
  { intros c growth i. unfold Aggregator.forecastPoint.
    now destruct (addMonths _ i). }
  split; [vm_compute; reflexivity|].
  split; [|vm_compute; reflexivity].
  change Examples.series
    with ([] ++ [ {| Aggregator.year_month := "2011-10";
                     Aggregator.Revenue := 100%Q |};
                  {| Aggregator.year_month := "2011-11";
                     Aggregator.Revenue := 150%Q |};
                  {| Aggregator.year_month := "2011-12";
                     Aggregator.Revenue := 200%Q |} ]).
  rewrite forecast_of_last_three.
  unfold Aggregator.forecastPoint. cbn [mapM Aggregator.year_month].
  destruct (addMonths "2011-12" 1%nat); [|reflexivity].
  destruct (addMonths "2011-12" 2%nat); [|reflexivity].
  destruct (addMonths "2011-12" 3%nat); [|reflexivity].
  vm_compute. reflexivity.
Qed.


(** January has two customers and February one: the sizes 2, 1 follow
    the months, not the cardinalities. *)
Lemma cohort_sizes_follow_months :
  Aggregator.renderCohortChart Examples.cohortSample
  = (["2020-01"; "2020-02"], [2; 1]%nat)
  /\ ~ Sorted le (Aggregator.renderCohortChart Examples.cohortSample).2.
Proof.
  assert (H : Aggregator.renderCohortChart Examples.cohortSample
              = (["2020-01"; "2020-02"], [2; 1]%nat))
    by (vm_compute; reflexivity).
  split; [exact H|]. rewrite H. simpl. intros Hs.
  apply Sorted_inv in Hs as [_ Hhd].
  apply HdRel_inv in Hhd. lia.
Qed.

(** Fifty-one records are shown on two pages. *)
Lemma pagination_pages_witness :
  Examples.ledger <> []
  /\ option_map TransactionsTable.shownTotal
       (TransactionsTable.pagination
          (TransactionsTable.renderTransactionsTable Examples.ledger
             TransactionsTable.initial))
     = Some 2%Z.
Proof.
  assert (Hne : Examples.ledger <> []) by discriminate.
  split; [exact Hne|].
  exact (proj1 (proj2 (proj2
           (pagination_pages Examples.ledger TransactionsTable.initial Hne)))).
Defined.

(** A description that starts with a space is counted under "Other",
    not under its first whitespace-delimited token "LUNCH". *)
Lemma leading_space_goes_to_other :
  Aggregator.fetchCategoryDistribution Examples.memberText Examples.numberText
    [Examples.leadingSpace]
  = Some [("Other", 6%Q)]
  /\ Backend.Description Examples.leadingSpace = Some " LUNCH BAG"
  /\ ChartReading.firstToken " LUNCH BAG" = "LUNCH"
  /\ Aggregator.category " LUNCH BAG" <> ChartReading.firstToken " LUNCH BAG".
Proof.
  split; [vm_compute; reflexivity|]. split; [reflexivity|].
  split; [reflexivity|]. vm_compute. discriminate.
Qed.

(** Three sales under two first words give the two slices LUNCH and
    JAM. *)
Lemma category_distribution_top_ten_witness :
  ChartReading.ownWords Examples.shelf = true
  /\ exists (out rest : list (string * Q)),
       Aggregator.fetchCategoryDistribution Examples.memberText
         Examples.numberText Examples.shelf = Some out
       /\ (length out <= 10)%nat
       /\ (rest = [] \/ length out = 10%nat).
Proof.
  assert (Hwords : ChartReading.ownWords Examples.shelf = true)
    by reflexivity.
  split; [exact Hwords|].
  destruct (category_distribution_top_ten Examples.memberText
              Examples.numberText Examples.shelf Hwords)
    as (out & rest & Hout & Hlen & Hrest & _).
  exists out, rest. auto.
Defined.

(** * Further properties *)

(** ** Pages of the transactions table *)

Section PageFacts.
Import JsArray Backend TransactionsTable.

Lemma slice_window {A} (a : nat) (l : list A) :
  slice (Z.of_nat a) (Z.of_nat a + 50) l = firstn 50 (skipn a l).
Proof.
  unfold slice, relIndex.
  destruct (Z.ltb_spec (Z.of_nat a) 0); [lia|].
  destruct (Z.ltb_spec (Z.of_nat a + 50) 0); [lia|].
  destruct (Nat.le_gt_cases a (length l)) as [Hle|Hgt].
  - rewrite (Z.min_l (Z.of_nat a)) by lia. rewrite Nat2Z.id.
    destruct (Nat.le_gt_cases (a + 50) (length l)).
    + rewrite Z.min_l, Z.max_l by lia. f_equal. lia.
    + rewrite Z.min_r, Z.max_l by lia.
      rewrite !firstn_all2; [reflexivity| |]; rewrite length_skipn; lia.
  - rewrite !Z.min_r by lia. rewrite Nat2Z.id, Z.sub_diag.
    rewrite skipn_all, (skipn_all2 l) by lia. now rewrite firstn_nil.
Qed.

Lemma chunks_cover {A} (n : nat) (l : list A) :
  flat_map (fun i => firstn 50 (skipn (50 * i) l)) (seq 0 n)
  ++ skipn (50 * n) l = l.
Proof.
  induction n as [|n IH]; [reflexivity|].
  rewrite seq_S, flat_map_app. simpl flat_map. rewrite app_nil_r, <- app_assoc.
  replace (skipn (50 * S n) l) with (skipn 50 (skipn (50 * n) l))
    by (rewrite skipn_skipn; f_equal; lia).
  now rewrite firstn_skipn.
Qed.

Lemma page_rows (p : nat) transactions st :
  transactions <> [] ->
  tbody (renderTransactionsTable transactions (setPage (Z.of_nat (S p)) st))
  = map TransactionRow (firstn 50 (skipn (50 * p) transactions)).
Proof.
  intros Hne. unfold renderTransactionsTable.
  destruct transactions as [|t ts]; [congruence|].
  change (length (t :: ts) =? 0)%nat with false. cbv iota.
  cbn [tbody renderPagination setBody currentPage setPage].
  f_equal. unfold pageSize.
  replace ((Z.of_nat (S p) - 1) * 50)%Z with (Z.of_nat (50 * p)) by lia.
  apply slice_window.
Qed.
End PageFacts.

(** X1. The pages of the table cut the list into consecutive runs of
    fifty: the rows of pages 1 to [ceil(N/50)], one after the other, are
    the rows of the whole list, each record once and in order. *)
Theorem pages_cover_the_list (transactions : list Backend.transaction)
    (st : TransactionsTable.state) :
  flat_map
    (fun p =>
       TransactionsTable.tbody
         (TransactionsTable.renderTransactionsTable transactions
            (TransactionsTable.setPage (Z.of_nat p) st)))
    (seq 1 (Z.to_nat (TransactionsTable.totalPagesOf (length transactions))))
  = map TransactionsTable.TransactionRow transactions.
Proof.
  destruct transactions as [|t ts]; [reflexivity|].
  set (l := t :: ts).
  set (n := Z.to_nat (TransactionsTable.totalPagesOf (length l))).
  rewrite <- seq_shift, flat_map_concat_map, map_map, <- flat_map_concat_map.
  rewrite (flat_map_ext _
             (fun i => map TransactionsTable.TransactionRow
                         (firstn 50 (skipn (50 * i) l)))).
  2:{ intros p. apply page_rows. discriminate. }
  assert (Hn : (length l <= 50 * n)%nat).
  { pose proof (totalPagesOf_bounds (length l)). unfold n. lia. }
  transitivity
    (map TransactionsTable.TransactionRow
       (flat_map (fun i => firstn 50 (skipn (50 * i) l)) (seq 0 n)
        ++ skipn (50 * n) l)); [|now rewrite chunks_cover].
  rewrite (skipn_all2 l) by exact Hn. rewrite app_nil_r.
  generalize (seq 0 n). intros idxs.
  induction idxs as [|i idxs IH]; [reflexivity|].
  cbn [flat_map]. now rewrite map_app, IH.
Qed.

(** X3. Once a non-empty list is shown on a page within range, each
    pager button is disabled exactly when [changePage] would refuse its
    target: "previous" at page 1, "next" at the last page; an enabled
    button moves the page by one. *)
Theorem pager_buttons_match_changePage
    (transactions : list Backend.transaction) (st : TransactionsTable.state)
    (Hts : TransactionsTable.currentTransactions st = transactions)
    (Hne : transactions <> [])
    (Hrange : (1 <= TransactionsTable.currentPage st
               <= TransactionsTable.totalPagesOf (length transactions))%Z) :
  let shown := TransactionsTable.renderTransactionsTable transactions st in
  exists pager,
    TransactionsTable.pagination shown = Some pager
    /\ (TransactionsTable.prevDisabled pager = true
        <-> TransactionsTable.currentPage st = 1%Z)
    /\ (TransactionsTable.nextDisabled pager = true
        <-> TransactionsTable.currentPage st
            = TransactionsTable.totalPagesOf (length transactions))
    /\ TransactionsTable.currentPage
         (TransactionsTable.changePage
            (TransactionsTable.prevTarget pager) shown)
       = (if TransactionsTable.prevDisabled pager
          then TransactionsTable.currentPage st
          else TransactionsTable.currentPage st - 1)%Z
    /\ TransactionsTable.currentPage
         (TransactionsTable.changePage
            (TransactionsTable.nextTarget pager) shown)
       = (if TransactionsTable.nextDisabled pager
          then TransactionsTable.currentPage st
          else TransactionsTable.currentPage st + 1)%Z.
Proof.
  intros shown.
  destruct (render_keeps transactions st) as [Hp Hc].
  fold shown in Hp, Hc. rewrite Hts in Hc.
  assert (Hlen : (length transactions =? 0)%nat = false).
  { destruct transactions; [congruence|reflexivity]. }
  set (total := TransactionsTable.totalPagesOf (length transactions)) in *.
  assert (Hstep : forall target,
    TransactionsTable.currentPage (TransactionsTable.changePage target shown)
    = if ((target <? 1) || (total <? target))%Z
      then TransactionsTable.currentPage st else target).
  { intros target. unfold TransactionsTable.changePage.
    rewrite Hc. fold total.
    destruct ((target <? 1) || (total <? target))%Z; [exact Hp|].
    now rewrite (proj1 (render_keeps _ _)). }
  eexists. split.
  { unfold shown, TransactionsTable.renderTransactionsTable.
    rewrite Hlen. reflexivity. }
  cbn [TransactionsTable.prevDisabled TransactionsTable.nextDisabled
       TransactionsTable.prevTarget TransactionsTable.nextTarget
       TransactionsTable.currentPage TransactionsTable.setBody].
  fold total. rewrite !Hstep.
  split; [apply Z.eqb_eq|]. split; [apply Z.eqb_eq|].
  split.
  - destruct (Z.eqb_spec (TransactionsTable.currentPage st) 1).
    + destruct (Z.ltb_spec (TransactionsTable.currentPage st - 1) 1);
        [reflexivity|lia].
    + destruct (Z.ltb_spec (TransactionsTable.currentPage st - 1) 1); [lia|].
      destruct (Z.ltb_spec total (TransactionsTable.currentPage st - 1));
        [lia|reflexivity].
  - destruct (Z.eqb_spec (TransactionsTable.currentPage st) total).
    + destruct (Z.ltb_spec (TransactionsTable.currentPage st + 1) 1); [lia|].
      destruct (Z.ltb_spec total (TransactionsTable.currentPage st + 1));
        [reflexivity|lia].
    + destruct (Z.ltb_spec (TransactionsTable.currentPage st + 1) 1); [lia|].
      destruct (Z.ltb_spec total (TransactionsTable.currentPage st + 1));
        [lia|reflexivity].
Qed.

(** X4. A fetch does not reset the current page. When the new list is
    not empty but has fewer pages than the page shown before, the table
    body is left without any row, the pager reads "page p of n" with
    [p > n], "next" is enabled and its target is refused. *)
Theorem stale_page_after_fetch
    (response : list Backend.transaction) (st : TransactionsTable.state)
    (Hne : response <> [])
    (Hstale : (TransactionsTable.totalPagesOf (length response)
               < TransactionsTable.currentPage st)%Z) :
  let shown := TransactionsTable.fetchTransactionsList response st in
  TransactionsTable.tbody shown = []
  /\ TransactionsTable.currentPage shown = TransactionsTable.currentPage st
  /\ option_map TransactionsTable.shownPage (TransactionsTable.pagination shown)
     = Some (TransactionsTable.currentPage st)
  /\ option_map TransactionsTable.shownTotal (TransactionsTable.pagination shown)
     = Some (TransactionsTable.totalPagesOf (length response))
  /\ option_map TransactionsTable.nextDisabled (TransactionsTable.pagination shown)
     = Some false
  /\ TransactionsTable.changePage (TransactionsTable.currentPage st + 1) shown
     = shown.
Proof.
  intros shown.
  assert (Hlen : (length response =? 0)%nat = false).
  { destruct response; [congruence|reflexivity]. }
  pose proof (totalPagesOf_bounds (length response)) as Hb.
  set (total := TransactionsTable.totalPagesOf (length response)) in *.
  assert (Hshown : shown =
    TransactionsTable.renderPagination (length response)
      (TransactionsTable.setBody []
         {| TransactionsTable.currentTransactions := response;
            TransactionsTable.currentPage := TransactionsTable.currentPage st;
            TransactionsTable.tbody := TransactionsTable.tbody st;
            TransactionsTable.pagination := TransactionsTable.pagination st |})).
  { unfold shown, TransactionsTable.fetchTransactionsList,
      TransactionsTable.renderTransactionsTable.
    rewrite Hlen. cbn [TransactionsTable.currentPage].
    do 2 f_equal.
    unfold JsArray.slice, JsArray.relIndex, TransactionsTable.pageSize.
    destruct (Z.ltb_spec ((TransactionsTable.currentPage st - 1) * 50) 0);
      [lia|].
    rewrite (Z.min_r ((TransactionsTable.currentPage st - 1) * 50)) by lia.
    rewrite Nat2Z.id, skipn_all. now rewrite firstn_nil. }
  rewrite Hshown.
  cbn [TransactionsTable.tbody TransactionsTable.currentPage
       TransactionsTable.pagination TransactionsTable.renderPagination
       TransactionsTable.setBody option_map TransactionsTable.shownPage
       TransactionsTable.shownTotal TransactionsTable.nextDisabled].
  fold total.
  split; [reflexivity|]. split; [reflexivity|]. split; [reflexivity|].
  split; [reflexivity|]. split.
  - f_equal. apply Z.eqb_neq. lia.
  - unfold TransactionsTable.changePage.
    cbn [TransactionsTable.currentTransactions
         TransactionsTable.renderPagination TransactionsTable.setBody].
    fold total.
    destruct (Z.ltb_spec total (TransactionsTable.currentPage st + 1));
      [|lia].
    now rewrite orb_true_r.
Qed.

(** One record fetched while page 3 was shown. *)
Lemma stale_page_after_fetch_witness :
  [Examples.undatedSale] <> []
  /\ (TransactionsTable.totalPagesOf (length [Examples.undatedSale])
      < TransactionsTable.currentPage Samples.shrunk)%Z
  /\ TransactionsTable.tbody
       (TransactionsTable.fetchTransactionsList [Examples.undatedSale]
          Samples.shrunk) = [].
Proof.
  assert (Hne : [Examples.undatedSale] <> []) by discriminate.
  assert (Hst : (TransactionsTable.totalPagesOf (length [Examples.undatedSale])
                 < TransactionsTable.currentPage Samples.shrunk)%Z)
    by (vm_compute; reflexivity).
  split; [exact Hne|]. split; [exact Hst|].
  exact (proj1 (stale_page_after_fetch [Examples.undatedSale] Samples.shrunk
                  Hne Hst)).
Defined.

(** Fifty-one records shown on page 1. *)
Lemma pager_buttons_match_changePage_witness :
  Examples.ledger <> []
  /\ (1 <= 1 <= TransactionsTable.totalPagesOf (length Examples.ledger))%Z
  /\ exists pager,
       TransactionsTable.pagination
         (TransactionsTable.renderTransactionsTable Examples.ledger
            (TransactionsTable.fetchTransactionsList Examples.ledger
               TransactionsTable.initial)) = Some pager
       /\ (TransactionsTable.prevDisabled pager = true <-> 1 = 1)%Z.
Proof.
  assert (Hne : Examples.ledger <> []) by discriminate.
  assert (Hr : (1 <= 1
                <= TransactionsTable.totalPagesOf (length Examples.ledger))%Z)
    by (vm_compute; split; discriminate).
  split; [exact Hne|]. split; [exact Hr|].
  destruct (pager_buttons_match_changePage Examples.ledger
              (TransactionsTable.fetchTransactionsList Examples.ledger
                 TransactionsTable.initial) eq_refl Hne Hr)
    as (pager & Hp & Hprev & _).
  exists pager. split; [exact Hp|exact Hprev].
Defined.

(** ** Day buckets, category names and forecasts *)

Section BucketFacts.
Import JsString JsArray JsObject Backend Aggregator ChartReading.
Variable getDay : string -> option weekday.

Lemma nth_alter_add (l : list Q) (i j : nat) (r : Q) :
  (j < length l)%nat ->
  (nth i (alter (fun x => x + r) j l) 0
   == nth i l 0 + (if (j =? i)%nat then r else 0))%Q.
Proof.
  revert i j. induction l as [|a l IH]; intros i j Hj; [simpl in Hj; lia|].
  destruct j as [|j].
  - change (alter (fun x => (x + r)%Q) 0%nat (a :: l)) with ((a + r)%Q :: l).
    destruct i; simpl; ring.
  - change (alter (fun x => (x + r)%Q) (S j) (a :: l))
      with (a :: alter (fun x => (x + r)%Q) j l).
    destruct i as [|i]; [simpl; ring|].
    change (nth (S i) (a :: alter (fun x => (x + r)%Q) j l) 0%Q)
      with (nth i (alter (fun x => (x + r)%Q) j l) 0%Q).
    change (nth (S i) (a :: l) 0%Q) with (nth i l 0%Q).
    change (S j =? S i)%nat with (j =? i)%nat.
    apply IH. simpl in Hj. lia.
Qed.

Lemma dailyStep_bucket acc t d :
  length acc = 7%nat ->
  (nth (dayIndex d) (dailyStep getDay acc t) 0
   == nth (dayIndex d) acc 0
      + (if onDay getDay d t then revenue t else 0))%Q.
Proof.
  intros Hlen. unfold dailyStep, onDay.
  destruct (truthy (InvoiceDate t)); cbv beta iota; [|simpl; ring].
  destruct (getDay _) as [d'|]; [|simpl; ring].
  rewrite nth_alter_add; [reflexivity|].
  rewrite Hlen. apply dayIndex_bound.
Qed.

Lemma daily_bucket_fold ts acc d :
  length acc = 7%nat ->
  (nth (dayIndex d) (fold_left (dailyStep getDay) ts acc) 0
   == nth (dayIndex d) acc 0
      + sumQ (map revenue (List.filter (onDay getDay d) ts)))%Q.
Proof.
  revert acc. induction ts as [|t ts IH]; intros acc Hlen.
  - simpl. ring.
  - change (fold_left (dailyStep getDay) (t :: ts) acc)
      with (fold_left (dailyStep getDay) ts (dailyStep getDay acc t)).
    rewrite IH by now rewrite dailyStep_length.
    rewrite dailyStep_bucket by assumption.
    change (List.filter (onDay getDay d) (t :: ts))
      with (if onDay getDay d t then t :: List.filter (onDay getDay d) ts
            else List.filter (onDay getDay d) ts).
    destruct (onDay getDay d t).
    + change (map revenue (t :: List.filter (onDay getDay d) ts))
        with (revenue t :: map revenue (List.filter (onDay getDay d) ts)).
      rewrite sumQ_cons. ring.
    + ring.
Qed.

Lemma split_head_clean c s :
  exists p ps, split c s = p :: ps /\ contains c p = false.
Proof.
  induction s as [|a r (p & ps & Hs & Hp)]; simpl.
  - exists "", []. split; reflexivity.
  - destruct (Ascii.eqb a c) eqn:E.
    + exists "", (split c r). split; reflexivity.
    + rewrite Hs. exists (String a p), ps. split; [reflexivity|].
      simpl. now rewrite E, Hp.
Qed.

Lemma category_clean s :
  category s <> "" /\ contains " " (category s) = false.
Proof.
  unfold category.
  destruct (split_head_clean " " s) as (p & ps & -> & Hp).
  destruct (String.eqb_spec p "") as [->|Hne]; split;
    try discriminate; try reflexivity; assumption.
Qed.

Lemma set_Forall_keys {V} (P : string -> Prop) (o : object V) k v :
  P k -> Forall (fun kv => P kv.1) o -> Forall (fun kv => P kv.1) (set o k v).
Proof.
  intros Hk. induction 1 as [|[k0 v0] r H0 Hr IH]; simpl.
  - repeat constructor. exact Hk.
  - destruct (String.eqb k0 k); constructor; auto.
Qed.

Lemma category_names memberText numberText ts cats :
  Forall (fun kv : string * bucket =>
            kv.1 <> "" /\ contains " " kv.1 = false) cats ->
  Forall (fun kv : string * bucket =>
            kv.1 <> "" /\ contains " " kv.1 = false)
    (fold_left (categoryStep memberText numberText) ts cats).
Proof.
  revert cats. induction ts as [|t ts IH]; intros cats H; [exact H|].
  apply IH. unfold categoryStep, store.
  destruct (truthy (Description t)); [|exact H].
  destruct (String.eqb _ "__proto__"); [exact H|].
  apply (set_Forall_keys (fun k => k <> "" /\ contains " " k = false));
    [apply category_clean|exact H].
Qed.
End BucketFacts.

(** X5. Each of the seven buckets holds the revenue of the transactions
    whose date falls on that day of the week: slot [d] of the series is
    the sum of [Quantity * Price] over the dated transactions with
    [getDay() = d]. *)
Theorem daily_bucket_holds_its_day
    (getDay : string -> option Aggregator.weekday)
    (transactions : list Backend.transaction) (d : Aggregator.weekday) :
  (nth (Aggregator.dayIndex d)
     (Aggregator.fetchDailyPattern getDay transactions) 0
   == Backend.sumQ
        (map Backend.revenue
           (List.filter (ChartReading.onDay getDay d) transactions)))%Q.
Proof.
  unfold Aggregator.fetchDailyPattern.
  rewrite daily_bucket_fold by reflexivity.
  destruct d; simpl; ring.
Qed.

(** X6. No category bucket, and so no slice of the category chart, has
    an empty name or a name with a space: a description that starts
    with a space goes to "Other". *)
Theorem category_names_are_single_words
    (memberText : string -> string) (numberText : Q -> string)
    (transactions : list Backend.transaction) :
  Forall (fun cv => cv.1 <> "" /\ JsString.contains " " cv.1 = false)
    (Aggregator.categoryTotals memberText numberText transactions)
  /\ match Aggregator.fetchCategoryDistribution memberText numberText
            transactions with
     | Some out =>
         Forall (fun cv => cv.1 <> "" /\ JsString.contains " " cv.1 = false)
           out
     | None => True
     end
  /\ forall rest, Aggregator.category (String " " rest) = "Other".
Proof.
  assert (H : Forall (fun cv : string * Aggregator.bucket =>
                        cv.1 <> "" /\ JsString.contains " " cv.1 = false)
                (Aggregator.categoryTotals memberText numberText transactions)).
  { apply category_names. constructor. }
  split; [exact H|]. split; [|intros rest; reflexivity].
  unfold Aggregator.fetchCategoryDistribution.
  destruct (mapM Aggregator.amountOf _) as [numeric|] eqn:E; [|exact I].
  apply amountOf_keys in E.
  rewrite (slice_prefix 10).
  apply Forall_forall. intros cv Hin.
  apply (subseteq_take 10) in Hin. apply list_elem_of_In in Hin.
  assert (Hk : In cv.1 (map fst numeric)).
  { apply in_map. eapply Permutation_in; [apply sort_perm|exact Hin]. }
  rewrite E in Hk. apply in_map_iff in Hk as (e & He & Hine).
  rewrite <- He. rewrite Forall_forall in H. apply H.
  apply list_elem_of_In.
  eapply Permutation_in; [apply entries_perm|exact Hine].
Qed.

Section ForecastOutcomes.
Import JsArray Aggregator.

Lemma ends_with_three {A} (l : list A) :
  (3 <= length l)%nat -> exists prefix a b c, l = prefix ++ [a; b; c].
Proof.
  intros Hlen. exists (firstn (length l - 3) l).
  assert (Hs : length (skipn (length l - 3) l) = 3%nat)
    by (rewrite length_skipn; lia).
  destruct (skipn (length l - 3) l) as [|a [|b [|c [|e r]]]] eqn:E;
    try discriminate.
  exists a, b, c. rewrite <- E. symmetry. apply firstn_skipn.
Qed.

Lemma mathMax_floor (v : Q) : (0 <= mathMax 0 v)%Q.
Proof.
  unfold mathMax. destruct (Qle_bool 0 v) eqn:E.
  - now apply Qle_bool_iff.
  - apply Qle_refl.
Qed.

Lemma projected_floor c growth i : (0 <= projected c growth i)%Q.
Proof. apply mathMax_floor. Qed.
End ForecastOutcomes.


(** ** Customer segments *)

Section SegmentFacts.
Import Rfm.

Lemma Qle_bool_false (a b : Q) : Qle_bool a b = false -> (b < a)%Q.
Proof.
  intros E. apply Qnot_le_lt. intros H.
  apply Qle_bool_iff in H. congruence.
Qed.
End SegmentFacts.

Ltac split_tests :=
  repeat match goal with
         | |- context [Qle_bool ?a ?b] =>
             let E := fresh "E" in
             destruct (Qle_bool a b) eqn:E;
             [apply Qle_bool_iff in E|apply Qle_bool_false in E]
         end.

(** X9. For a customer with recency [r], frequency [f] and monetary
    value [m], the segment is VIP exactly when [f >= 10] and
    [m >= 1000], whatever the recency; otherwise Loyal, Active and
    Regular follow the tests in order, At Risk is exactly [r > 180] and
    Standard exactly [90 < r <= 180]. A customer without a recency is
    VIP or Standard. *)
Theorem segment_of_customer (id : option string) (r f m : Q) (k : N) :
  let c := {| Rfm.CustomerID := id; Rfm.Recency := Some r;
              Rfm.Frequency := Some f; Rfm.Monetary := Some m;
              Rfm.cluster := k |} in
  let vip := (10 <= f /\ 1000 <= m)%Q in
  let loyal := (r <= 30 /\ 5 <= f)%Q in
  let active := (r <= 60 /\ 500 <= m)%Q in
  (Rfm.segmentOf c = Rfm.VIP <-> vip)
  /\ (Rfm.segmentOf c = Rfm.Loyal <-> ~ vip /\ loyal)
  /\ (Rfm.segmentOf c = Rfm.Active <-> ~ vip /\ ~ loyal /\ active)
  /\ (Rfm.segmentOf c = Rfm.Regular <->
        ~ vip /\ ~ loyal /\ ~ active /\ (r <= 90)%Q)
  /\ (Rfm.segmentOf c = Rfm.AtRisk <-> ~ vip /\ (180 < r)%Q)
  /\ (Rfm.segmentOf c = Rfm.Standard <-> ~ vip /\ (90 < r <= 180)%Q)
  /\ Rfm.segmentOf
       {| Rfm.CustomerID := id; Rfm.Recency := None;
          Rfm.Frequency := Some f; Rfm.Monetary := Some m;
          Rfm.cluster := k |}
     = (if Qle_bool 10 f && Qle_bool 1000 m then Rfm.VIP else Rfm.Standard).
Proof.
  intros c vip loyal active. subst c vip loyal active.
  unfold Rfm.segmentOf, Rfm.atLeast, Rfm.atMost, Rfm.above.
  cbn [Rfm.Recency Rfm.Frequency Rfm.Monetary].
  split_tests; cbn [andb negb];
    repeat split; intros; try discriminate; try reflexivity; try lra;
    try match goal with
        | H : ~ _ |- _ => exfalso; apply H; split; lra
        end;
    try match goal with
        | H : _ /\ _ |- _ => destruct H; lra
        end;
    try (intros [? ?]; lra).
  all: try (destruct H as [? ?]; lra).
  all: try (exfalso; intuition lra).
Qed.

(** ** Histograms *)

Section TallyFacts.
Import JsObject Rfm ChartReading.
Context {A : Type} (key : A -> string) (labels : list string).
Hypothesis labels_NoDup : NoDup labels.
Hypothesis key_in : forall d, In (key d) labels.

Lemma get_labelled (g : string -> nat) k0 ks :
  In k0 ks -> get (map (fun k => (k, g k)) ks) k0 = Some (g k0).
Proof.
  induction ks as [|k ks IH]; simpl; [tauto|].
  destruct (String.eqb_spec k k0) as [->|Hne]; [reflexivity|].
  intros [?|Hin]; [congruence|auto].
Qed.

Lemma set_labelled (g : string -> nat) k0 v ks :
  NoDup ks ->
  set (map (fun k => (k, g k)) ks) k0 v
  = map (fun k => (k, if String.eqb k k0 then v else g k)) ks
    ++ (if existsb (String.eqb k0) ks then [] else [(k0, v)]).
Proof.
  induction ks as [|k ks IH]; intros Hnd; simpl; [reflexivity|].
  apply NoDup_cons in Hnd as [Hk Hks].
  rewrite (String.eqb_sym k0 k).
  destruct (String.eqb_spec k k0) as [->|Hne]; simpl.
  - f_equal. rewrite app_nil_r. apply map_ext_in. intros k Hin.
    destruct (String.eqb_spec k k0) as [->|]; [|reflexivity].
    exfalso. apply Hk. now apply list_elem_of_In.
  - f_equal. now apply IH.
Qed.

Lemma increment_labelled (g : string -> nat) k0 :
  In k0 labels ->
  increment (map (fun k => (k, g k)) labels) k0
  = map (fun k => (k, (g k + if String.eqb k k0 then 1 else 0)%nat)) labels.
Proof.
  intros Hin. unfold increment.
  rewrite (get_labelled g k0 labels Hin), set_labelled by assumption.
  assert (He : existsb (String.eqb k0) labels = true).
  { apply existsb_exists. exists k0. split; [assumption|].
    apply String.eqb_refl. }
  rewrite He, app_nil_r. apply map_ext. intros k.
  destruct (String.eqb_spec k k0) as [->|]; f_equal; lia.
Qed.

Lemma tally_fold (data : list A) (g : string -> nat) :
  fold_left (fun b d => increment b (key d)) data
    (map (fun k => (k, g k)) labels)
  = map (fun k =>
           (k, (g k + countIf (fun d => String.eqb k (key d)) data)%nat))
      labels.
Proof.
  revert g. induction data as [|d data IH]; intros g.
  - simpl. apply map_ext. intros k. unfold countIf. simpl. f_equal. lia.
  - change (fold_left (fun b d => increment b (key d)) (d :: data)
              (map (fun k => (k, g k)) labels))
      with (fold_left (fun b d => increment b (key d)) data
              (increment (map (fun k => (k, g k)) labels) (key d))).
    rewrite increment_labelled by apply key_in.
    rewrite IH. apply map_ext. intros k. f_equal.
    unfold countIf. simpl. destruct (String.eqb k (key d)); simpl; lia.
Qed.

Lemma no_label (d : A) ks :
  ~ In (key d) ks ->
  list_sum (map (fun k => if String.eqb k (key d) then 1 else 0)%nat ks)
  = 0%nat.
Proof.
  induction ks as [|k ks IH]; intros Hnin; [reflexivity|]. simpl.
  destruct (String.eqb_spec k (key d)) as [Heq|Hne].
  - exfalso. apply Hnin. now left.
  - apply IH. intros Hin. apply Hnin. now right.
Qed.

Lemma one_label (d : A) ks :
  NoDup ks -> In (key d) ks ->
  list_sum (map (fun k => if String.eqb k (key d) then 1 else 0)%nat ks)
  = 1%nat.
Proof.
  induction ks as [|k ks IH]; intros Hnd Hin; [destruct Hin|].
  apply NoDup_cons in Hnd as [Hk Hks]. simpl.
  destruct (String.eqb_spec k (key d)) as [Heq|Hne].
  - rewrite no_label; [reflexivity|].
    intros Hin'. apply Hk. rewrite Heq. now apply list_elem_of_In.
  - destruct Hin as [?|Hin]; [congruence|]. now apply IH.
Qed.

Lemma countIf_cons {B} (p : B -> bool) (b : B) (l : list B) :
  countIf p (b :: l) = ((if p b then 1 else 0) + countIf p l)%nat.
Proof. unfold countIf. simpl. now destruct (p b). Qed.

Lemma list_sum_map_add {B} (f g : B -> nat) (l : list B) :
  list_sum (map (fun b => f b + g b)%nat l)
  = (list_sum (map f l) + list_sum (map g l))%nat.
Proof. induction l as [|b l IH]; simpl; lia. Qed.

Lemma tally_total (data : list A) :
  list_sum (map (fun k => countIf (fun d => String.eqb k (key d)) data) labels)
  = length data.
Proof.
  induction data as [|d data IH].
  - clear. induction labels as [|k ks IHk]; simpl; auto.
  - rewrite (map_ext _
               (fun k => (if String.eqb k (key d) then 1 else 0)
                         + countIf (fun d => String.eqb k (key d)) data)%nat)
      by (intros k;
          apply (countIf_cons (fun d0 => String.eqb k (key d0)) d data)).
    rewrite list_sum_map_add, IH, one_label by auto. reflexivity.
Qed.
End TallyFacts.

Section HistogramFacts.
Import JsObject Rfm ChartReading.

Lemma countIf_ext {A} (p q : A -> bool) (l : list A) :
  (forall a, p a = q a) -> countIf p l = countIf q l.
Proof.
  intros H. unfold countIf. f_equal. now apply filter_ext.
Qed.

Lemma clv_shape (h : string -> nat) :
  keys (map (fun k => (k, h k)) clvLabels) = clvLabels
  /\ values (map (fun k => (k, h k)) clvLabels) = map h clvLabels.
Proof. split; reflexivity. Qed.

Lemma freq_shape (h : string -> nat) :
  keys (map (fun k => (k, h k)) freqLabels) = freqLabels
  /\ values (map (fun k => (k, h k)) freqLabels) = map h freqLabels.
Proof. split; reflexivity. Qed.

Lemma clvLabels_NoDup : NoDup clvLabels.
Proof.
  apply NoDup_ListNoDup. repeat constructor; simpl; intuition discriminate.
Qed.

Lemma clvKey_in d : In (clvKey d) clvLabels.
Proof.
  unfold clvKey.
  repeat match goal with
         | |- context [if ?b then _ else _] => destruct b
         end; simpl; tauto.
Qed.
Lemma freqLabels_NoDup : NoDup freqLabels.
Proof.
  apply NoDup_ListNoDup. repeat constructor; simpl; intuition discriminate.
Qed.

Lemma freqKey_in d : In (freqKey d) freqLabels.
Proof.
  unfold freqKey.
  repeat match goal with
         | |- context [if ?b then _ else _] => destruct b
         end; simpl; tauto.
Qed.

Lemma Qeq_bool_false (a b : Q) : Qeq_bool a b = false -> ~ (a == b)%Q.
Proof. intros E H. apply Qeq_bool_iff in H. congruence. Qed.
End HistogramFacts.

Ltac split_equalities :=
  repeat match goal with
         | |- context [Qeq_bool ?a ?b] =>
             let E := fresh "E" in
             destruct (Qeq_bool a b) eqn:E;
             [apply Qeq_bool_iff in E|apply Qeq_bool_false in E]
         end.

(** X10. The lifetime-value histogram has the five bars 0-100, 100-500,
    500-1000, 1000-5000 and 5000+, in this order; each bar counts the
    customers whose monetary value lies in its half-open range, a
    customer without a monetary value is counted in 5000+, and the bars
    add up to the number of customers. *)
Theorem clv_histogram (data : list Rfm.customer) :
  let count p := ChartReading.countIf p data in
  Rfm.renderCLVChart data
  = ( ChartReading.clvLabels,
      [ count (fun d => Rfm.below (Rfm.Monetary d) 100);
        count (fun d => Rfm.atLeast (Rfm.Monetary d) 100
                        && Rfm.below (Rfm.Monetary d) 500);
        count (fun d => Rfm.atLeast (Rfm.Monetary d) 500
                        && Rfm.below (Rfm.Monetary d) 1000);
        count (fun d => Rfm.atLeast (Rfm.Monetary d) 1000
                        && Rfm.below (Rfm.Monetary d) 5000);
        count (fun d => ChartReading.absent (Rfm.Monetary d)
                        || Rfm.atLeast (Rfm.Monetary d) 5000) ] )
  /\ list_sum (Rfm.renderCLVChart data).2 = length data.
Proof.
  intros count. unfold Rfm.renderCLVChart.
  change Rfm.clvBuckets
    with (map (fun k => (k, 0%nat)) ChartReading.clvLabels).
  rewrite (tally_fold Rfm.clvKey ChartReading.clvLabels
             clvLabels_NoDup clvKey_in).
  destruct (clv_shape
              (fun k => (0 + ChartReading.countIf
                             (fun d => String.eqb k (Rfm.clvKey d)) data)%nat))
    as [-> ->].
  split.
  - f_equal. cbn [map ChartReading.clvLabels Nat.add]. subst count.
    repeat (apply (f_equal2 cons); [apply countIf_ext; intros d; unfold Rfm.clvKey,
                        Rfm.below, Rfm.atLeast, ChartReading.absent;
                      destruct (Rfm.Monetary d) as [m|]; [|reflexivity];
                      split_tests; cbn; try reflexivity; exfalso; lra|]).
    reflexivity.
  - cbn [snd].
    rewrite (map_ext _
               (fun k => ChartReading.countIf
                           (fun d => String.eqb k (Rfm.clvKey d)) data))
      by reflexivity.
    apply tally_total; [apply clvLabels_NoDup|apply clvKey_in].
Qed.

(** X11. The frequency histogram has the five slices 1, 2-3, 4-5, 6-10
    and 10+, in this order. Slice 1 counts the frequencies equal to 1;
    slice 2-3 counts every other frequency up to 3, so also 0 and
    fractions; 4-5 and 6-10 count the frequencies above 3 up to 5 and
    above 5 up to 10; 10+ counts those above 10 and the customers
    without a frequency. The slices add up to the number of customers. *)
Theorem frequency_histogram (data : list Rfm.customer) :
  let count p := ChartReading.countIf p data in
  Rfm.renderFrequencyChart data
  = ( ChartReading.freqLabels,
      [ count (fun d => Rfm.equals (Rfm.Frequency d) 1);
        count (fun d => negb (Rfm.equals (Rfm.Frequency d) 1)
                        && Rfm.atMost (Rfm.Frequency d) 3);
        count (fun d => Rfm.above (Rfm.Frequency d) 3
                        && Rfm.atMost (Rfm.Frequency d) 5);
        count (fun d => Rfm.above (Rfm.Frequency d) 5
                        && Rfm.atMost (Rfm.Frequency d) 10);
        count (fun d => ChartReading.absent (Rfm.Frequency d)
                        || Rfm.above (Rfm.Frequency d) 10) ] )
  /\ list_sum (Rfm.renderFrequencyChart data).2 = length data.
Proof.
  intros count. unfold Rfm.renderFrequencyChart.
  change Rfm.freqBuckets
    with (map (fun k => (k, 0%nat)) ChartReading.freqLabels).
  rewrite (tally_fold Rfm.freqKey ChartReading.freqLabels
             freqLabels_NoDup freqKey_in).
  destruct (freq_shape
              (fun k => (0 + ChartReading.countIf
                             (fun d => String.eqb k (Rfm.freqKey d)) data)%nat))
    as [-> ->].
  split.
  - f_equal. cbn [map ChartReading.freqLabels Nat.add]. subst count.
    repeat (apply (f_equal2 cons); [apply countIf_ext; intros d; unfold Rfm.freqKey,
                        Rfm.equals, Rfm.atMost, Rfm.above, ChartReading.absent;
                      destruct (Rfm.Frequency d) as [f|]; [|reflexivity];
                      split_equalities; split_tests; cbn; try reflexivity;
                      exfalso; lra|]).
    reflexivity.
  - cbn [snd].
    rewrite (map_ext _
               (fun k => ChartReading.countIf
                           (fun d => String.eqb k (Rfm.freqKey d)) data))
      by reflexivity.
    apply tally_total; [apply freqLabels_NoDup|apply freqKey_in].
Qed.

(** ** Clusters of the scatter plot *)

Section ClusterFacts.
Import JsObject Backend Rfm ChartReading.

Lemma to_uint_not_nil (n : N) : N.to_uint n <> Decimal.Nil.
Proof.
  destruct n as [|p]; [discriminate|].
  apply DecimalPos.Unsigned.to_uint_nonnil.
Qed.

Lemma clusterKey_inj (n n' : N) : clusterKey n = clusterKey n' -> n = n'.
Proof.
  unfold clusterKey. intros H.
  apply DecimalN.Unsigned.to_uint_inj.
  assert (H' : Some (N.to_uint n) = Some (N.to_uint n')).
  { rewrite <- (NilZero.usu _ (to_uint_not_nil n)),
            <- (NilZero.usu _ (to_uint_not_nil n')).
    now rewrite H. }
  now injection H'.
Qed.

Lemma membersOf_snoc n data d :
  membersOf n (data ++ [d])
  = membersOf n data ++ (if N.eqb (cluster d) n then [d] else []).
Proof.
  unfold membersOf. rewrite List.filter_app. reflexivity.
Qed.

Lemma set_append_perm (o : object (list customer)) k d :
  Permutation (flat_map snd (set o k (default [] (get o k) ++ [d])))
    (flat_map snd o ++ [d]).
Proof.
  induction o as [|[k0 l0] r IH]; simpl; [reflexivity|].
  destruct (String.eqb_spec k0 k) as [->|Hne]; simpl.
  - rewrite <- !app_assoc. apply Permutation_app_head.
    apply Permutation_app_comm.
  - rewrite <- app_assoc. apply Permutation_app_head. exact IH.
Qed.

Lemma groupStep_grouped o seen d :
  grouped o seen -> grouped (groupStep o d) (seen ++ [d]).
Proof.
  intros (Hnd & Hget & Hall & Hperm). unfold groupStep.
  split; [now apply set_NoDup|]. split; [|split].
  - intros n. rewrite membersOf_snoc.
    destruct (N.eqb_spec (cluster d) n) as [->|Hne].
    + now rewrite get_set_same, Hget.
    + rewrite get_set_other, Hget, app_nil_r; [reflexivity|].
      intros Heq. apply Hne. now apply clusterKey_inj.
  - apply set_Forall; [|exact Hall].
    split; [exists (cluster d); reflexivity|].
    simpl. now destruct (default [] _).
  - rewrite set_append_perm. now apply Permutation_app_tail.
Qed.

Lemma clusters_grouped ds o seen :
  grouped o seen -> grouped (fold_left groupStep ds o) (seen ++ ds).
Proof.
  revert o seen. induction ds as [|d ds IH]; intros o seen H.
  - now rewrite app_nil_r.
  - replace (seen ++ d :: ds) with ((seen ++ [d]) ++ ds)
      by now rewrite <- app_assoc.
    apply IH. now apply groupStep_grouped.
Qed.

Lemma clustersOf_grouped data : grouped (clustersOf data) data.
Proof.
  apply (clusters_grouped data empty []).
  split; [constructor|]. split; [intros n; reflexivity|].
  split; [constructor|reflexivity].
Qed.

Lemma groups_spec data :
  let groups := entries (clustersOf data) in
  NoDup (map fst groups)
  /\ Forall (fun g => exists n,
               g.1 = clusterKey n /\ g.2 = membersOf n data /\ g.2 <> [])
       groups
  /\ Permutation (flat_map snd groups) data.
Proof.
  intros groups.
  destruct (clustersOf_grouped data) as (Hnd & Hget & Hall & Hperm).
  assert (Hp : Permutation groups (clustersOf data)) by apply entries_perm.
  split; [|split].
  - rewrite (Permutation_map fst Hp). exact Hnd.
  - apply Forall_forall. intros [k l] Hin. apply list_elem_of_In in Hin.
    apply (Permutation_in _ Hp) in Hin.
    rewrite Forall_forall in Hall.
    destruct (Hall (k, l)) as [[n Hn] Hne]; [now apply list_elem_of_In|].
    simpl in Hn, Hne. subst k. exists n. simpl.
    split; [reflexivity|]. split; [|exact Hne].
    rewrite <- Hget, (get_In _ _ _ Hnd Hin). reflexivity.
  - rewrite (Permutation_flat_map snd Hp). exact Hperm.
Qed.
End ClusterFacts.

Section ScatterFacts.
Import JsObject Backend Rfm ChartReading.
Variable numberText : Q -> string.
Variable toFixed2 : Q -> string.

Lemma hoverText_None d :
  hoverText numberText toFixed2 d = None <-> Monetary d = None.
Proof.
  unfold hoverText. destruct (Monetary d); split; congruence.
Qed.

Lemma traceOf_Some g t :
  traceOf numberText toFixed2 g = Some t ->
  Forall (fun d => Monetary d <> None) g.2
  /\ name t = String.append "Cluster " g.1
  /\ x t = map Frequency g.2
  /\ y t = map Monetary g.2
  /\ markerSize t = map sizeOf g.2.
Proof.
  unfold traceOf.
  destruct (mapM (hoverText numberText toFixed2) g.2) as [texts|] eqn:E;
    [|discriminate].
  intros [= <-]. split; [|repeat split].
  assert (Hs : is_Some (mapM (hoverText numberText toFixed2) g.2))
    by (rewrite E; eauto).
  apply mapM_is_Some in Hs.
  eapply Forall_impl; [exact Hs|].
  intros d [s Hd] Hm. apply hoverText_None in Hm. simpl in Hd. congruence.
Qed.

Lemma traceOf_None g :
  traceOf numberText toFixed2 g = None ->
  Exists (fun d => Monetary d = None) g.2.
Proof.
  unfold traceOf.
  destruct (mapM (hoverText numberText toFixed2) g.2) as [texts|] eqn:E;
    [discriminate|].
  intros _. apply mapM_None in E.
  eapply Exists_impl; [exact E|].
  intros d Hd. now apply hoverText_None.
Qed.

Lemma traces_follow_groups groups traces :
  Forall2 (fun g t => traceOf numberText toFixed2 g = Some t) groups traces ->
  map name traces = map (fun g => String.append "Cluster " g.1) groups
  /\ concat (map y traces) = map Monetary (flat_map snd groups)
  /\ Forall (fun d => Monetary d <> None) (flat_map snd groups).
Proof.
  induction 1 as [|g t groups traces Hgt _ (IHn & IHy & IHm)]; simpl.
  - repeat split. constructor.
  - destruct (traceOf_Some g t Hgt) as (Hm & Hn & _ & Hy & _).
    rewrite Hn, Hy, IHn, IHy, map_app.
    repeat split. apply Forall_app. split; assumption.
Qed.
End ScatterFacts.

(** X12. The scatter plot draws one trace per cluster present in the
    data, named after the cluster, holding exactly the customers of that
    cluster in the order received; every customer is plotted once. One
    customer without a monetary value makes the whole rendering throw. *)
Theorem rfm_scatter_groups (numberText toFixed2 : Q -> string)
    (data : list Rfm.customer) :
  match Rfm.renderRFMCharts numberText toFixed2 data with
  | None => Exists (fun d => Rfm.Monetary d = None) data
  | Some traces =>
      Forall (fun d => Rfm.Monetary d <> None) data
      /\ Forall (fun t => exists n,
                   Rfm.membersOf n data <> []
                   /\ Rfm.name t = String.append "Cluster " (Rfm.clusterKey n)
                   /\ Rfm.x t = map Rfm.Frequency (Rfm.membersOf n data)
                   /\ Rfm.y t = map Rfm.Monetary (Rfm.membersOf n data)
                   /\ Rfm.markerSize t
                      = map Rfm.sizeOf (Rfm.membersOf n data))
           traces
      /\ NoDup (map Rfm.name traces)
      /\ Permutation (concat (map Rfm.y traces)) (map Rfm.Monetary data)
  end.
Proof.
  destruct (groups_spec data) as (Hnd & Hall & Hperm).
  unfold Rfm.renderRFMCharts.
  set (groups := JsObject.entries (Rfm.clustersOf data)) in *.
  destruct (mapM (Rfm.traceOf numberText toFixed2) groups) as [traces|] eqn:E.
  - apply mapM_Some in E.
    destruct (traces_follow_groups numberText toFixed2 groups traces E)
      as (Hn & Hy & Hm).
    split; [|split; [|split]].
    + rewrite <- Hperm. exact Hm.
    + clear Hn Hy Hm Hnd Hperm.
      induction E as [|g t gs ts Hgt _ IH]; [constructor|].
      apply Forall_cons in Hall as [(n & Hk & Hl & Hne) Hall].
      constructor; [|now apply IH].
      destruct (traceOf_Some numberText toFixed2 g t Hgt)
        as (_ & Hname & Hx & Hy & Hs).
      exists n. rewrite <- Hl, <- Hk. repeat split; assumption.
    + rewrite Hn.
      assert (Hinj : Inj (=) (=) (String.append "Cluster ")) by apply _.
      clear -Hnd Hinj. induction groups as [|g gs IH]; [constructor|].
      simpl in *. apply NoDup_cons in Hnd as [Hg Hgs].
      apply NoDup_cons. split; [|now apply IH].
      intros Hin. apply Hg. apply list_elem_of_In in Hin.
      apply in_map_iff in Hin as (g' & Heq & Hin').
      apply Hinj in Heq. rewrite <- Heq.
      apply list_elem_of_In. now apply in_map.
    + rewrite Hy. now apply Permutation_map.
  - apply mapM_None in E. apply Exists_exists in E as (g & Hg & Hnone).
    apply traceOf_None in Hnone. apply Exists_exists in Hnone as (d & Hd & Hm).
    apply Exists_exists. exists d. split; [|exact Hm].
    rewrite <- Hperm. apply list_elem_of_In, in_flat_map.
    exists g. split; now apply list_elem_of_In.
Qed.

(** ** Top products and the limit parameter *)

Section TopProductFacts.
Import JsString Backend TopProducts.

Lemma length_take n s : (String.length (take n s) <= n)%nat.
Proof.
  revert s. induction n as [|n IH]; intros s; simpl; [lia|].
  destruct s as [|c r]; simpl; [lia|]. specialize (IH r). lia.
Qed.

Lemma label_None p :
  label p = None
  <-> truthy (ProductTable.Description p) = false
      /\ ProductTable.StockCode p = None.
Proof.
  unfold label. destruct (truthy (ProductTable.Description p)).
  - split; [discriminate|intros [? _]; discriminate].
  - destruct (ProductTable.StockCode p); split; try discriminate; auto.
    intros [_ ?]. discriminate.
Qed.

Lemma label_Some p l : label p = Some l -> (String.length l <= 30)%nat.
Proof.
  unfold label. destruct (truthy (ProductTable.Description p)).
  - intros H.
    assert (Hl : take 30 (text (ProductTable.Description p)) = l)
      by congruence.
    rewrite <- Hl. apply length_take.
  - destruct (ProductTable.StockCode p) as [s|]; [|discriminate].
    intros H. assert (Hl : take 30 s = l) by congruence.
    rewrite <- Hl. apply length_take.
Qed.
End TopProductFacts.

(** X13. The top-products chart has one label per product, cut to at
    most 30 characters, and the revenues in the same order. A single
    product with neither a description nor a stock code makes the
    rendering throw, and no chart is drawn. *)
Theorem top_products_labels (data : list ProductTable.product) :
  match TopProducts.fetchTopProducts data with
  | None =>
      Exists (fun p => Backend.truthy (ProductTable.Description p) = false
                       /\ ProductTable.StockCode p = None) data
  | Some (labels, revenues) =>
      length labels = length data
      /\ Forall (fun l => (String.length l <= 30)%nat) labels
      /\ revenues = map ProductTable.Revenue data
      /\ Forall (fun p => Backend.truthy (ProductTable.Description p) = true
                          \/ ProductTable.StockCode p <> None) data
  end.
Proof.
  unfold TopProducts.fetchTopProducts.
  destruct (mapM TopProducts.label data) as [labels|] eqn:E.
  - apply mapM_Some in E.
    split; [symmetry; eapply Forall2_length; exact E|].
    split; [|split; [reflexivity|]].
    + induction E as [|p l ps ls Hpl _ IH]; constructor; auto.
      now apply label_Some in Hpl.
    + induction E as [|p l ps ls Hpl _ IH]; constructor; auto.
      destruct (Backend.truthy (ProductTable.Description p)) eqn:Ht;
        [now left|right].
      intros Hn. assert (Hnone : TopProducts.label p = None)
        by (apply label_None; auto).
      congruence.
  - apply mapM_None in E.
    eapply Exists_impl; [exact E|]. intros p. apply label_None.
Qed.

(** X14. The two requests for products always carry a limit: with the
    filters read from the panel the parameters are those of the plain
    query followed by [limit], and with no filter at all the query
    strings are [?limit=10] and [?limit=200]. *)
Theorem limit_is_always_sent (d : FilterState.filterPanel) :
  FilterState.queryNames
    (TopProducts.topProductsQuery (FilterState.getFilters d))
  = FilterState.queryNames (FilterState.buildQuery (FilterState.getFilters d))
    ++ ["limit"]
  /\ FilterState.queryNames
       (TopProducts.productsTableQuery (FilterState.getFilters d))
     = FilterState.queryNames
         (FilterState.buildQuery (FilterState.getFilters d))
       ++ ["limit"]
  /\ TopProducts.topProductsQuery JsObject.empty = "?limit=10"
  /\ TopProducts.productsTableQuery JsObject.empty = "?limit=200".
Proof.
  assert (H : forall n,
    FilterState.queryNames
      (FilterState.buildQuery
         (TopProducts.withLimit (FilterState.getFilters d) n))
    = FilterState.queryNames
        (FilterState.buildQuery (FilterState.getFilters d)) ++ ["limit"]).
  { intros n. rewrite !queryNames_buildQuery.
    unfold FilterState.getFilters.
    match goal with
    | |- context [[("start_date", ?a); ("end_date", ?b); ("countries", ?c)]] =>
        generalize c; generalize b; generalize a
    end.
    intros v1 v2 v3.
    change (TopProducts.withLimit
              [("start_date", v1); ("end_date", v2); ("countries", v3)] n)
      with [("start_date", v1); ("end_date", v2); ("countries", v3);
            ("limit", FilterState.VInt n)].
    unfold FilterState.kept.
    change (JsObject.keys
              [("start_date", v1); ("end_date", v2); ("countries", v3);
               ("limit", FilterState.VInt n)])
      with ["start_date"; "end_date"; "countries"; "limit"].
    change (JsObject.keys
              [("start_date", v1); ("end_date", v2); ("countries", v3)])
      with ["start_date"; "end_date"; "countries"].
    cbn [List.filter].
    repeat match goal with
           | |- context [FilterState.valueOf ?o ?k] =>
               let v := eval cbv in (FilterState.valueOf o k) in
               change (FilterState.valueOf o k) with v
           end.
    destruct (FilterState.present v1), (FilterState.present v2),
      (FilterState.present v3); reflexivity. }
  split; [apply H|]. split; [apply H|]. split; reflexivity.
Qed.

(** ** The form, once more *)

(** X16. [openTransactionModal] is itself the click listener of the
    "add" button, so it receives the click event as its id: the modal
    then opens under the title "Edit Transaction", the form keeps what
    it held, and submitting sends a PUT to [/transactions/] followed by
    the text of the event. Called without an argument it resets the
    form and a submit sends a POST. *)
Theorem add_button_opens_edit_mode
    (API_BASE : string) (numberText : Q -> string) (eventText : string)
    (isoMinutes : string -> option string)
    (parseInt parseFloat : string -> option Q) (nowIso : string)
    (formDefaults : TransactionForm.fields) (st : TransactionForm.state) :
  let open id :=
    TransactionForm.openTransactionModal numberText isoMinutes formDefaults
      id st in
  let submit :=
    TransactionForm.handleTransactionSubmit API_BASE eventText
      parseInt parseFloat nowIso in
  (TransactionForm.modalTitle (open TransactionForm.ClickEvent)
   = "Edit Transaction"
   /\ TransactionForm.form (open TransactionForm.ClickEvent)
      = TransactionForm.form st
   /\ TransactionForm.modalActive (open TransactionForm.ClickEvent) = true
   /\ TransactionForm.method (submit (open TransactionForm.ClickEvent))
      = "PUT"
   /\ TransactionForm.url (submit (open TransactionForm.ClickEvent))
      = String.append API_BASE (String.append "/transactions/" eventText))
  /\ (TransactionForm.modalTitle (open TransactionForm.NoId)
      = "Add New Transaction"
      /\ TransactionForm.form (open TransactionForm.NoId) = formDefaults
      /\ TransactionForm.method (submit (open TransactionForm.NoId)) = "POST"
      /\ TransactionForm.url (submit (open TransactionForm.NoId))
         = String.append API_BASE "/transactions").
Proof.
  intros open submit.
  assert (Hfind : List.find (TransactionForm.hasId TransactionForm.ClickEvent)
                    (TransactionForm.currentTransactions st) = None).
  { induction (TransactionForm.currentTransactions st) as [|t ts IH];
      [reflexivity|exact IH]. }
  assert (Hopen : open TransactionForm.ClickEvent
    = {| TransactionForm.editingTransactionId := TransactionForm.ClickEvent;
         TransactionForm.currentTransactions :=
           TransactionForm.currentTransactions st;
         TransactionForm.modalTitle := "Edit Transaction";
         TransactionForm.form := TransactionForm.form st;
         TransactionForm.modalActive := true |}).
  { unfold open, TransactionForm.openTransactionModal.
    cbn [TransactionForm.truthyId]. now rewrite Hfind. }
  split.
  - rewrite Hopen. repeat split.
  - repeat split.
Qed.

(** X17. Editing a record and submitting at once sends its text fields
    back as they are in memory (an absent field as the empty string):
    Invoice, StockCode, Description, CustomerID and Country; Quantity
    and Price are the parsed texts of the stored numbers, with 1 and 0
    for absent ones. *)
Theorem edit_then_submit_returns_the_record
    (API_BASE : string) (numberText : Q -> string) (eventText : string)
    (isoMinutes : string -> option string)
    (parseInt parseFloat : string -> option Q) (nowIso : string)
    (formDefaults : TransactionForm.fields)
    (st : TransactionForm.state) (id : string) (t : Backend.transaction)
    (Hid : id <> "")
    (Hfind : List.find (TransactionForm.hasId (TransactionForm.Id id))
               (TransactionForm.currentTransactions st) = Some t) :
  let sent :=
    TransactionForm.body
      (TransactionForm.handleTransactionSubmit API_BASE eventText
         parseInt parseFloat nowIso
         (TransactionForm.openTransactionModal numberText isoMinutes
            formDefaults (TransactionForm.Id id) st)) in
  TransactionForm.pInvoice sent = Backend.strOr (Backend.Invoice t) ""
  /\ TransactionForm.pStockCode sent = Backend.strOr (Backend.StockCode t) ""
  /\ TransactionForm.pDescription sent
     = Backend.strOr (Backend.Description t) ""
  /\ TransactionForm.pCustomerID sent
     = Backend.strOr (Backend.CustomerID t) ""
  /\ TransactionForm.pCountry sent = Backend.strOr (Backend.Country t) ""
  /\ TransactionForm.pQuantity sent
     = parseInt (numberText (Backend.numOr (Backend.Quantity t) 1))
  /\ TransactionForm.pPrice sent
     = parseFloat (numberText (Backend.numOr (Backend.Price t) 0)).
Proof.
  intros sent.
  assert (Htruthy : TransactionForm.truthyId (TransactionForm.Id id) = true).
  { simpl. now destruct (String.eqb_spec id ""). }
  assert (Hp : forall s, TransactionForm.body
             (TransactionForm.handleTransactionSubmit API_BASE eventText
                parseInt parseFloat nowIso s)
           = TransactionForm.payloadOf parseInt parseFloat nowIso
               (TransactionForm.form s)).
  { intros s. unfold TransactionForm.handleTransactionSubmit. cbv zeta.
    destruct (TransactionForm.truthyId (TransactionForm.editingTransactionId s));
      reflexivity. }
  unfold sent. rewrite Hp.
  unfold TransactionForm.openTransactionModal. rewrite Htruthy, Hfind.
  destruct (Backend.truthy (Backend.InvoiceDate t));
    [destruct (isoMinutes _)|]; repeat split.
Qed.

(** Editing the dated sample record. *)
Lemma edit_then_submit_returns_the_record_witness :
  "t2" <> ""
  /\ List.find (TransactionForm.hasId (TransactionForm.Id "t2"))
       (TransactionForm.currentTransactions (Examples.desk Examples.blankForm))
     = Some Examples.datedRecord
  /\ TransactionForm.pInvoice
       (TransactionForm.body
          (TransactionForm.handleTransactionSubmit "/api"
             "[object PointerEvent]" Examples.parseNumber Examples.parseNumber
             "2011-12-09T12:50:00.000Z"
             (TransactionForm.openTransactionModal Examples.numberText
                Examples.isoMinutes Examples.blankForm (TransactionForm.Id "t2")
                (Examples.desk Examples.blankForm))))
     = "536368".
Proof.
  assert (Hid : "t2" <> "") by discriminate.
  assert (Hfind :
    List.find (TransactionForm.hasId (TransactionForm.Id "t2"))
      (TransactionForm.currentTransactions (Examples.desk Examples.blankForm))
    = Some Examples.datedRecord) by reflexivity.
  split; [exact Hid|]. split; [exact Hfind|].
  exact (proj1
           (edit_then_submit_returns_the_record "/api" Examples.numberText
              "[object PointerEvent]" Examples.isoMinutes
              Examples.parseNumber Examples.parseNumber
              "2011-12-09T12:50:00.000Z" Examples.blankForm
              (Examples.desk Examples.blankForm) "t2" Examples.datedRecord
              Hid Hfind)).
Defined.

(** ** The filter controls *)

Section ControlFacts.
Import FilterState FilterControls.

Lemma deselected_none (options : list selectOption) :
  List.filter optSelected (map deselect options) = [].
Proof. induction options as [|o os IH]; simpl; auto. Qed.

Lemma fresh_options_none (countries : list string) :
  List.filter optSelected (map countryOption countries) = [].
Proof. induction countries as [|c cs IH]; simpl; auto. Qed.
End ControlFacts.

(** X18. Clearing the filters empties the query string, and applying
    the filters right after a clear still sends none: every input that
    [getFilters] reads has been emptied. *)
Theorem clear_then_apply_sends_no_filter (st : FilterControls.state) :
  FilterState.buildQuery
    (FilterControls.currentFilters (FilterControls.clearFilters st)) = ""
  /\ FilterState.buildQuery
       (FilterControls.currentFilters
          (FilterControls.applyFilters (FilterControls.clearFilters st))) = "".
Proof.
  split; [reflexivity|].
  unfold FilterControls.applyFilters, FilterControls.clearFilters.
  cbn [FilterControls.panel FilterControls.currentFilters].
  unfold FilterState.getFilters, FilterState.selectedCountries.
  cbn [FilterState.countrySelect FilterState.startDate FilterState.endDate].
  now rewrite deselected_none.
Qed.

(** X19. Reloading the country list rebuilds the options, so the
    selection is lost: whatever was selected before, and whether the
    list is a multiple select or not, the filters applied next carry no
    [countries] parameter, while the two dates are kept. *)
Theorem reloading_countries_drops_the_selection
    (multiple : bool) (countries : list string) (st : FilterControls.state) :
  let applied :=
    FilterControls.currentFilters
      (FilterControls.applyFilters
         (FilterControls.populateCountries multiple countries st)) in
  FilterState.valueOf applied "countries" = FilterState.VNull
  /\ existsb (String.eqb "countries")
       (FilterState.queryNames (FilterState.buildQuery applied)) = false
  /\ FilterState.valueOf applied "start_date"
     = FilterState.orNull
         (FilterState.startDate (FilterControls.panel st))
  /\ FilterState.valueOf applied "end_date"
     = FilterState.orNull (FilterState.endDate (FilterControls.panel st)).
Proof.
  intros applied.
  assert (Happlied : applied
    = [ ("start_date",
          FilterState.orNull (FilterState.startDate (FilterControls.panel st)));
        ("end_date",
          FilterState.orNull (FilterState.endDate (FilterControls.panel st)));
        ("countries", FilterState.VNull) ]).
  { unfold applied, FilterControls.applyFilters,
      FilterControls.populateCountries.
    cbn [FilterControls.panel FilterControls.currentFilters].
    unfold FilterState.getFilters, FilterState.selectedCountries.
    cbn [FilterState.countrySelect FilterState.startDate FilterState.endDate
         List.filter FilterState.optSelected map FilterState.optValue].
    destruct (negb multiple); cbn [List.filter map FilterState.optValue];
      rewrite fresh_options_none; reflexivity. }
  rewrite Happlied. split; [reflexivity|]. split; [|split; reflexivity].
  rewrite queryNames_buildQuery. unfold FilterState.kept.
  match goal with
  | |- context [JsObject.keys ?o] =>
      change (JsObject.keys o) with ["start_date"; "end_date"; "countries"]
  end.
  cbn [List.filter].
  repeat match goal with
         | |- context [FilterState.valueOf ?o ?k] =>
             let v := eval cbv in (FilterState.valueOf o k) in
             change (FilterState.valueOf o k) with v
         end.
  cbn [FilterState.present].
  repeat match goal with
         | |- context [if ?b then _ else _] => destruct b
         end; reflexivity.
Qed.

(** ** The CSV export *)

Section CsvFacts.
Import JsString Backend CsvExport.
Variable numberText : Q -> string.

Lemma append_assoc_s (a b c : string) :
  String.append (String.append a b) c = String.append a (String.append b c).
Proof.
  induction a as [|x a IH]; [reflexivity|].
  rewrite !append_cons. now rewrite IH.
Qed.

Lemma csv_unfolded (rows : list (list string)) (init : string) :
  fold_left (fun csv row => String.append csv (line row)) rows init
  = String.append init
      (fold_right (fun row rest => String.append (line row) rest) "" rows).
Proof.
  revert init. induction rows as [|r rows IH]; intros init; simpl.
  - induction init as [|x a IHa]; [reflexivity|].
    rewrite append_cons. now rewrite <- IHa.
  - rewrite IH. apply append_assoc_s.
Qed.

Lemma split_lines (bodies : list string) :
  Forall (fun b => contains "010" b = false) bodies ->
  split "010"
    (fold_right (fun b rest => String.append (String.append b newline) rest)
       "" bodies)
  = bodies ++ [""].
Proof.
  induction 1 as [|b bs Hb _ IH]; [reflexivity|]. simpl.
  rewrite append_assoc_s.
  change (String.append newline ?r) with (String "010" r).
  rewrite split_append by exact Hb. now rewrite IH.
Qed.

Lemma contains_join c sep (l : list string) :
  contains c sep = false ->
  Forall (fun s => contains c s = false) l ->
  contains c (join sep l) = false.
Proof.
  intros Hsep. induction 1 as [|s l Hs Hl IH]; [reflexivity|].
  destruct l as [|s' l']; [exact Hs|].
  change (join sep (s :: s' :: l'))
    with (String.append s (String.append sep (join sep (s' :: l')))).
  now rewrite !contains_append, Hs, Hsep, IH.
Qed.

Lemma contains_quoted c cell :
  Ascii.eqb "034" c = false ->
  contains c (quoted cell) = contains c cell.
Proof.
  intros Hq. unfold quoted, doubleQuote.
  rewrite !contains_append.
  change (contains c (String (ascii_of_nat 34) ""))
    with (Ascii.eqb "034" c || false).
  rewrite Hq. cbn [orb]. apply orb_false_r.
Qed.

Lemma dropLast_append (s : string) (c : ascii) :
  dropLast (String.append s (String c "")) = s.
Proof.
  induction s as [|x s IH]; [reflexivity|].
  rewrite append_cons. simpl. rewrite IH.
  destruct s; reflexivity.
Qed.

Lemma unquoted_quoted cell : unquoted (quoted cell) = cell.
Proof. unfold quoted, unquoted, doubleQuote. apply dropLast_append. Qed.
End CsvFacts.

Section CsvRoundTrip.
Import JsString Backend CsvExport.
Variable numberText : Q -> string.

Lemma body_reads_back (row : list string) :
  row <> [] -> Forall plain row ->
  contains "010" (join "," (map quoted row)) = false
  /\ map unquoted (split "," (join "," (map quoted row))) = row.
Proof.
  intros Hne Hrow. split.
  - apply contains_join; [reflexivity|].
    apply Forall_forall. intros q Hq. apply list_elem_of_In in Hq.
    apply in_map_iff in Hq as (cell & <- & Hin).
    rewrite contains_quoted by reflexivity.
    rewrite Forall_forall in Hrow.
    now apply (Hrow cell), list_elem_of_In.
  - rewrite split_join.
    + rewrite map_map. rewrite <- (List.map_id row) at 2.
      apply map_ext. apply unquoted_quoted.
    + destruct row; [congruence|discriminate].
    + apply Forall_forall. intros q Hq. apply list_elem_of_In in Hq.
      apply in_map_iff in Hq as (cell & <- & Hin).
      rewrite contains_quoted by reflexivity.
      rewrite Forall_forall in Hrow.
      now apply (Hrow cell), list_elem_of_In.
Qed.

Lemma csv_lines (rows : list (list string)) :
  Forall (fun row => row <> [] /\ Forall plain row) rows ->
  split "010"
    (fold_left (fun csv row => String.append csv (line row)) rows
       (String.append (join "," headers) newline))
  = join "," headers :: map (fun row => join "," (map quoted row)) rows ++ [""].
Proof.
  intros Hrows. rewrite csv_unfolded, append_assoc_s.
  change (String.append newline ?r) with (String "010" r).
  rewrite split_append by reflexivity. f_equal.
  rewrite <- split_lines.
  - f_equal. clear Hrows. induction rows as [|r rows IH]; [reflexivity|].
    simpl. now rewrite IH.
  - apply Forall_forall. intros b Hb. apply list_elem_of_In in Hb.
    apply in_map_iff in Hb as (row & <- & Hin).
    rewrite Forall_forall in Hrows.
    destruct (Hrows row) as [Hne Hp]; [now apply list_elem_of_In|].
    now apply body_reads_back.
Qed.
End CsvRoundTrip.

(** X20. With nothing to export no file is offered. Otherwise the file
    starts with the header line and, when no cell holds a comma or a
    line feed, reading it back line by line and cell by cell gives the
    nine cells of every transaction, in order; the cells are quoted but
    never escaped. *)
Theorem csv_export_reads_back (numberText : Q -> string) (nowIso : string)
    (data : list Backend.transaction)
    (Hne : data <> [])
    (Hplain : Forall (fun t => Forall CsvExport.plain
                                 (CsvExport.cells numberText t)) data) :
  CsvExport.exportToCSV numberText nowIso [] = None
  /\ exists file,
       CsvExport.exportToCSV numberText nowIso data = Some file
       /\ hd "" (JsString.split "010" (CsvExport.content file))
          = "Invoice,Date,StockCode,Description,Quantity,Price,CustomerID,Country,Revenue"
       /\ CsvExport.readCsv (CsvExport.content file)
          = map (CsvExport.cells numberText) data.
Proof.
  split; [reflexivity|].
  unfold CsvExport.exportToCSV.
  destruct data as [|t ts]; [congruence|].
  change (length (t :: ts) =? 0)%nat with false. cbv iota.
  eexists. split; [reflexivity|].
  cbn [CsvExport.content]. unfold CsvExport.csvOf, CsvExport.readCsv.
  change (ascii_of_nat 10) with "010"%char.
  rewrite csv_lines.
  - split; [reflexivity|].
    cbn [tl]. rewrite removelast_last, map_map.
    rewrite <- (List.map_id (map (CsvExport.cells numberText) (t :: ts))) at 2.
    apply map_ext_in. intros row Hin.
    apply in_map_iff in Hin as (t' & <- & Hin).
    apply body_reads_back; [discriminate|].
    rewrite Forall_forall in Hplain. now apply Hplain, list_elem_of_In.
  - apply Forall_forall. intros row Hin. apply list_elem_of_In in Hin.
    apply in_map_iff in Hin as (t' & <- & Hin).
    split; [discriminate|].
    rewrite Forall_forall in Hplain. now apply Hplain, list_elem_of_In.
Qed.

(** The dated sample record exports and reads back. *)
Lemma csv_export_reads_back_witness :
  [Examples.datedRecord] <> []
  /\ Forall (fun t => Forall CsvExport.plain
                        (CsvExport.cells Samples.plainNumber t))
       [Examples.datedRecord]
  /\ exists file,
       CsvExport.exportToCSV Samples.plainNumber "2011-12-09T12:50:00.000Z"
         [Examples.datedRecord] = Some file
       /\ CsvExport.readCsv (CsvExport.content file)
          = [CsvExport.cells Samples.plainNumber Examples.datedRecord].
Proof.
  assert (Hne : [Examples.datedRecord] <> []) by discriminate.
  assert (Hplain : Forall (fun t => Forall CsvExport.plain
                                      (CsvExport.cells Samples.plainNumber t))
                     [Examples.datedRecord]).
  { repeat constructor. }
  split; [exact Hne|]. split; [exact Hplain|].
  destruct (proj2 (csv_export_reads_back Samples.plainNumber
                     "2011-12-09T12:50:00.000Z" [Examples.datedRecord]
                     Hne Hplain)) as (file & Hfile & _ & Hread).
  exists file. split; [exact Hfile|exact Hread].
Defined.

(** ** Sorting and searching the product table *)

Section ProductViewFacts.
Import JsString JsArray Backend ProductTable.
Variable localeCompare : string -> string -> comparison.

Lemma sortProducts_rows l k st :
  caches l st ->
  tbody (sortProducts localeCompare k st)
  = rowsOf (if String.eqb k "revenue" then sort byRevenue l
            else if String.eqb k "quantity" then sort byQuantity l
            else if String.eqb k "code" then sort (byCode localeCompare) l
            else l).
Proof.
  intros Hc. unfold sortProducts, alloc.
  assert (Hread : read st (currentProducts st) = l)
    by (unfold read; now rewrite Hc).
  rewrite Hread.
  set (r := fresh (dom (arrays st))).
  assert (Hr : forall le,
    read (sortInPlace le r
            {| arrays := <[r:=l]> (arrays st);
               currentProducts := currentProducts st;
               tbody := tbody st |}) r = sort le l).
  { intros le. unfold sortInPlace. unfold read at 1. cbn [arrays].
    rewrite lookup_insert_eq. cbn [default]. unfold read. cbn [arrays].
    rewrite lookup_insert_eq. reflexivity. }
  destruct (String.eqb k "revenue");
    [|destruct (String.eqb k "quantity");
      [|destruct (String.eqb k "code")]];
    cbn [tbody renderProductsTable]; rewrite ?Hr; try reflexivity.
  unfold read. cbn [arrays]. now rewrite lookup_insert_eq.
Qed.

Lemma byRevenue_total a b : byRevenue a b = false -> byRevenue b a = true.
Proof.
  unfold byRevenue. intros H. apply Qle_bool_iff.
  apply Qle_bool_false in H. now apply Qlt_le_weak.
Qed.

Lemma byRevenue_trans a b c :
  byRevenue a b = true -> byRevenue b c = true -> byRevenue a c = true.
Proof.
  unfold byRevenue. rewrite !Qle_bool_iff. intros H1 H2.
  now apply Qle_trans with (numOr (Revenue b) 0).
Qed.

Lemma byQuantity_total a b : byQuantity a b = false -> byQuantity b a = true.
Proof.
  unfold byQuantity. intros H. apply Qle_bool_iff.
  apply Qle_bool_false in H. now apply Qlt_le_weak.
Qed.

Lemma byQuantity_trans a b c :
  byQuantity a b = true -> byQuantity b c = true -> byQuantity a c = true.
Proof.
  unfold byQuantity. rewrite !Qle_bool_iff. intros H1 H2.
  now apply Qle_trans with (numOr (Quantity b) 0).
Qed.

Lemma lowerChar_idem c : lowerChar (lowerChar c) = lowerChar c.
Proof. destruct c as [[] [] [] [] [] [] [] []]; reflexivity. Qed.

Lemma toLowerCase_idem s : toLowerCase (toLowerCase s) = toLowerCase s.
Proof.
  induction s as [|c r IH]; [reflexivity|].
  simpl. now rewrite lowerChar_idem, IH.
Qed.
End ProductViewFacts.

(** X21. Sorting the product table shows a rearrangement of the fetched
    products: by revenue or by quantity the rows go from the largest
    value down (an absent value counts as 0); by code they are some
    rearrangement; any other sort key shows the fetched order. *)
Theorem sorting_shows_a_sorted_copy
    (localeCompare : string -> string -> comparison)
    (response : list ProductTable.product) (st0 : ProductTable.state)
    (key : string) :
  let fetched := ProductTable.fetchProductsTable response st0 in
  exists shown,
    ProductTable.tbody (ProductTable.sortProducts localeCompare key fetched)
    = ProductTable.rowsOf shown
    /\ Permutation shown response
    /\ (key = "revenue" ->
        StronglySorted
          (fun a b => (Backend.numOr (ProductTable.Revenue b) 0
                       <= Backend.numOr (ProductTable.Revenue a) 0)%Q) shown)
    /\ (key = "quantity" ->
        StronglySorted
          (fun a b => (Backend.numOr (ProductTable.Quantity b) 0
                       <= Backend.numOr (ProductTable.Quantity a) 0)%Q) shown)
    /\ (key <> "revenue" -> key <> "quantity" -> key <> "code" ->
        shown = response).
Proof.
  intros fetched.
  eexists. split.
  { apply sortProducts_rows. apply fetch_caches. }
  destruct (String.eqb_spec key "revenue") as [->|H1];
    [|destruct (String.eqb_spec key "quantity") as [->|H2];
      [|destruct (String.eqb_spec key "code") as [->|H3]]].
  - split; [apply sort_perm|]. split; [|split; [discriminate|congruence]].
    intros _. eapply StronglySorted_weaken;
      [|apply (sort_strongly_sorted ProductTable.byRevenue)].
    + intros a b H. now apply Qle_bool_iff.
    + apply byRevenue_total.
    + apply byRevenue_trans.
  - split; [apply sort_perm|]. split; [discriminate|]. split; [|congruence].
    intros _. eapply StronglySorted_weaken;
      [|apply (sort_strongly_sorted ProductTable.byQuantity)].
    + intros a b H. now apply Qle_bool_iff.
    + apply byQuantity_total.
    + apply byQuantity_trans.
  - split; [apply sort_perm|]. split; [discriminate|].
    split; [discriminate|congruence].
  - split; [reflexivity|]. split; [congruence|]. split; [congruence|].
    reflexivity.
Qed.

(** X22. The product search does not depend on the case of the query
    nor on blanks in front of it: the lower-cased query, and the query
    with a leading space, show the same rows and leave the same state. *)
Theorem search_ignores_case_and_leading_blanks
    (query : string) (st : ProductTable.state) :
  ProductTable.filterProducts (JsString.toLowerCase query) st
  = ProductTable.filterProducts query st
  /\ ProductTable.filterProducts (String " " query) st
     = ProductTable.filterProducts query st.
Proof.
  unfold ProductTable.filterProducts.
  rewrite toLowerCase_idem. split; reflexivity.
Qed.

(** ** Query strings are URL-safe *)

Section SafeFacts.
Import JsString FilterState ChartReading.

Lemma allChars_append p a b :
  allChars p (String.append a b) = allChars p a && allChars p b.
Proof.
  induction a as [|x a IH]; [reflexivity|].
  rewrite append_cons. simpl. rewrite IH. apply andb_assoc.
Qed.

Lemma encode_char_safe c :
  allChars urlSafe (encodeURIComponent (String c "")) = true.
Proof. destruct c as [[] [] [] [] [] [] [] []]; reflexivity. Qed.

Lemma encode_safe s : allChars urlSafe (encodeURIComponent s) = true.
Proof.
  induction s as [|c r IH]; [reflexivity|].
  now rewrite encode_cons, allChars_append, encode_char_safe, IH.
Qed.

Lemma join_safe (l : list string) :
  Forall (fun s => allChars urlSafe s = true) l ->
  allChars urlSafe (join "&" l) = true.
Proof.
  induction 1 as [|s l Hs Hl IH]; [reflexivity|].
  destruct l as [|s' l']; [exact Hs|].
  change (join "&" (s :: s' :: l'))
    with (String.append s (String.append "&" (join "&" (s' :: l')))).
  now rewrite !allChars_append, Hs, IH.
Qed.
End SafeFacts.

(** X15. Whatever the parameters hold, the query string is made of
    unreserved characters and the marks [?], [&], [=] and [%] only:
    every other byte of a key or a value is percent-encoded. *)
Theorem query_string_is_url_safe (params : JsObject.object FilterState.value) :
  ChartReading.allChars ChartReading.urlSafe (FilterState.buildQuery params)
  = true.
Proof.
  destruct (buildQuery_cases params) as [[_ ->]|[_ ->]]; [reflexivity|].
  cbn [ChartReading.allChars]. rewrite join_safe; [reflexivity|].
  apply Forall_forall. intros s Hs. apply list_elem_of_In in Hs.
  apply in_map_iff in Hs as (k & <- & _).
  unfold FilterState.pair.
  change (String "=" ?r) with (String.append "=" r).
  now rewrite !allChars_append, !encode_safe.
Qed.

(** ** Sizes of the pages *)

(** X2. On every page from 1 to [ceil(N/50)] the table shows at least
    one and at most fifty rows, and exactly fifty on every page before
    the last. *)
Theorem pages_are_full_but_the_last
    (transactions : list Backend.transaction) (st : TransactionsTable.state)
    (p : nat)
    (Hfirst : (1 <= p)%nat)
    (Hlast : (Z.of_nat p
              <= TransactionsTable.totalPagesOf (length transactions))%Z) :
  let rows :=
    TransactionsTable.tbody
      (TransactionsTable.renderTransactionsTable transactions
         (TransactionsTable.setPage (Z.of_nat p) st)) in
  (1 <= length rows <= 50)%nat
  /\ ((Z.of_nat p < TransactionsTable.totalPagesOf (length transactions))%Z ->
      length rows = 50%nat)
  /\ (Z.of_nat p = TransactionsTable.totalPagesOf (length transactions) ->
      length rows = (length transactions - 50 * (p - 1))%nat).
Proof.
  intros rows.
  pose proof (totalPagesOf_bounds (length transactions)) as Hb.
  assert (Hne : transactions <> []).
  { intros ->.
    change (TransactionsTable.totalPagesOf (length [])) with 0%Z in Hlast.
    lia. }
  destruct p as [|q]; [lia|].
  unfold rows. rewrite page_rows by exact Hne.
  rewrite length_map, length_firstn, length_skipn.
  replace (S q - 1)%nat with q by lia.
  set (total := TransactionsTable.totalPagesOf (length transactions)) in *.
  split; [lia|]. split; intros; lia.
Qed.

(** Page 2 of the fifty-one records holds one row. *)
Lemma pages_are_full_but_the_last_witness :
  (1 <= 2)%nat
  /\ (Z.of_nat 2 <= TransactionsTable.totalPagesOf (length Examples.ledger))%Z
  /\ (1 <= length
             (TransactionsTable.tbody
                (TransactionsTable.renderTransactionsTable Examples.ledger
                   (TransactionsTable.setPage (Z.of_nat 2)
                      TransactionsTable.initial))) <= 50)%nat.
Proof.
  assert (H1 : (1 <= 2)%nat) by lia.
  assert (H2 : (Z.of_nat 2
                <= TransactionsTable.totalPagesOf (length Examples.ledger))%Z)
    by (vm_compute; discriminate).
  split; [exact H1|]. split; [exact H2|].
  exact (proj1 (pages_are_full_but_the_last Examples.ledger
                  TransactionsTable.initial 2 H1 H2)).
Defined.

(** ** The category totals keep the revenue *)

Section CategorySum.
Import JsObject Backend Aggregator ChartReading.
Variable memberText : string -> string.
Variable numberText : Q -> string.

Lemma sumQ_set (o : object bucket) k v :
  (sumQ (map (fun e => amount e.2) (set o k (Amount v)))
   == sumQ (map (fun e => amount e.2) o)
      - amount (default (Amount 0) (get o k)) + v)%Q.
Proof.
  induction o as [|[k0 v0] o IH].
  - cbn [set get map snd]. rewrite sumQ_cons.
    change (sumQ []) with 0%Q. simpl. ring.
  - cbn [set get].
    destruct (String.eqb k0 k).
    + cbn [map snd]. rewrite !sumQ_cons. simpl. ring.
    + cbn [map snd]. rewrite !sumQ_cons, IH. simpl. ring.
Qed.

Lemma categoryStep_sum cats t :
  ownWord t = true ->
  Forall (fun e : string * bucket => isAmount e.2 = true) cats ->
  (sumQ (map (fun e => amount e.2) (categoryStep memberText numberText cats t))
   == sumQ (map (fun e => amount e.2) cats)
      + (if described t then revenue t else 0))%Q.
Proof.
  intros Hown Hp. unfold categoryStep, described.
  destruct (truthy (Description t)) eqn:Hd; cbv beta iota zeta; [|ring].
  pose proof (ownWord_category t Hown Hd) as Hc.
  destruct (addTo_plain memberText numberText _ _ (revenue t) Hc Hp)
    as (v & -> & Hv).
  unfold store. rewrite (inherited_proto _ Hc).
  rewrite sumQ_set, Hv. ring.
Qed.

Lemma category_sum_fold ts cats :
  ownWords ts = true ->
  Forall (fun e : string * bucket => isAmount e.2 = true) cats ->
  (sumQ (map (fun e => amount e.2)
           (fold_left (categoryStep memberText numberText) ts cats))
   == sumQ (map (fun e => amount e.2) cats)
      + sumQ (map revenue (List.filter described ts)))%Q.
Proof.
  revert cats. induction ts as [|t ts IH]; intros cats Hown Hp.
  - simpl. ring.
  - unfold ownWords in Hown. simpl in Hown.
    apply andb_prop in Hown as [Ht Hts].
    change (fold_left (categoryStep memberText numberText) (t :: ts) cats)
      with (fold_left (categoryStep memberText numberText) ts
              (categoryStep memberText numberText cats t)).
    rewrite IH;
      [|exact Hts|apply (categoryStep_plain memberText numberText cats t Ht Hp)].
    rewrite categoryStep_sum by assumption.
    change (List.filter described (t :: ts))
      with (if described t then t :: List.filter described ts
            else List.filter described ts).
    destruct (described t).
    + change (map revenue (t :: List.filter described ts))
        with (revenue t :: map revenue (List.filter described ts)).
      rewrite sumQ_cons. ring.
    + ring.
Qed.

Lemma sumQ_perm (l l' : list Q) :
  Permutation l l' -> (sumQ l == sumQ l')%Q.
Proof.
  induction 1 as [|x l l' _ IH|x y l|l l' l'' _ IH1 _ IH2].
  - reflexivity.
  - rewrite !sumQ_cons, IH. reflexivity.
  - rewrite !sumQ_cons. ring.
  - now rewrite IH1.
Qed.
End CategorySum.


